(** * Food-court ordering backend: document store and order pricing

    A shallow embedding of [database.py] (the collection-agnostic CRUD
    helpers over a MongoDB driver) and of the order endpoints of [main.py],
    with the properties of the specification stated over them.

    Conventions.
    - Python exceptions are the [Raise] outcome of a small state-and-error
      monad [M] over the module-level handle [db].
    - What the environment supplies (the clock read by [datetime.now], the
      identifiers minted by [ObjectId()]) is passed in explicitly; so is
      what the server alone decides (the order of a sort, the effect of
      [$set] on a field name that is a path or an operator).
    - Python floats are IEEE-754 binary64 numbers, [spec_float] with
      [prec = 53] and [emax = 1024]. *)

From Stdlib Require Import ZArith List Strings.String Strings.Ascii Strings.Byte.
From Stdlib Require Import Floats.SpecFloat.
From stdpp Require Import base option list gmap strings.

Local Open Scope string_scope.
Local Open Scope list_scope.
Local Open Scope Z_scope.

(** ** Exceptions and the store monad *)

Inductive exn : Type :=
| StoreUnavailable                       (* Exception("Database not available...") *)
| TypeError                              (* subscripting the [None] handle *)
| InvalidId                              (* bson.errors.InvalidId *)
| DuplicateKeyError                      (* pymongo.errors.DuplicateKeyError *)
| WriteError                             (* pymongo.errors.WriteError *)
| OverflowError                          (* int too large to convert to float *)
| InvalidDocument                        (* bson.errors.InvalidDocument *)
| InvalidDocument_or_OverflowError       (* whichever of the two the encoder meets first *)
| RequestValidationError                 (* the request body does not fit its model *)
| HTTPException (status_code : Z) (detail : string).

Inductive outcome (A : Type) : Type :=
| Ok (a : A)
| Raise (e : exn).
Arguments Ok {A} a.
Arguments Raise {A} e.

(** ** Identifier codec: [bson.ObjectId]

    An ObjectId minted by the driver is twelve bytes; [str] prints them
    as 24 lowercase hexadecimal digits. [ObjectId(s)] accepts the strings
    of 24 characters that [bytes.fromhex] reads: pairs of hexadecimal
    digits, in either case, with ASCII whitespace allowed around the
    pairs. *)

Record ObjectId : Type := MkOid {
  oid_b0 : byte; oid_b1 : byte; oid_b2 : byte; oid_b3 : byte;
  oid_b4 : byte; oid_b5 : byte; oid_b6 : byte; oid_b7 : byte;
  oid_b8 : byte; oid_b9 : byte; oid_b10 : byte; oid_b11 : byte
}.

Definition oid_binary (o : ObjectId) : list byte :=
  [oid_b0 o; oid_b1 o; oid_b2 o; oid_b3 o; oid_b4 o; oid_b5 o;
   oid_b6 o; oid_b7 o; oid_b8 o; oid_b9 o; oid_b10 o; oid_b11 o].

Definition hex_digit (n : N) : ascii :=
  match n with
  | 0 => "0" | 1 => "1" | 2 => "2" | 3 => "3" | 4 => "4" | 5 => "5"
  | 6 => "6" | 7 => "7" | 8 => "8" | 9 => "9" | 10 => "a" | 11 => "b"
  | 12 => "c" | 13 => "d" | 14 => "e" | _ => "f"
  end%N%char.

Definition hex_val (c : ascii) : option N :=
  let n := N_of_ascii c in
  if ((48 <=? n) && (n <=? 57))%N then Some (n - 48)%N
  else if ((97 <=? n) && (n <=? 102))%N then Some (n - 87)%N
  else if ((65 <=? n) && (n <=? 70))%N then Some (n - 55)%N
  else None.

(** [binascii.hexlify] *)
Fixpoint hexlify (bs : list byte) : string :=
  match bs with
  | [] => EmptyString
  | b :: bs' =>
      let n := Byte.to_N b in
      String (hex_digit (n / 16)) (String (hex_digit (n mod 16)) (hexlify bs'))
  end.

(** ASCII whitespace: space, and the controls from tab to carriage
    return. *)
Definition is_space (c : ascii) : bool :=
  let n := N_of_ascii c in
  ((n =? 32) || ((9 <=? n) && (n <=? 13)))%N.

(** [bytes.fromhex]: pairs of hexadecimal digits; whitespace before a
    pair and after the last one is skipped, [None] is [ValueError]. *)
Fixpoint fromhex (s : string) : option (list byte) :=
  match s with
  | EmptyString => Some []
  | String c1 s1 =>
      if is_space c1 then fromhex s1
      else
        match s1 with
        | String c2 s' =>
            match hex_val c1, hex_val c2, fromhex s' with
            | Some h, Some l, Some bs =>
                match Byte.of_N (16 * h + l) with
                | Some b => Some (b :: bs)
                | None => None
                end
            | _, _, _ => None
            end
        | EmptyString => None
        end
  end.

(** [str(oid)] *)
Definition oid_str (o : ObjectId) : string := hexlify (oid_binary o).

(** What [ObjectId(s)] holds, the bytes that [bytes.fromhex] read: twelve
    for 24 digits, fewer when [s] has whitespace. *)
Inductive parsed_id : Type :=
| Twelve (o : ObjectId)
| Fewer (bs : list byte).

(** [ObjectId(s)] on a [str]: [None] is the [InvalidId] exception, raised
    unless [s] has 24 characters that [bytes.fromhex] reads. *)
Definition ObjectId_of_str (s : string) : option parsed_id :=
  if (String.length s =? 24)%nat then
    match fromhex s with
    | Some [b0; b1; b2; b3; b4; b5; b6; b7; b8; b9; b10; b11] =>
        Some (Twelve (MkOid b0 b1 b2 b3 b4 b5 b6 b7 b8 b9 b10 b11))
    | Some bs => Some (Fewer bs)
    | None => None
    end
  else None.

(** The key that [s] names: the identifier [ObjectId(s)] when it has the
    twelve bytes of a stored key. *)
Definition oid_parse (s : string) : option ObjectId :=
  match ObjectId_of_str s with
  | Some (Twelve o) => Some o
  | _ => None
  end.

(** Equality tests are written so that they evaluate: the proofs they
    carry are never inspected. *)
#[global] Instance byte_eq_dec : EqDecision byte := Byte.byte_eq_dec.
#[global] Instance ObjectId_eq_dec : EqDecision ObjectId.
Proof.
  intros a b. destruct (decide (oid_binary a = oid_binary b)) as [e|n].
  - left. abstract (revert e; destruct a, b; cbn; intros e; injection e;
                    intros; subst; reflexivity).
  - right. abstract (intros ->; apply n; reflexivity).
Defined.

(** ** BSON values and documents *)

Set Warnings "-register-all".

Inductive value : Type :=
| VNone
| VBool (b : bool)
| VInt (z : Z)
| VFloat (f : spec_float)
| VStr (s : string)
| VDate (ms : Z)                         (* UTC datetime, milliseconds since the epoch *)
| VOid (o : ObjectId)
| VList (vs : list value)
| VDict (kvs : list (string * value)).   (* embedded document, in field order *)

#[global] Instance spec_float_eq_dec : EqDecision spec_float.
Proof. solve_decision. Defined.

Definition value_eq_dec_aux : forall a b : value, {a = b} + {a <> b}.
Proof.
  fix IH 1.
  assert (IHl : forall l1 l2 : list value, {l1 = l2} + {l1 <> l2}).
  { fix IHl 1. intros [|x l1] [|y l2]; try (right; discriminate); [left; reflexivity|].
    destruct (IH x y) as [e1|n1]; [|right; congruence].
    destruct (IHl l1 l2) as [e2|n2]; [left; congruence|right; congruence]. }
  assert (IHd : forall l1 l2 : list (string * value), {l1 = l2} + {l1 <> l2}).
  { fix IHd 1. intros [|[k x] l1] [|[k' y] l2]; try (right; discriminate); [left; reflexivity|].
    destruct (string_dec k k') as [e0|n0]; [|right; congruence].
    destruct (IH x y) as [e1|n1]; [|right; congruence].
    destruct (IHd l1 l2) as [e2|n2]; [left; congruence|right; congruence]. }
  intros a b; destruct a, b; try (right; discriminate); try (left; reflexivity).
  - destruct (bool_dec b0 b) as [e|n]; [left; congruence|right; congruence].
  - destruct (Z.eq_dec z z0) as [e|n]; [left; congruence|right; congruence].
  - destruct (spec_float_eq_dec f f0) as [e|n]; [left; congruence|right; congruence].
  - destruct (string_dec s s0) as [e|n]; [left; congruence|right; congruence].
  - destruct (Z.eq_dec ms ms0) as [e|n]; [left; congruence|right; congruence].
  - destruct (ObjectId_eq_dec o o0) as [e|n]; [left; congruence|right; congruence].
  - destruct (IHl vs vs0) as [e|n]; [left; congruence|right; congruence].
  - destruct (IHd kvs kvs0) as [e|n]; [left; congruence|right; congruence].
Defined.

#[global] Instance value_eq_dec : EqDecision value := value_eq_dec_aux.

(** What the BSON encoder accepts: a Python [int] must fit eight bytes,
    or [OverflowError] is raised; a field name must not hold a NUL, or
    [InvalidDocument] is raised. *)
Definition fits_int64 (z : Z) : bool :=
  (-9223372036854775808 <=? z) && (z <=? 9223372036854775807).

Definition key_encodable (k : string) : bool :=
  negb (existsb (Ascii.eqb Ascii.zero) (list_ascii_of_string k)).

Fixpoint ints_encodable (v : value) : bool :=
  match v with
  | VInt z => fits_int64 z
  | VList vs => forallb ints_encodable vs
  | VDict kvs => forallb (fun kv => ints_encodable (snd kv)) kvs
  | _ => true
  end.

Fixpoint keys_encodable (v : value) : bool :=
  match v with
  | VList vs => forallb keys_encodable vs
  | VDict kvs =>
      forallb (fun kv => key_encodable (fst kv) && keys_encodable (snd kv)) kvs
  | _ => true
  end.

Definition bson_encodable (v : value) : bool :=
  ints_encodable v && keys_encodable v.

(** A document is a Python [dict] / BSON document: field name to value. *)
Abbreviation document := (gmap string value).

Definition doc_ints_encodable (d : document) : bool :=
  forallb (fun kv => ints_encodable (snd kv)) (map_to_list d).

Definition doc_keys_encodable (d : document) : bool :=
  forallb (fun kv => key_encodable (fst kv) && keys_encodable (snd kv)) (map_to_list d).

Definition doc_encodable (d : document) : bool :=
  doc_ints_encodable d && doc_keys_encodable d.

(** The exception of the encoder, if any. It reports the first element
    it cannot encode, in the order of the [dict]; for a document with
    both kinds of element a map does not tell which one that is. *)
Definition encode_error (d : document) : option exn :=
  match doc_ints_encodable d, doc_keys_encodable d with
  | true, true => None
  | false, true => Some OverflowError
  | true, false => Some InvalidDocument
  | false, false => Some InvalidDocument_or_OverflowError
  end.

(** Field names that are stored and updated as they stand: not empty, no
    NUL, no dot, no leading dollar. *)
Definition plain_key (k : string) : bool :=
  match k with
  | EmptyString => false
  | String c _ =>
      negb (Ascii.eqb c "$"%char) &&
      forallb (fun a => negb (Ascii.eqb a Ascii.zero) && negb (Ascii.eqb a "."%char))
        (list_ascii_of_string k)
  end.

Fixpoint plain_value (v : value) : bool :=
  match v with
  | VList vs => forallb plain_value vs
  | VDict kvs => forallb (fun kv => plain_key (fst kv) && plain_value (snd kv)) kvs
  | _ => true
  end.

Definition plain_doc (d : document) : bool :=
  forallb (fun kv => plain_key (fst kv) && plain_value (snd kv)) (map_to_list d).

(** A database maps collection names to their documents in natural
    (insertion) order; a collection that was never written to is empty. *)
Abbreviation database := (gmap string (list document)).

(** The module-level [db]: [None] when [DATABASE_URL] or [DATABASE_NAME]
    is not set. *)
Definition handle : Type := option database.

Definition M (A : Type) : Type := handle -> outcome A * handle.

Definition ret {A} (a : A) : M A := fun w => (Ok a, w).
Definition raise {A} (e : exn) : M A := fun w => (Raise e, w).
Definition bind {A B} (m : M A) (k : A -> M B) : M B :=
  fun w => match m w with
           | (Ok a, w') => k a w'
           | (Raise e, w') => (Raise e, w')
           end.
(** [try: m except Exception: h] *)
Definition try_except {A} (m : M A) (h : M A) : M A :=
  fun w => match m w with
           | (Ok a, w') => (Ok a, w')
           | (Raise _, w') => h w'
           end.
(** an expression that may raise, such as [ObjectId(_id)] *)
Definition lift_option {A} (e : exn) (o : option A) : M A :=
  match o with Some a => ret a | None => raise e end.

Declare Scope store_scope.
Delimit Scope store_scope with store.
Notation "'let!' x ':=' m 'in' k" := (bind m (fun x => k))
  (at level 10, x name, m at level 100, k at level 200) : store_scope.
Notation "m '>>' k" := (bind m (fun _ => k))
  (at level 100, k at level 200, right associativity) : store_scope.
Local Open Scope store_scope.

(** ** The driver: [pymongo] collections *)

(** A compiled query filter; [{}] matches every document. *)
Abbreviation query := (document -> bool).
Definition match_all : query := fun _ => true.
(** [{"_id": oid}] *)
Definition by_id (o : ObjectId) : query :=
  fun d => bool_decide (d !! "_id" = Some (VOid o)).
(** [{"_id": ObjectId(s)}]: an identifier of fewer than twelve bytes is
    the key of no record. *)
Definition by_key (k : parsed_id) : query :=
  match k with
  | Twelve o => by_id o
  | Fewer _ => fun _ => false
  end.

Record UpdateResult : Type := { matched_count : Z; modified_count : Z }.
Record DeleteResult : Type := { deleted_count : Z }.

(** The documents of collection [c]. *)
Definition documents_of (c : string) (d : database) : list document :=
  default [] (d !! c).

(** [db[collection_name]] *)
Definition collection (c : string) : M (list document) :=
  fun w => match w with
           | None => (Raise TypeError, w)
           | Some d => (Ok (documents_of c d), w)
           end.

Definition write_collection (c : string) (docs : list document) : M unit :=
  fun w => match w with
           | None => (Raise TypeError, w)
           | Some d => (Ok tt, Some (<[c := docs]> d))
           end.

(** The first document matching [q], with the documents before and after it. *)
Fixpoint split_first (q : query) (docs : list document)
  : option (list document * document * list document) :=
  match docs with
  | [] => None
  | d :: rest =>
      if q d then Some ([], d, rest)
      else match split_first q rest with
           | Some (pre, m, suf) => Some (d :: pre, m, suf)
           | None => None
           end
  end.

Definition same_id (v : value) : query :=
  fun d => bool_decide (d !! "_id" = Some v).

(** [insert_one]: an [_id] is minted when the document has none; the
    document is encoded, its field names as they stand; the primary key is
    unique. Returns [inserted_id]. *)
Definition insert_one (c : string) (fresh : ObjectId) (doc : document) : M value :=
  let! docs := collection c in
  let inserted_id := default (VOid fresh) (doc !! "_id") in
  let stored := <["_id" := inserted_id]> doc in
  match encode_error stored with
  | Some e => raise e
  | None =>
      if existsb (same_id inserted_id) docs then raise DuplicateKeyError
      else write_collection c (docs ++ [stored]) >> ret inserted_id
  end.

(** [find(filter)]: the matching documents in natural order. *)
Definition find (c : string) (q : query) : M (list document) :=
  let! docs := collection c in ret (List.filter q docs).

(** [find_one(filter)] *)
Definition find_one (c : string) (q : query) : M (option document) :=
  let! docs := collection c in ret (List.find q docs).

(** [$set] leaves the immutable [_id] alone: a new value for it is an error. *)
Definition id_unchanged (fields d : document) : bool :=
  match fields !! "_id" with
  | Some v => bool_decide (d !! "_id" = Some v)
  | None => true
  end.

Section Update.

(** [$set] with a field name that is not plain is the server's own: a
    dot makes the name a path into embedded documents, a leading dollar an
    operator. For such fields and the matched document, if any, the server
    gives the document after the update, or its error. *)
Variable set_paths : document -> option document -> outcome document.

(** [update_one(filter, {"$set": fields})]: the update is encoded; the
    first match is merged with [fields], field by field when the names are
    plain; the [_id] of a document never changes; an update that leaves the
    document as it was is matched but not modified, and not written. *)
Definition update_one (c : string) (q : query) (fields : document) : M UpdateResult :=
  let! docs := collection c in
  match encode_error fields with
  | Some e => raise e
  | None =>
      if plain_doc fields then
        match split_first q docs with
        | None => ret {| matched_count := 0; modified_count := 0 |}
        | Some (pre, d, suf) =>
            if negb (id_unchanged fields d) then raise WriteError
            else
              let d' := fields ∪ d in
              if bool_decide (d' = d)
              then ret {| matched_count := 1; modified_count := 0 |}
              else write_collection c (pre ++ d' :: suf) >>
                   ret {| matched_count := 1; modified_count := 1 |}
        end
      else
        match split_first q docs with
        | None =>
            match set_paths fields None with
            | Raise e => raise e
            | Ok _ => ret {| matched_count := 0; modified_count := 0 |}
            end
        | Some (pre, d, suf) =>
            match set_paths fields (Some d) with
            | Raise e => raise e
            | Ok d' =>
                if negb (bool_decide (d' !! "_id" = d !! "_id")) then raise WriteError
                else if bool_decide (d' = d)
                then ret {| matched_count := 1; modified_count := 0 |}
                else write_collection c (pre ++ d' :: suf) >>
                     ret {| matched_count := 1; modified_count := 1 |}
            end
        end
  end.

End Update.

(** [delete_one(filter)] *)
Definition delete_one (c : string) (q : query) : M DeleteResult :=
  let! docs := collection c in
  match split_first q docs with
  | None => ret {| deleted_count := 0 |}
  | Some (pre, _, suf) =>
      write_collection c (pre ++ suf) >> ret {| deleted_count := 1 |}
  end.

(** [cursor.limit(n)]: 0 is no limit, a negative limit counts as its
    absolute value. *)
Definition cursor_limit (n : Z) (docs : list document) : list document :=
  if (n =? 0) then docs else firstn (Z.to_nat (Z.abs n)) docs.

(** ** Python floats

    [float] is binary64; arithmetic rounds to nearest, ties to even. *)

Abbreviation float := spec_float.
Definition fadd : float -> float -> float := SFadd 53 1024.
Definition fmul : float -> float -> float := SFmul 53 1024.

(** The double nearest to the rational [n / d]: what [strtod] returns for
    a decimal numeral, and the quotient of two exactly represented
    integers. *)
Definition float_of_ratio (s : bool) (n d : positive) : float :=
  let '(mz, ez, lz) := SFdiv_core_binary 53 1024 (Zpos n) 0 (Zpos d) 0 in
  binary_round_aux 53 1024 s mz ez lz.

(** The literal with the decimal digits [digits] and [places] of them
    after the point: [float_literal 8 2] is [0.08]. *)
Definition float_literal (digits : Z) (places : nat) : float :=
  match digits with
  | Z0 => S754_zero false
  | Zpos n => float_of_ratio false n (Z.to_pos (10 ^ Z.of_nat places))
  | Zneg n => float_of_ratio true n (Z.to_pos (10 ^ Z.of_nat places))
  end.

(** [float(z)] for a Python [int], as in the mixed product [x * z]. *)
Definition float_of_int (z : Z) : outcome float :=
  match binary_normalize 53 1024 z 0 false with
  | S754_infinity _ => Raise OverflowError
  | f => Ok f
  end.

(** [n / d] rounded to an integer, a tie going to the even neighbour. *)
Definition div_half_even (n d : Z) : Z :=
  let q := n / d in
  match 2 * (n mod d) ?= d with
  | Lt => q
  | Gt => q + 1
  | Eq => if Z.even q then q else q + 1
  end.

(** [n / d] rounded to an integer, a tie going away from zero. *)
Definition div_half_up (n d : Z) : Z :=
  let q := n / d in
  if 2 * (n mod d) <? d then q else q + 1.

(** The integer number of units [10^-ndigits] that the magnitude of a
    finite float [m * 2^e] rounds to, under a rule [rnd] for the division. *)
Definition scaled_digits (rnd : Z -> Z -> Z) (m : positive) (e : Z) (ndigits : nat) : Z :=
  let p := 10 ^ Z.of_nat ndigits in
  if 0 <=? e then Zpos m * 2 ^ e * p else rnd (Zpos m * p) (2 ^ (- e)).

Definition round_with (rnd : Z -> Z -> Z) (x : float) (ndigits : nat) : float :=
  match x with
  | S754_finite s m e =>
      match scaled_digits rnd m e ndigits with
      | Zpos n => float_of_ratio s n (Z.to_pos (10 ^ Z.of_nat ndigits))
      | _ => S754_zero s
      end
  | _ => x
  end.

(** The builtin [round(x, ndigits)] on a float, [ndigits >= 0]: the exact
    binary value is printed to [ndigits] places correctly rounded, half to
    even, and the numeral is read back. *)
Definition py_round (x : float) (ndigits : nat) : float :=
  round_with div_half_even x ndigits.

(** Rounding of the same exact value with ties away from zero ("half-up"). *)
Definition round_half_up (x : float) (ndigits : nat) : float :=
  round_with div_half_up x ndigits.

(** ** [schemas.py] *)

Module schemas.

(** [Literal["pending", "preparing", "ready", "completed", "cancelled"]] *)
Definition status_values : list string :=
  ["pending"; "preparing"; "ready"; "completed"; "cancelled"].

Record Order : Type := {
  user_id : option string;
  order_number : string;
  items : list (list (string * value));
  subtotal : float;
  tax : float;
  total : float;
  status : string;
  notes : option string;
  contact_email : option string;
  contact_phone : option string;
  pickup_name : option string
}.

End schemas.

Definition opt_str (o : option string) : value :=
  match o with Some s => VStr s | None => VNone end.

(** [Order.model_dump()] *)
Definition Order_model_dump (o : schemas.Order) : document :=
  list_to_map
    [("user_id", opt_str (schemas.user_id o));
     ("order_number", VStr (schemas.order_number o));
     ("items", VList (List.map VDict (schemas.items o)));
     ("subtotal", VFloat (schemas.subtotal o));
     ("tax", VFloat (schemas.tax o));
     ("total", VFloat (schemas.total o));
     ("status", VStr (schemas.status o));
     ("notes", opt_str (schemas.notes o));
     ("contact_email", opt_str (schemas.contact_email o));
     ("contact_phone", opt_str (schemas.contact_phone o));
     ("pickup_name", opt_str (schemas.pickup_name o))].

(** ** Query filters and request models of the handlers *)

(** The operand of an equality filter [{field: operand}], a string or a
    boolean here. *)
Inductive operand : Type :=
| OStr (s : string)
| OBool (b : bool).

Definition operand_value (x : operand) : value :=
  match x with OStr s => VStr s | OBool b => VBool b end.

(** [{field: operand}]: the field equals the operand, or is an array that
    holds it. *)
Definition field_eq (k : string) (x : operand) : query :=
  fun d => match d !! k with
           | Some (VList vs) => existsb (fun v => bool_decide (v = operand_value x)) vs
           | Some v => bool_decide (v = operand_value x)
           | None => false
           end.

(** The filter [{"email": e}] of the two authentication handlers. *)
Definition by_email (e : string) : query := field_eq "email" (OStr e).

Module SignupRequest.
Record t : Type := { name : string; email : string; password : string }.
End SignupRequest.

Module LoginRequest.
Record t : Type := { email : string; password : string }.
End LoginRequest.

Module LoginResponse.
Record t : Type := { user_id : string; name : string; email : string; is_admin : bool }.
End LoginResponse.

Module CategoryCreate.
Record t : Type := {
  name : string;
  description : option string;
  image_url : option string
}.
End CategoryCreate.

Module FoodItemCreate.
Record t : Type := {
  title : string;
  description : option string;
  price : float;
  category_id : string;
  image_url : option string;
  tags : option (list string);
  is_available : bool
}.
End FoodItemCreate.

(** [User(name=..., email=..., password_hash=...).model_dump()] *)
Definition User_model_dump (name email password_hash : string) : document :=
  list_to_map
    [("name", VStr name); ("email", VStr email);
     ("password_hash", VStr password_hash); ("is_admin", VBool false);
     ("avatar_url", VNone); ("is_active", VBool true)].

(** [CategoryCreate.model_dump()] *)
Definition CategoryCreate_model_dump (p : CategoryCreate.t) : document :=
  list_to_map
    [("name", VStr (CategoryCreate.name p));
     ("description", opt_str (CategoryCreate.description p));
     ("image_url", opt_str (CategoryCreate.image_url p))].

(** The dump of the [Category] built from [payload.model_dump()];
    [is_active] takes its default. *)
Definition Category_model_dump (p : CategoryCreate.t) : document :=
  <["is_active" := VBool true]> (CategoryCreate_model_dump p).

Definition opt_tags (o : option (list string)) : value :=
  match o with Some l => VList (List.map VStr l) | None => VNone end.

(** [FoodItemCreate.model_dump()] *)
Definition FoodItemCreate_model_dump (p : FoodItemCreate.t) : document :=
  list_to_map
    [("title", VStr (FoodItemCreate.title p));
     ("description", opt_str (FoodItemCreate.description p));
     ("price", VFloat (FoodItemCreate.price p));
     ("category_id", VStr (FoodItemCreate.category_id p));
     ("image_url", opt_str (FoodItemCreate.image_url p));
     ("tags", opt_tags (FoodItemCreate.tags p));
     ("is_available", VBool (FoodItemCreate.is_available p))].

(** [x >= 0] on floats: false for a NaN. *)
Definition float_ge_zero (x : float) : bool :=
  match SFcompare x (S754_zero false) with
  | Some Eq | Some Gt => true
  | _ => false
  end.

(** [x < 0] on floats. *)
Definition float_lt_zero (x : float) : bool :=
  match SFcompare x (S754_zero false) with
  | Some Lt => true
  | _ => false
  end.

(** ** [database.py] *)

(** A reading of [datetime.now(timezone.utc)], in microseconds since the
    epoch; BSON keeps datetimes to the millisecond. *)
Definition datetime : Type := Z.
Definition bson_datetime (t : datetime) : value := VDate (t / 1000).

Section Backend.

(** Python's [str] on the BSON values other than ObjectId and [str]. *)
Variable str_other : value -> string.

(** [cursor.sort(spec)] for a non-empty list of (field, direction) pairs:
    the order BSON puts on values is the server's. *)
Variable cursor_sort : list (string * Z) -> list document -> list document.

(** The server's [$set] for field names that are not plain. *)
Variable set_paths : document -> option document -> outcome document.

Definition py_str (v : value) : string :=
  match v with
  | VOid o => oid_str o
  | VStr s => s
  | _ => str_other v
  end.

Definition _ensure_db : M unit :=
  fun w => match w with
           | None => (Raise StoreUnavailable, w)
           | Some _ => (Ok tt, w)
           end.

Definition create_document (now : datetime) (fresh : ObjectId)
    (collection_name : string) (data : document) : M string :=
  _ensure_db >>
  let payload := data in
  let payload := <["created_at" := bson_datetime now]> payload in
  let payload := <["updated_at" := bson_datetime now]> payload in
  let! inserted_id := insert_one collection_name fresh payload in
  ret (py_str inserted_id).

Definition serialize_doc (doc : option document) : option document :=
  match doc with
  | None => None
  | Some d =>
      if bool_decide (d = ∅) then None
      else match d !! "_id" with
           | Some i => Some (<["_id" := VStr (py_str i)]> d)
           | None => Some d
           end
  end.

Definition get_documents (collection_name : string) (filter_dict : option query)
    (limit : option Z) (sort : option (list (string * Z))) : M (list (option document)) :=
  _ensure_db >>
  let! cursor := find collection_name (default match_all filter_dict) in
  let cursor :=
    match sort with
    | Some ((_ :: _) as spec) => cursor_sort spec cursor
    | _ => cursor
    end in
  let cursor :=
    match limit with
    | Some n => if (n =? 0) then cursor else cursor_limit n cursor
    | None => cursor
    end in
  ret (List.map (fun doc => serialize_doc (Some doc)) cursor).

Definition get_document_by_id (collection_name : string) (_id : string)
  : M (option document) :=
  _ensure_db >>
  try_except
    (let! oid := lift_option InvalidId (ObjectId_of_str _id) in
     let! doc := find_one collection_name (by_key oid) in
     ret (match doc with
          | Some d => if bool_decide (d = ∅) then None else serialize_doc (Some d)
          | None => None
          end))
    (ret None).

Definition update_document (now : datetime) (collection_name : string)
    (_id : string) (update_data : document) : M bool :=
  _ensure_db >>
  let update_set := update_data in
  let update_set := <["updated_at" := bson_datetime now]> update_set in
  let! oid := lift_option InvalidId (ObjectId_of_str _id) in
  let! result := update_one set_paths collection_name (by_key oid) update_set in
  ret (0 <? modified_count result).

Definition delete_document (collection_name : string) (_id : string) : M bool :=
  _ensure_db >>
  let! oid := lift_option InvalidId (ObjectId_of_str _id) in
  let! result := delete_one collection_name (by_key oid) in
  ret (0 <? deleted_count result).

(** ** [main.py]: orders *)

Record CartItem : Type := {
  item_id : string;
  title : string;
  price : float;
  quantity : Z;
  image_url : option string
}.

Record CreateOrderRequest : Type := {
  user_id : option string;
  items : list CartItem;
  notes : option string;
  contact_email : option string;
  contact_phone : option string;
  pickup_name : option string
}.

Record UpdateOrderStatusRequest : Type := { status : string }.

(** [CartItem.model_dump()] *)
Definition CartItem_model_dump (i : CartItem) : list (string * value) :=
  [("item_id", VStr (item_id i));
   ("title", VStr (title i));
   ("price", VFloat (price i));
   ("quantity", VInt (quantity i));
   ("image_url", opt_str (image_url i))].

(** [i.price * i.quantity] *)
Definition line_amount (i : CartItem) : outcome float :=
  match float_of_int (quantity i) with
  | Ok q => Ok (fmul (price i) q)
  | Raise e => Raise e
  end.

(** [acc + x] for the running value of [sum], which starts at the int 0 *)
Definition sum_step (acc : outcome float) (x : outcome float) : outcome float :=
  match acc, x with
  | Ok a, Ok b => Ok (fadd a b)
  | Raise e, _ => Raise e
  | _, Raise e => Raise e
  end.

(** [sum(i.price * i.quantity for i in lines)], left to right *)
Definition cart_subtotal (lines : list CartItem) : outcome float :=
  fold_left (fun acc i => sum_step acc (line_amount i)) lines (Ok (S754_zero false)).

Definition lift_outcome {A} (o : outcome A) : M A :=
  match o with Ok a => ret a | Raise e => raise e end.

Definition TAX_RATE : float := float_literal 8 2.

Definition ascii_upper (c : ascii) : ascii :=
  let n := N_of_ascii c in
  if ((97 <=? n) && (n <=? 122))%N then ascii_of_N (n - 32) else c.

Fixpoint upper (s : string) : string :=
  match s with
  | EmptyString => EmptyString
  | String c s' => String (ascii_upper c) (upper s')
  end.

(** [s[-n:]] *)
Definition last_chars (n : nat) (s : string) : string :=
  String.substring (String.length s - n) n s.

(** [f"ORD-{str(oid)[-6:].upper()}"] *)
Definition make_order_number (o : ObjectId) : string :=
  String.append "ORD-" (upper (last_chars 6 (oid_str o))).

(** [POST /orders]. [number_oid] is the identifier minted for the order
    number, [fresh] the one minted by the insert. *)
Definition create_order (now : datetime) (number_oid fresh : ObjectId)
    (payload : CreateOrderRequest) : M document :=
  match items payload with
  | [] => raise (HTTPException 400 "Cart is empty")
  | _ :: _ =>
      let! subtotal := lift_outcome (cart_subtotal (items payload)) in
      let tax := py_round (fmul subtotal TAX_RATE) 2 in
      let total := py_round (fadd subtotal tax) 2 in
      let order_number := make_order_number number_oid in
      let order :=
        {| schemas.user_id := user_id payload;
           schemas.order_number := order_number;
           schemas.items := List.map CartItem_model_dump (items payload);
           schemas.subtotal := subtotal;
           schemas.tax := tax;
           schemas.total := total;
           schemas.status := "pending";
           schemas.contact_email := contact_email payload;
           schemas.contact_phone := contact_phone payload;
           schemas.pickup_name := pickup_name payload;
           schemas.notes := notes payload |} in
      let! order_id := create_document now fresh "order" (Order_model_dump order) in
      ret (list_to_map
             [("_id", VStr order_id);
              ("order_number", VStr order_number);
              ("total", VFloat total)])
  end.

(** The body of a status update is validated against
    [UpdateOrderStatusRequest]: a [status] field that is a [str]. *)
Definition UpdateOrderStatusRequest_validate (body : document)
  : outcome UpdateOrderStatusRequest :=
  match body !! "status" with
  | Some (VStr s) => Ok {| status := s |}
  | _ => Raise RequestValidationError
  end.

(** [PUT /admin/orders/{order_id}/status] *)
Definition update_order_status (now : datetime) (order_id : string)
    (payload : UpdateOrderStatusRequest) : M document :=
  let! ok := update_document now "order" order_id
               (list_to_map [("status", VStr (status payload))]) in
  if negb ok then raise (HTTPException 404 "Order not found")
  else ret (list_to_map [("updated", VBool true)]).

(** The route as the framework serves it: validation of the body, then
    the handler. *)
Definition put_order_status (now : datetime) (order_id : string) (body : document)
  : M document :=
  let! payload := lift_outcome (UpdateOrderStatusRequest_validate body) in
  update_order_status now order_id payload.

(** ** [main.py]: the other handlers *)

(** [pwd_context.hash(secret)], with the salt it draws, and
    [pwd_context.verify(secret, hash)] on whatever the record holds. *)
Variable pwd_context_hash : string -> string -> string.
Variable pwd_context_verify : string -> value -> outcome bool.

(** The exceptions of a model that rejects its input and of a missing
    [dict] key. *)
Variable ValidationError : exn.
Variable KeyError : exn.

(** [LoginResponse(user_id=..., name=..., email=..., is_admin=...)] on
    values read from a record: the model's own validation and coercion. *)
Variable LoginResponse_validate :
  value -> value -> value -> value -> outcome LoginResponse.t.

(** [POST /auth/signup] *)
Definition signup (now : datetime) (fresh : ObjectId) (salt : string)
    (payload : SignupRequest.t) : M LoginResponse.t :=
  let! existing := get_documents "user"
                     (Some (field_eq "email" (OStr (SignupRequest.email payload))))
                     (Some 1) None in
  match existing with
  | _ :: _ => raise (HTTPException 400 "Email already registered")
  | [] =>
      let password_hash := pwd_context_hash salt (SignupRequest.password payload) in
      let user := User_model_dump (SignupRequest.name payload)
                    (SignupRequest.email payload) password_hash in
      let! user_id := create_document now fresh "user" user in
      ret {| LoginResponse.user_id := user_id;
             LoginResponse.name := SignupRequest.name payload;
             LoginResponse.email := SignupRequest.email payload;
             LoginResponse.is_admin := false |}
  end.

(** [POST /auth/login] *)
Definition login (payload : LoginRequest.t) : M LoginResponse.t :=
  let! users := get_documents "user"
                  (Some (field_eq "email" (OStr (LoginRequest.email payload))))
                  (Some 1) None in
  match users with
  | [] => raise (HTTPException 401 "Invalid credentials")
  | None :: _ => raise TypeError
  | Some user :: _ =>
      match user !! "password_hash" with
      | None => raise KeyError
      | Some h =>
          let! ok := lift_outcome (pwd_context_verify (LoginRequest.password payload) h) in
          if negb ok then raise (HTTPException 401 "Invalid credentials")
          else
            match user !! "_id", user !! "name", user !! "email" with
            | Some i, Some n, Some e =>
                lift_outcome
                  (LoginResponse_validate i n e
                     (default (VBool false) (user !! "is_admin")))
            | _, _, _ => raise KeyError
            end
      end
  end.

(** [GET /categories] *)
Definition list_categories : M (list (option document)) :=
  get_documents "category" (Some (field_eq "is_active" (OBool true))) None
    (Some [("name", 1)]).

(** [POST /admin/categories] *)
Definition create_category (now : datetime) (fresh : ObjectId)
    (payload : CategoryCreate.t) : M document :=
  let! cat_id := create_document now fresh "category" (Category_model_dump payload) in
  ret (list_to_map [("_id", VStr cat_id)]).

(** [PUT /admin/categories/{category_id}] *)
Definition update_category (now : datetime) (category_id : string)
    (payload : CategoryCreate.t) : M document :=
  let! ok := update_document now "category" category_id
               (CategoryCreate_model_dump payload) in
  if negb ok then raise (HTTPException 404 "Category not found")
  else ret (list_to_map [("updated", VBool true)]).

(** [DELETE /admin/categories/{category_id}] *)
Definition remove_category (category_id : string) : M document :=
  let! ok := delete_document "category" category_id in
  if negb ok then raise (HTTPException 404 "Category not found")
  else ret (list_to_map [("deleted", VBool true)]).

(** The dump of the [Fooditem] built from [payload.model_dump()]: [price]
    must be [>= 0] and [tags] a list; [rating] takes its default. *)
Definition Fooditem_model_dump (p : FoodItemCreate.t) : outcome document :=
  if float_ge_zero (FoodItemCreate.price p) then
    match FoodItemCreate.tags p with
    | Some _ => Ok (<["rating" := VFloat (S754_zero false)]> (FoodItemCreate_model_dump p))
    | None => Raise ValidationError
    end
  else Raise ValidationError.

(** [GET /items/{item_id}] *)
Definition get_item (item_id : string) : M document :=
  let! item := get_document_by_id "fooditem" item_id in
  match item with
  | Some d => if bool_decide (d = ∅) then raise (HTTPException 404 "Item not found")
              else ret d
  | None => raise (HTTPException 404 "Item not found")
  end.

(** [POST /admin/items] *)
Definition create_item (now : datetime) (fresh : ObjectId)
    (payload : FoodItemCreate.t) : M document :=
  let! item := lift_outcome (Fooditem_model_dump payload) in
  let! item_id := create_document now fresh "fooditem" item in
  ret (list_to_map [("_id", VStr item_id)]).

(** [PUT /admin/items/{item_id}] *)
Definition update_item (now : datetime) (item_id : string)
    (payload : FoodItemCreate.t) : M document :=
  let! ok := update_document now "fooditem" item_id
               (FoodItemCreate_model_dump payload) in
  if negb ok then raise (HTTPException 404 "Item not found")
  else ret (list_to_map [("updated", VBool true)]).

(** [DELETE /admin/items/{item_id}] *)
Definition delete_item (item_id : string) : M document :=
  let! ok := delete_document "fooditem" item_id in
  if negb ok then raise (HTTPException 404 "Item not found")
  else ret (list_to_map [("deleted", VBool true)]).

(** [GET /orders/{order_id}] *)
Definition get_order (order_id : string) : M document :=
  let! order := get_document_by_id "order" order_id in
  match order with
  | Some d => if bool_decide (d = ∅) then raise (HTTPException 404 "Order not found")
              else ret d
  | None => raise (HTTPException 404 "Order not found")
  end.

(** [GET /orders]: an absent or empty [user_id] selects every order. *)
Definition list_orders (user_id : option string) : M (list (option document)) :=
  let filt :=
    match user_id with
    | Some ((String _ _) as u) => field_eq "user_id" (OStr u)
    | _ => match_all
    end in
  get_documents "order" (Some filt) None (Some [("created_at", -1)]).

End Backend.

(** ** Observing the store, and the data of the examples *)

(** The record of collection [c] whose primary key is [o], if any. *)
Definition stored (c : string) (o : ObjectId) (w : handle) : option document :=
  match w with
  | Some d => List.find (by_id o) (documents_of c d)
  | None => None
  end.

(** The field [k] of that record. *)
Definition stored_field (c : string) (o : ObjectId) (k : string) (w : handle)
  : option value :=
  match stored c o w with
  | Some doc => doc !! k
  | None => None
  end.

Definition oid_example : ObjectId :=
  MkOid x65 x4f x1a x2b x3c x4d x5e x6f x70 x81 x92 xa3.

Definition empty_cart_request : CreateOrderRequest :=
  {| user_id := Some "u1"; items := []; notes := None;
     contact_email := None; contact_phone := None; pickup_name := Some "Ann" |}.

Definition category_example : document :=
  list_to_map
    [("_id", VOid oid_example); ("name", VStr "Drinks"); ("is_active", VBool true);
     ("created_at", VDate 1700000000123); ("updated_at", VDate 1700000000123)].

Definition db_example : database := {[ "category" := [category_example] ]}.

(** The record [create_document] stores for [data] under the key [o]. *)
Definition created_record (now : datetime) (o : ObjectId) (data : document) : document :=
  <["_id" := VOid o]>
    (<["updated_at" := bson_datetime now]> (<["created_at" := bson_datetime now]> data)).

Definition keyed_payload : document :=
  {[ "_id" := VStr "drinks"; "name" := VStr "Drinks" ]}.

(** Membership in the status enumeration of [schemas.Order]. *)
Definition status_valid (s : string) : bool :=
  existsb (String.eqb s) schemas.status_values.

Definition order_example : document :=
  list_to_map
    [("_id", VOid oid_example); ("order_number", VStr "ORD-8192A3");
     ("status", VStr "pending");
     ("created_at", VDate 1700000000123); ("updated_at", VDate 1700000000123)].

Definition orders_example : database := {[ "order" := [order_example] ]}.

(** [n] is the integer nearest to [num / den], the even one of the two
    when [num / den] lies halfway between them. *)
Definition nearest_even (num den n : Z) : Prop :=
  Z.abs (2 * num - 2 * n * den) <= den /\
  (Z.abs (2 * num - 2 * n * den) = den -> Z.even n = true).

(** The exact value of the magnitude of a finite float, as a fraction. *)
Definition exact_num (m : positive) (e : Z) : Z := Zpos m * 2 ^ Z.max e 0.
Definition exact_den (e : Z) : Z := 2 ^ Z.max (- e) 0.

Definition example_lines : list CartItem :=
  [ {| item_id := "i1"; title := "Coffee"; price := float_literal 250 2;
       quantity := 3; image_url := None |};
    {| item_id := "i2"; title := "Bagel"; price := float_literal 133 2;
       quantity := 2; image_url := None |} ].

Definition example_request : CreateOrderRequest :=
  {| user_id := None; items := example_lines; notes := None;
     contact_email := None; contact_phone := None; pickup_name := None |}.

Definition eighth_lines : list CartItem :=
  [ {| item_id := "i3"; title := "Sample"; price := float_literal 15625 4;
       quantity := 1; image_url := None |} ].

Definition eighth_request : CreateOrderRequest :=
  {| user_id := None; items := eighth_lines; notes := None;
     contact_email := None; contact_phone := None; pickup_name := None |}.

(** A server that refuses every path update; the examples use plain
    field names and never reach it. *)
Definition no_paths : document -> option document -> outcome document :=
  fun _ _ => Raise WriteError.

Definition teas_payload : document := {[ "name" := VStr "Teas" ]}.

(** ** Invariants of the store *)

(** The primary keys of a collection, in natural order. *)
Definition keys (docs : list document) : list (option value) :=
  List.map (fun doc => doc !! "_id") docs.

(** Every record has a primary key and no two records of a collection
    share one. *)
Definition keys_unique (w : handle) : Prop :=
  match w with
  | Some d =>
      forall c, NoDup (keys (documents_of c d)) /\
                Forall (fun doc => is_Some (doc !! "_id")) (documents_of c d)
  | None => True
  end.

(** A record whose stamps are dates with [created_at <= updated_at]. *)
Definition stamps_ordered (doc : document) : Prop :=
  exists a u, doc !! "created_at" = Some (VDate a) /\
              doc !! "updated_at" = Some (VDate u) /\ a <= u.

(** The fields an update writes: the payload and the stamp. *)
Definition update_fields (now : datetime) (update_data : document) : document :=
  <["updated_at" := bson_datetime now]> update_data.

(** ** Data of the further examples *)

Definition stamped_payload : document :=
  {[ "name" := VStr "Soups"; "created_at" := VStr "yesterday";
     "updated_at" := VInt 0 ]}.

Definition oid_other : ObjectId :=
  MkOid x65 x4f x1a x2b x3c x4d x5e x6f x70 x81 x92 xa4.

(** The characters [str.upper] leaves in a hexadecimal numeral. *)
Definition upper_hex (c : ascii) : bool :=
  existsb (Ascii.eqb c) (list_ascii_of_string "0123456789ABCDEF").

(** The order [create_order] builds for a request. *)
Definition order_of_request (number_oid : ObjectId) (payload : CreateOrderRequest)
    (subtotal : float) : schemas.Order :=
  let tax := py_round (fmul subtotal TAX_RATE) 2 in
  {| schemas.user_id := user_id payload;
     schemas.order_number := make_order_number number_oid;
     schemas.items := List.map CartItem_model_dump (items payload);
     schemas.subtotal := subtotal;
     schemas.tax := tax;
     schemas.total := py_round (fadd subtotal tax) 2;
     schemas.status := "pending";
     schemas.notes := notes payload;
     schemas.contact_email := contact_email payload;
     schemas.contact_phone := contact_phone payload;
     schemas.pickup_name := pickup_name payload |}.

Definition oid_twin : ObjectId :=
  MkOid x00 x11 x22 x33 x44 x55 x66 x77 x88 x81 x92 xa3.

Definition big_quantity_request : CreateOrderRequest :=
  {| user_id := None;
     items := [ {| item_id := "i9"; title := "Crate"; price := float_literal 100 2;
                   quantity := 9223372036854775808; image_url := None |} ];
     notes := None; contact_email := None; contact_phone := None;
     pickup_name := None |}.

(** ** Data of the handlers' examples *)

Definition fooditem_example : document :=
  list_to_map
    [("_id", VOid oid_example); ("title", VStr "Ramen"); ("description", VNone);
     ("price", VFloat (float_literal 950 2)); ("category_id", VStr "noodles");
     ("image_url", VNone); ("tags", VList [VStr "hot"]); ("is_available", VBool true);
     ("rating", VFloat (float_literal 45 1));
     ("created_at", VDate 1700000000123); ("updated_at", VDate 1700000000123)].

Definition items_example : database := {[ "fooditem" := [fooditem_example] ]}.

Definition negative_price_item : FoodItemCreate.t :=
  {| FoodItemCreate.title := "Ramen"; FoodItemCreate.description := None;
     FoodItemCreate.price := float_literal (-100) 2;
     FoodItemCreate.category_id := "noodles"; FoodItemCreate.image_url := None;
     FoodItemCreate.tags := None; FoodItemCreate.is_available := true |}.

Definition soup_item : FoodItemCreate.t :=
  {| FoodItemCreate.title := "Pho"; FoodItemCreate.description := Some "Beef broth";
     FoodItemCreate.price := float_literal 1150 2;
     FoodItemCreate.category_id := "noodles"; FoodItemCreate.image_url := None;
     FoodItemCreate.tags := Some ["hot"; "beef"]; FoodItemCreate.is_available := true |}.

Definition teas_category : CategoryCreate.t :=
  {| CategoryCreate.name := "Teas"; CategoryCreate.description := None;
     CategoryCreate.image_url := None |}.

Definition user_example : document :=
  list_to_map
    [("_id", VOid oid_example); ("name", VStr "Ann"); ("email", VStr "ann@example.com");
     ("password_hash", VStr "$2b$ann"); ("is_admin", VBool false);
     ("avatar_url", VNone); ("is_active", VBool true);
     ("created_at", VDate 1700000000123); ("updated_at", VDate 1700000000123)].

Definition users_example : database := {[ "user" := [user_example] ]}.

Definition ann_signup : SignupRequest.t :=
  {| SignupRequest.name := "Ann B"; SignupRequest.email := "ann@example.com";
     SignupRequest.password := "secret" |}.

Definition bob_signup : SignupRequest.t :=
  {| SignupRequest.name := "Bob"; SignupRequest.email := "bob@example.com";
     SignupRequest.password := "hunter2" |}.

Definition ann_login : LoginRequest.t :=
  {| LoginRequest.email := "ann@example.com"; LoginRequest.password := "guess" |}.

Definition bob_login : LoginRequest.t :=
  {| LoginRequest.email := "bob@example.com"; LoginRequest.password := "hunter2" |}.

(** * Properties *)

(** ** The identifier codec *)

Lemma hex_byte_roundtrip (b : byte) :
  let n := Byte.to_N b in
  hex_val (hex_digit (n / 16)) = Some (n / 16)%N /\
  hex_val (hex_digit (n mod 16)) = Some (n mod 16)%N /\
  Byte.of_N (16 * (n / 16) + n mod 16) = Some b.
Proof. destruct b; vm_compute; auto. Qed.

Lemma hex_byte_not_space (b : byte) :
  is_space (hex_digit (Byte.to_N b / 16)) = false /\
  is_space (ascii_upper (hex_digit (Byte.to_N b / 16))) = false.
Proof. destruct b; vm_compute; auto. Qed.

Lemma fromhex_hexlify (bs : list byte) : fromhex (hexlify bs) = Some bs.
Proof.
  induction bs as [|b bs IH]; [reflexivity|].
  cbn [hexlify fromhex]. rewrite (proj1 (hex_byte_not_space b)).
  destruct (hex_byte_roundtrip b) as (-> & -> & ->).
  now rewrite IH.
Qed.

Lemma hexlify_length (bs : list byte) :
  String.length (hexlify bs) = (2 * List.length bs)%nat.
Proof. induction bs as [|b bs IH]; cbn [hexlify String.length List.length]; lia. Qed.

Lemma ObjectId_of_str_str (o : ObjectId) : ObjectId_of_str (oid_str o) = Some (Twelve o).
Proof.
  unfold ObjectId_of_str, oid_str.
  rewrite hexlify_length, fromhex_hexlify.
  destruct o; reflexivity.
Qed.

Lemma oid_parse_str (o : ObjectId) : oid_parse (oid_str o) = Some o.
Proof. unfold oid_parse. now rewrite ObjectId_of_str_str. Qed.

(** The two ways an identifier names no stored key: [ObjectId] refuses
    it, or reads fewer than twelve bytes. *)
Lemma oid_parse_Some (s : string) (o : ObjectId) :
  oid_parse s = Some o <-> ObjectId_of_str s = Some (Twelve o).
Proof.
  unfold oid_parse. destruct (ObjectId_of_str s) as [[o'|bs]|]; split; congruence.
Qed.

Lemma oid_parse_None (s : string) :
  oid_parse s = None <->
  ObjectId_of_str s = None \/ exists bs, ObjectId_of_str s = Some (Fewer bs).
Proof.
  unfold oid_parse. destruct (ObjectId_of_str s) as [[o'|bs]|]; split;
    try congruence; eauto.
  - intros [H|[bs H]]; discriminate.
Qed.

(** ** The driver's first-match search *)

Lemma split_first_find (q : query) (docs : list document) :
  List.find q docs =
  match split_first q docs with Some (_, m, _) => Some m | None => None end.
Proof.
  induction docs as [|x docs IH]; cbn [split_first List.find]; [reflexivity|].
  destruct (q x); [reflexivity|].
  rewrite IH. destruct (split_first q docs) as [[[pre m] suf]|]; reflexivity.
Qed.

Lemma split_first_Some (q : query) (docs pre suf : list document) (m : document) :
  split_first q docs = Some (pre, m, suf) ->
  docs = pre ++ m :: suf /\ q m = true /\ List.find q pre = None.
Proof.
  revert pre; induction docs as [|x docs IH]; intros pre; cbn [split_first]; [discriminate|].
  destruct (q x) eqn:Hx.
  - intros [= <- <- <-]. auto.
  - destruct (split_first q docs) as [[[pre' m'] suf']|]; [|discriminate].
    intros [= <- <- <-]. destruct (IH pre' eq_refl) as (-> & Hm & Hpre).
    cbn [List.find app]. rewrite Hx. auto.
Qed.

Lemma find_app_first (q : query) (pre suf : list document) (m : document) :
  List.find q pre = None -> q m = true -> List.find q (pre ++ m :: suf) = Some m.
Proof.
  intros Hpre Hm. induction pre as [|x pre IH]; cbn [app List.find] in *.
  - now rewrite Hm.
  - destruct (q x); [discriminate|]. auto.
Qed.

Lemma by_id_true (o : ObjectId) (d : document) :
  by_id o d = true <-> d !! "_id" = Some (VOid o).
Proof. unfold by_id. apply bool_decide_eq_true. Qed.

(** ** Encodable documents *)

Lemma doc_encodable_spec (d : document) :
  doc_encodable d = true <->
  map_Forall (fun k v => key_encodable k = true /\ bson_encodable v = true) d.
Proof.
  unfold doc_encodable, doc_ints_encodable, doc_keys_encodable, bson_encodable.
  rewrite andb_true_iff, !forallb_forall. split.
  - intros [Hi Hk] k v Hkv.
    assert (Hin : In (k, v) (map_to_list d))
      by (apply list_elem_of_In, elem_of_map_to_list, Hkv).
    specialize (Hi _ Hin). specialize (Hk _ Hin). cbn [fst snd] in Hi, Hk.
    apply andb_true_iff in Hk as [Hk1 Hk2]. now rewrite Hi, Hk2.
  - intros H. split; intros [k v] Hin;
      apply list_elem_of_In, elem_of_map_to_list in Hin;
      destruct (H k v Hin) as [Hk Hv]; apply andb_true_iff in Hv as [Hv1 Hv2];
      cbn [fst snd]; [exact Hv1|now rewrite Hk, Hv2].
Qed.

Lemma doc_encodable_insert (k : string) (v : value) (d : document) :
  key_encodable k = true -> bson_encodable v = true -> doc_encodable d = true ->
  doc_encodable (<[k := v]> d) = true.
Proof.
  rewrite !doc_encodable_spec. intros Hk Hv Hd. now apply map_Forall_insert_2.
Qed.

Lemma doc_ints_encodable_spec (d : document) :
  doc_ints_encodable d = true <-> map_Forall (fun _ v => ints_encodable v = true) d.
Proof.
  unfold doc_ints_encodable. rewrite forallb_forall. split.
  - intros H k v Hkv. apply (H (k, v)).
    apply list_elem_of_In, elem_of_map_to_list, Hkv.
  - intros H [k v] Hin. apply list_elem_of_In, elem_of_map_to_list in Hin.
    exact (H k v Hin).
Qed.

Lemma doc_keys_encodable_spec (d : document) :
  doc_keys_encodable d = true <->
  map_Forall (fun k v => key_encodable k = true /\ keys_encodable v = true) d.
Proof.
  unfold doc_keys_encodable. rewrite forallb_forall. split.
  - intros H k v Hkv.
    assert (Hin : In (k, v) (map_to_list d))
      by (apply list_elem_of_In, elem_of_map_to_list, Hkv).
    specialize (H _ Hin). cbn [fst snd] in H. now apply andb_true_iff in H.
  - intros H [k v] Hin. apply list_elem_of_In, elem_of_map_to_list in Hin.
    cbn [fst snd]. apply andb_true_iff. exact (H k v Hin).
Qed.

Lemma doc_keys_encodable_insert (k : string) (v : value) (d : document) :
  key_encodable k = true -> keys_encodable v = true -> doc_keys_encodable d = true ->
  doc_keys_encodable (<[k := v]> d) = true.
Proof.
  rewrite !doc_keys_encodable_spec. intros Hk Hv Hd. now apply map_Forall_insert_2.
Qed.

Lemma doc_ints_field_false (d : document) (k : string) (v : value) :
  d !! k = Some v -> ints_encodable v = false -> doc_ints_encodable d = false.
Proof.
  intros Hk Hv. destruct (doc_ints_encodable d) eqn:He; [|reflexivity].
  apply doc_ints_encodable_spec in He. specialize (He k v Hk). cbv beta in He.
  congruence.
Qed.

Lemma encode_error_None (d : document) :
  doc_encodable d = true <-> encode_error d = None.
Proof.
  unfold doc_encodable, encode_error.
  destruct (doc_ints_encodable d), (doc_keys_encodable d); split;
    first [reflexivity | discriminate].
Qed.

Lemma encode_error_encodable (d : document) :
  doc_encodable d = true -> encode_error d = None.
Proof. apply encode_error_None. Qed.

(** Plain documents *)
Lemma plain_doc_spec (d : document) :
  plain_doc d = true <->
  map_Forall (fun k v => plain_key k = true /\ plain_value v = true) d.
Proof.
  unfold plain_doc. rewrite forallb_forall. split.
  - intros H k v Hkv.
    assert (Hin : In (k, v) (map_to_list d))
      by (apply list_elem_of_In, elem_of_map_to_list, Hkv).
    specialize (H _ Hin). cbn [fst snd] in H. now apply andb_true_iff in H.
  - intros H [k v] Hin. apply list_elem_of_In, elem_of_map_to_list in Hin.
    cbn [fst snd]. apply andb_true_iff. exact (H k v Hin).
Qed.

Lemma plain_doc_insert (k : string) (v : value) (d : document) :
  plain_key k = true -> plain_value v = true -> plain_doc d = true ->
  plain_doc (<[k := v]> d) = true.
Proof.
  rewrite !plain_doc_spec. intros Hk Hv Hd. now apply map_Forall_insert_2.
Qed.

Lemma plain_doc_empty : plain_doc ∅ = true.
Proof. apply plain_doc_spec, map_Forall_empty. Qed.

(** Closed equations are settled by evaluation. *)
Ltac by_vm :=
  lazymatch goal with
  | |- ?l = ?r => vm_cast_no_check (@eq_refl _ r)
  end.

(** Running the monad: the helpers of [database.py] are unfolded down to
    the driver's list operations. *)
Ltac run_store :=
  cbv [get_document_by_id update_document delete_document create_document
       get_documents update_one delete_one insert_one find_one find
       collection write_collection _ensure_db
       bind ret raise try_except lift_option].

(** ** The helpers, case by case *)

Lemma find_never (l : list document) : List.find (fun _ => false) l = None.
Proof. induction l as [|x l IH]; [reflexivity|exact IH]. Qed.

Lemma split_first_never (l : list document) :
  split_first (fun _ => false) l = None.
Proof. induction l as [|x l IH]; cbn [split_first]; [reflexivity|now rewrite IH]. Qed.

Lemma by_id_non_empty (o : ObjectId) (doc : document) :
  by_id o doc = true -> doc <> ∅.
Proof.
  intros H ->. apply by_id_true in H. rewrite lookup_empty in H. discriminate.
Qed.

(** [get_document_by_id] on an available store never raises: it returns
    the record that the identifier names, with its key printed, if there
    is one. *)
Lemma get_document_by_id_run
    (str_other : value -> string) (c s : string) (d : database) :
  get_document_by_id str_other c s (Some d) =
  (Ok match oid_parse s with
      | Some o =>
          match List.find (by_id o) (documents_of c d) with
          | Some doc => Some (<["_id" := VStr (oid_str o)]> doc)
          | None => None
          end
      | None => None
      end, Some d).
Proof.
  run_store. unfold oid_parse.
  destruct (ObjectId_of_str s) as [[o|bs]|]; cbn [by_key]; [| |reflexivity].
  - destruct (List.find (by_id o) (documents_of c d)) as [doc|] eqn:Hf; [|reflexivity].
    apply find_some in Hf as [_ Hid].
    pose proof (by_id_non_empty _ _ Hid) as Hne. apply by_id_true in Hid.
    rewrite (bool_decide_eq_false_2 _ Hne). cbv [serialize_doc py_str].
    rewrite (bool_decide_eq_false_2 _ Hne), Hid. reflexivity.
  - now rewrite find_never.
Qed.

Lemma delete_document_run (c s : string) (d : database) :
  delete_document c s (Some d) =
  match ObjectId_of_str s with
  | None => (Raise InvalidId, Some d)
  | Some _ =>
      match oid_parse s with
      | None => (Ok false, Some d)
      | Some o =>
          match split_first (by_id o) (documents_of c d) with
          | None => (Ok false, Some d)
          | Some (pre, _, suf) => (Ok true, Some (<[c := pre ++ suf]> d))
          end
      end
  end.
Proof.
  run_store. unfold oid_parse.
  destruct (ObjectId_of_str s) as [[o|bs]|]; cbn [by_key]; [| |reflexivity].
  - destruct (split_first (by_id o) (documents_of c d)) as [[[pre doc] suf]|]; reflexivity.
  - now rewrite split_first_never.
Qed.

Lemma update_fields_plain (now : datetime) (update_data : document) :
  plain_doc update_data = true -> plain_doc (update_fields now update_data) = true.
Proof. intros H. now apply plain_doc_insert. Qed.

Lemma update_fields_encodable (now : datetime) (update_data : document) :
  doc_encodable update_data = true ->
  encode_error (update_fields now update_data) = None.
Proof. intros H. apply encode_error_encodable. now apply doc_encodable_insert. Qed.

(** [update_document] with a payload of plain field names. *)
Lemma update_document_run
    (set_paths : document -> option document -> outcome document)
    (now : datetime) (c s : string) (update_data : document) (d : database) :
  plain_doc update_data = true ->
  update_document set_paths now c s update_data (Some d) =
  match ObjectId_of_str s with
  | None => (Raise InvalidId, Some d)
  | Some _ =>
      match encode_error (update_fields now update_data) with
      | Some e => (Raise e, Some d)
      | None =>
          match oid_parse s with
          | None => (Ok false, Some d)
          | Some o =>
              match split_first (by_id o) (documents_of c d) with
              | None => (Ok false, Some d)
              | Some (pre, doc, suf) =>
                  if negb (id_unchanged (update_fields now update_data) doc)
                  then (Raise WriteError, Some d)
                  else if bool_decide (update_fields now update_data ∪ doc = doc)
                       then (Ok false, Some d)
                       else (Ok true,
                             Some (<[c := pre ++ (update_fields now update_data ∪ doc)
                                            :: suf]> d))
              end
          end
      end
  end.
Proof.
  intros Hp. apply (update_fields_plain now) in Hp.
  run_store. fold (update_fields now update_data). unfold oid_parse.
  destruct (ObjectId_of_str s) as [[o|bs]|]; cbn [by_key]; [| |reflexivity];
    (destruct (encode_error (update_fields now update_data)); [reflexivity|]);
    rewrite Hp.
  - destruct (split_first (by_id o) (documents_of c d)) as [[[pre doc] suf]|]; [|reflexivity].
    destruct (id_unchanged _ doc); cbn [negb]; [|reflexivity].
    destruct (bool_decide _); reflexivity.
  - now rewrite split_first_never.
Qed.

Lemma update_document_parsed
    (set_paths : document -> option document -> outcome document)
    (now : datetime) (c s : string) (o : ObjectId) (update_data : document) (d : database) :
  oid_parse s = Some o ->
  plain_doc update_data = true ->
  update_document set_paths now c s update_data (Some d) =
  match encode_error (update_fields now update_data) with
  | Some e => (Raise e, Some d)
  | None =>
      match split_first (by_id o) (documents_of c d) with
      | None => (Ok false, Some d)
      | Some (pre, doc, suf) =>
          if negb (id_unchanged (update_fields now update_data) doc)
          then (Raise WriteError, Some d)
          else if bool_decide (update_fields now update_data ∪ doc = doc)
               then (Ok false, Some d)
               else (Ok true,
                     Some (<[c := pre ++ (update_fields now update_data ∪ doc) :: suf]> d))
      end
  end.
Proof.
  intros Hs Hp. rewrite (update_document_run _ _ _ _ _ _ Hp), Hs.
  apply oid_parse_Some in Hs. now rewrite Hs.
Qed.

Lemma delete_document_parsed (c s : string) (o : ObjectId) (d : database) :
  oid_parse s = Some o ->
  delete_document c s (Some d) =
  match split_first (by_id o) (documents_of c d) with
  | None => (Ok false, Some d)
  | Some (pre, _, suf) => (Ok true, Some (<[c := pre ++ suf]> d))
  end.
Proof.
  intros Hs. rewrite delete_document_run, Hs.
  apply oid_parse_Some in Hs. now rewrite Hs.
Qed.

Lemma id_unchanged_merged (fields doc : document) :
  id_unchanged fields doc = true -> (fields ∪ doc) !! "_id" = doc !! "_id".
Proof.
  unfold id_unchanged. destruct (fields !! "_id") as [v|] eqn:Hf.
  - intros H. apply bool_decide_eq_true in H. rewrite H.
    now apply lookup_union_Some_l.
  - intros _. now rewrite lookup_union_r.
Qed.

(** Whatever the payload, [update_document] either leaves the store as
    it was and does not return [True], or returns [True] and has replaced
    the one record that the identifier names by a record with the same
    key. *)
Lemma update_document_cases
    (set_paths : document -> option document -> outcome document)
    (now : datetime) (c s : string) (update_data : document) (d : database) :
  (exists r, update_document set_paths now c s update_data (Some d) = (r, Some d) /\
             r <> Ok true) \/
  (exists o pre doc suf doc',
     oid_parse s = Some o /\
     split_first (by_id o) (documents_of c d) = Some (pre, doc, suf) /\
     doc' !! "_id" = doc !! "_id" /\
     update_document set_paths now c s update_data (Some d)
       = (Ok true, Some (<[c := pre ++ doc' :: suf]> d))).
Proof.
  assert (Hstay : forall r : outcome bool, r <> Ok true ->
            exists r', (r, Some d) = (r', Some d) /\ r' <> Ok true) by eauto.
  run_store. fold (update_fields now update_data). unfold oid_parse.
  destruct (ObjectId_of_str s) as [[o|bs]|]; cbn [by_key];
    [| |left; apply Hstay; discriminate];
    (destruct (encode_error (update_fields now update_data));
       [left; apply Hstay; discriminate|]);
    destruct (plain_doc (update_fields now update_data)).
  - destruct (split_first (by_id o) (documents_of c d)) as [[[pre doc] suf]|] eqn:Hsp;
      [|left; apply Hstay; discriminate].
    destruct (id_unchanged _ doc) eqn:Hid; cbn [negb];
      [|left; apply Hstay; discriminate].
    destruct (bool_decide _); [left; apply Hstay; discriminate|].
    right. exists o, pre, doc, suf, (update_fields now update_data ∪ doc).
    split; [reflexivity|]. split; [exact Hsp|].
    split; [now apply id_unchanged_merged|reflexivity].
  - destruct (split_first (by_id o) (documents_of c d)) as [[[pre doc] suf]|] eqn:Hsp.
    + destruct (set_paths _ (Some doc)) as [doc'|e]; [|left; apply Hstay; discriminate].
      destruct (bool_decide (doc' !! "_id" = doc !! "_id")) eqn:Hid; cbn [negb];
        [|left; apply Hstay; discriminate].
      destruct (bool_decide (doc' = doc)); [left; apply Hstay; discriminate|].
      right. exists o, pre, doc, suf, doc'.
      split; [reflexivity|]. split; [exact Hsp|].
      split; [now apply bool_decide_eq_true in Hid|reflexivity].
    + destruct (set_paths _ None); left; apply Hstay; discriminate.
  - rewrite split_first_never. left; apply Hstay; discriminate.
  - rewrite split_first_never.
    destruct (set_paths _ None); left; apply Hstay; discriminate.
Qed.

(** ** Malformed identifiers *)

(** C6 — For every syntactically invalid identifier string,
    [get_document_by_id] on an available store returns [None] without
    raising and leaves the store as it was; and on every handle a malformed
    identifier gives exactly what a well-formed identifier of no stored
    record gives, so the caller cannot tell the two apart. *)
Theorem get_document_by_id_malformed
    (str_other : value -> string) (c s : string) (w : handle) :
  oid_parse s = None ->
  (forall d, w = Some d -> get_document_by_id str_other c s w = (Ok None, w)) /\
  (forall o, stored c o w = None ->
     get_document_by_id str_other c s w =
     get_document_by_id str_other c (oid_str o) w).
Proof.
  intros Hs. split.
  - intros d ->. now rewrite get_document_by_id_run, Hs.
  - intros o Ho. destruct w as [d|]; [|reflexivity].
    cbn [stored] in Ho. now rewrite !get_document_by_id_run, Hs, oid_parse_str, Ho.
Qed.

Lemma get_document_by_id_malformed_witness :
  oid_parse "not-an-id" = None /\
  get_document_by_id (fun _ => "") "order" "not-an-id" (Some ∅) = (Ok None, Some ∅).
Proof.
  split; [reflexivity|].
  exact (proj1 (get_document_by_id_malformed (fun _ => "") "order" "not-an-id" (Some ∅) eq_refl)
           ∅ eq_refl).
Defined.

(** C9, as stated, fails: a string of 24 characters with whitespace
    between its pairs of digits is no well-formed identifier, yet
    [ObjectId] reads it, as eleven bytes here, and does not raise;
    [update_document] and [delete_document] then find no record and return
    [False]. *)
Lemma update_delete_whitespace_no_raise :
  String.length "654f1a2b3c4d5e6f7081  92" = 24%nat /\
  oid_parse "654f1a2b3c4d5e6f7081  92" = None /\
  ObjectId_of_str "654f1a2b3c4d5e6f7081  92"
    = Some (Fewer [x65; x4f; x1a; x2b; x3c; x4d; x5e; x6f; x70; x81; x92]) /\
  update_document no_paths 1700000000900000 "category" "654f1a2b3c4d5e6f7081  92"
    {[ "name" := VStr "Teas" ]} (Some db_example) = (Ok false, Some db_example) /\
  delete_document "category" "654f1a2b3c4d5e6f7081  92" (Some db_example)
    = (Ok false, Some db_example).
Proof. repeat split; by_vm. Qed.

(** C9, amended — For every identifier string that [ObjectId] refuses (a
    length other than 24, or characters that [bytes.fromhex] does not
    read), [update_document] and [delete_document] raise instead of
    returning [False]: on an available store the exception is the decode
    failure [InvalidId], whatever the payload, the store is left as it was,
    and only [get_document_by_id] turns the same identifier into [None]. *)
Theorem update_delete_malformed_raise
    (set_paths : document -> option document -> outcome document)
    (str_other : value -> string) (now : datetime) (c s : string)
    (update_data : document) (w : handle) :
  ObjectId_of_str s = None ->
  (exists e, update_document set_paths now c s update_data w = (Raise e, w)) /\
  (exists e, delete_document c s w = (Raise e, w)) /\
  (forall d, w = Some d ->
     update_document set_paths now c s update_data w = (Raise InvalidId, w) /\
     delete_document c s w = (Raise InvalidId, w) /\
     get_document_by_id str_other c s w = (Ok None, w)).
Proof.
  intros Hs.
  run_store. rewrite Hs. destruct w as [d|].
  - split; [eauto|]. split; [eauto|]. intros d' _. auto.
  - split; [eauto|]. split; [eauto|]. intros d' [=].
Qed.

Lemma update_delete_malformed_raise_witness :
  ObjectId_of_str "123" = None /\
  update_document no_paths 0 "category" "123" ∅ (Some ∅) = (Raise InvalidId, Some ∅) /\
  delete_document "category" "123" (Some ∅) = (Raise InvalidId, Some ∅).
Proof.
  split; [reflexivity|].
  destruct (update_delete_malformed_raise no_paths (fun _ => "") 0 "category" "123" ∅
              (Some ∅) eq_refl) as (_ & _ & H).
  destruct (H ∅ eq_refl) as (Hu & Hd & _). exact (conj Hu Hd).
Defined.

(** ** Unknown identifiers *)

(** C7, as stated, fails: for a well-formed identifier of no stored
    record [update_document] raises, and does not return [False], when the
    payload holds an int that BSON cannot encode. *)
Lemma update_unknown_unencodable_raises :
  stored "fooditem" (MkOid x00 x00 x00 x00 x00 x00 x00 x00 x00 x00 x00 x2a) (Some ∅)
    = None /\
  update_document no_paths 5 "fooditem" "00000000000000000000002a"
    {[ "stock" := VInt 9223372036854775808 ]} (Some ∅) = (Raise OverflowError, Some ∅).
Proof. split; by_vm. Qed.

(** C7, amended — For every identifier that [ObjectId] accepts and that
    names no stored record, [delete_document] returns [False], and so does
    [update_document] for every payload of plain field names that the
    driver can encode; neither raises and the store is left as it was. *)
Theorem update_delete_unknown_false
    (set_paths : document -> option document -> outcome document)
    (now : datetime) (c s : string) (update_data : document) (d : database) :
  ObjectId_of_str s <> None ->
  (forall o, oid_parse s = Some o -> stored c o (Some d) = None) ->
  delete_document c s (Some d) = (Ok false, Some d) /\
  (plain_doc update_data = true -> doc_encodable update_data = true ->
   update_document set_paths now c s update_data (Some d) = (Ok false, Some d)).
Proof.
  intros Hacc Hnone.
  assert (Hsp : match oid_parse s with
                | Some o => split_first (by_id o) (documents_of c d) = None
                | None => True
                end).
  { destruct (oid_parse s) as [o|]; [|exact I].
    specialize (Hnone o eq_refl). cbn [stored] in Hnone.
    rewrite split_first_find in Hnone.
    destruct (split_first (by_id o) (documents_of c d)) as [[[pre m] suf]|];
      [discriminate|reflexivity]. }
  split.
  - rewrite delete_document_run.
    destruct (ObjectId_of_str s); [|contradiction].
    destruct (oid_parse s); [now rewrite Hsp|reflexivity].
  - intros Hp He. rewrite (update_document_run _ _ _ _ _ _ Hp).
    destruct (ObjectId_of_str s); [|contradiction].
    rewrite (update_fields_encodable _ _ He).
    destruct (oid_parse s); [now rewrite Hsp|reflexivity].
Qed.

Lemma update_delete_unknown_false_witness :
  ObjectId_of_str "00000000000000000000002a" <> None /\
  (forall o, oid_parse "00000000000000000000002a" = Some o ->
             stored "fooditem" o (Some ∅) = None) /\
  plain_doc ∅ = true /\
  doc_encodable ∅ = true /\
  delete_document "fooditem" "00000000000000000000002a" (Some ∅) = (Ok false, Some ∅) /\
  update_document no_paths 5 "fooditem" "00000000000000000000002a" ∅ (Some ∅)
    = (Ok false, Some ∅).
Proof.
  assert (H1 : ObjectId_of_str "00000000000000000000002a" <> None)
    by (vm_compute; discriminate).
  assert (H2 : forall o, oid_parse "00000000000000000000002a" = Some o ->
                         stored "fooditem" o (Some ∅) = None)
    by (intros o _; reflexivity).
  refine (conj H1 (conj H2 (conj eq_refl (conj eq_refl _)))).
  destruct (update_delete_unknown_false no_paths 5 "fooditem" "00000000000000000000002a"
              ∅ ∅ H1 H2) as (Hd & Hu).
  exact (conj Hd (Hu eq_refl eq_refl)).
Defined.

(** ** Queries *)


(** ** Orders *)

(** C4 — Creating an order with an empty cart-line list raises the
    "Cart is empty" error (HTTP 400) whatever the rest of the request and
    the state of the store, and the store is left as it was. *)
Theorem create_order_empty_cart
    (str_other : value -> string) (now : datetime) (number_oid fresh : ObjectId)
    (payload : CreateOrderRequest) (w : handle) :
  items payload = [] ->
  create_order str_other now number_oid fresh payload w =
  (Raise (HTTPException 400 "Cart is empty"), w).
Proof. intros H. unfold create_order. rewrite H. reflexivity. Qed.

Lemma create_order_empty_cart_witness :
  items empty_cart_request = [] /\
  create_order (fun _ => "") 0 oid_example oid_example empty_cart_request (Some ∅) =
  (Raise (HTTPException 400 "Cart is empty"), Some ∅).
Proof.
  split; [reflexivity|].
  exact (create_order_empty_cart (fun _ => "") 0 oid_example oid_example
           empty_cart_request (Some ∅) eq_refl).
Defined.

(** ** Updates of a stored record *)

Lemma stored_split (c : string) (o : ObjectId) (d : database) (doc : document) :
  stored c o (Some d) = Some doc ->
  exists pre suf, split_first (by_id o) (documents_of c d) = Some (pre, doc, suf).
Proof.
  cbn [stored]. rewrite split_first_find.
  destruct (split_first (by_id o) (documents_of c d)) as [[[pre m] suf]|]; [|discriminate].
  intros [= ->]. eauto.
Qed.

Lemma stored_write (c : string) (o : ObjectId) (d : database) (docs : list document) :
  stored c o (Some (<[c := docs]> d)) = List.find (by_id o) docs.
Proof. cbn [stored]. unfold documents_of. now rewrite lookup_insert_eq. Qed.

Lemma stored_has_id (c : string) (o : ObjectId) (w : handle) (doc : document) :
  stored c o w = Some doc -> doc !! "_id" = Some (VOid o).
Proof.
  destruct w as [d|]; [|discriminate]. cbn [stored]. intros H.
  apply find_some in H as [_ H]. now apply by_id_true.
Qed.

Lemma merged_keeps_id (fields doc : document) (o : ObjectId) :
  id_unchanged fields doc = true ->
  by_id o doc = true -> by_id o (fields ∪ doc) = true.
Proof.
  intros Hid Hdoc. apply by_id_true. rewrite (id_unchanged_merged _ _ Hid).
  now apply by_id_true.
Qed.

Lemma id_unchanged_update_fields (now : datetime) (update_data doc : document) :
  id_unchanged (update_fields now update_data) doc = id_unchanged update_data doc.
Proof.
  unfold id_unchanged, update_fields. now rewrite lookup_insert_ne by (intros [=]).
Qed.

(** What [update_document] does to a stored record, for a payload of
    plain field names that the driver can encode and that leaves [_id]
    alone: it returns, and the record is the payload merged over it. *)
Lemma update_document_stored
    (set_paths : document -> option document -> outcome document)
    (now : datetime) (c s : string) (o : ObjectId) (update_data : document)
    (d : database) (doc : document) :
  oid_parse s = Some o ->
  stored c o (Some d) = Some doc ->
  plain_doc update_data = true ->
  doc_encodable update_data = true ->
  id_unchanged update_data doc = true ->
  exists b d',
    update_document set_paths now c s update_data (Some d) = (Ok b, Some d') /\
    stored c o (Some d') = Some (update_fields now update_data ∪ doc) /\
    (b = false <-> update_fields now update_data ∪ doc = doc) /\
    (b = false -> d' = d).
Proof.
  intros Hs Hst Hp Henc Hid.
  destruct (stored_split _ _ _ _ Hst) as (pre & suf & Hsp).
  rewrite (update_document_parsed set_paths now c s o update_data d Hs Hp), Hsp.
  rewrite (update_fields_encodable _ _ Henc), id_unchanged_update_fields, Hid.
  cbn [negb].
  destruct (split_first_Some _ _ _ _ _ Hsp) as (_ & Hm & Hpre).
  destruct (bool_decide (update_fields now update_data ∪ doc = doc)) eqn:Hsame.
  - apply bool_decide_eq_true in Hsame.
    exists false, d. split; [reflexivity|]. split; [now rewrite Hsame|].
    split; [tauto|reflexivity].
  - apply bool_decide_eq_false in Hsame.
    exists true, (<[c := pre ++ (update_fields now update_data ∪ doc) :: suf]> d).
    split; [reflexivity|]. split; [|split; [split; [discriminate|tauto]|discriminate]].
    rewrite stored_write. apply find_app_first; [exact Hpre|].
    apply merged_keeps_id; [|exact Hm]. now rewrite id_unchanged_update_fields.
Qed.



(** C3, as stated, fails: the record exists, the payload repeats the
    record's own field value, the write is attempted within the millisecond
    of the stored stamp, and [update_document] returns [False]. *)
Lemma update_identical_same_instant_false :
  stored "category" oid_example (Some db_example) = Some category_example /\
  ({[ "name" := VStr "Drinks" ]} : document) ⊆ category_example /\
  update_document no_paths 1700000000123999 "category" (oid_str oid_example)
    {[ "name" := VStr "Drinks" ]} (Some db_example) = (Ok false, Some db_example).
Proof.
  split; [by_vm|]. split; [|by_vm].
  apply map_subseteq_spec. intros k v Hk.
  apply lookup_singleton_Some in Hk as [<- <-]. by_vm.
Qed.

Lemma stamped_same_iff (fields doc : document) (v : value) :
  fields ⊆ doc ->
  <["updated_at" := v]> fields ∪ doc = doc <-> doc !! "updated_at" = Some v.
Proof.
  intros Hsub. rewrite <- insert_union_l, (map_subseteq_union _ _ Hsub). split.
  - intros <-. apply lookup_insert_eq.
  - apply insert_id.
Qed.

Lemma subseteq_id_unchanged (fields doc : document) (v : value) :
  fields ⊆ doc -> is_Some (doc !! "_id") ->
  id_unchanged (<["updated_at" := v]> fields) doc = true.
Proof.
  intros Hsub Hid. unfold id_unchanged.
  rewrite lookup_insert_ne by discriminate.
  destruct (fields !! "_id") as [x|] eqn:Hx; [|reflexivity].
  apply bool_decide_eq_true. eapply lookup_weaken; eauto.
Qed.

(** C3, amended — For a payload of plain field names, [update_document]
    on an available store returns [True] iff the payload can be encoded, a
    record matches the identifier, the payload leaves its [_id] alone, and
    merging the payload, stamped with the current instant to the
    millisecond, changes the record; so an update whose payload repeats the
    record's current values returns [True] iff the stamp differs from the
    stored [updated_at]. *)
Theorem update_document_true_iff
    (set_paths : document -> option document -> outcome document)
    (now : datetime) (c s : string) (o : ObjectId) (update_data : document)
    (d : database) :
  oid_parse s = Some o ->
  plain_doc update_data = true ->
  let fields := <["updated_at" := bson_datetime now]> update_data in
  (fst (update_document set_paths now c s update_data (Some d)) = Ok true <->
   doc_encodable fields = true /\
   exists doc, stored c o (Some d) = Some doc /\
               id_unchanged fields doc = true /\ fields ∪ doc <> doc) /\
  (forall doc, stored c o (Some d) = Some doc ->
     update_data ⊆ doc -> doc_encodable update_data = true ->
     (fst (update_document set_paths now c s update_data (Some d)) = Ok true <->
      doc !! "updated_at" <> Some (bson_datetime now))).
Proof.
  intros Hs Hp fields.
  assert (Hmain : fst (update_document set_paths now c s update_data (Some d)) = Ok true <->
    doc_encodable fields = true /\
    exists doc, stored c o (Some d) = Some doc /\
                id_unchanged fields doc = true /\ fields ∪ doc <> doc).
  { rewrite (update_document_parsed set_paths now c s o update_data d Hs Hp).
    change (update_fields now update_data) with fields.
    cbn [stored]. rewrite split_first_find.
    destruct (encode_error fields) as [e|] eqn:Hee.
    { cbn [fst]. split; [discriminate|]. intros [He _].
      apply encode_error_None in He. congruence. }
    apply encode_error_None in Hee. rewrite Hee.
    destruct (split_first (by_id o) (documents_of c d)) as [[[pre doc] suf]|].
    - destruct (id_unchanged fields doc) eqn:Hid; cbn [negb].
      + destruct (bool_decide (fields ∪ doc = doc)) eqn:Hsame; cbn [fst].
        * apply bool_decide_eq_true in Hsame. split; [discriminate|].
          intros (_ & doc' & [= <-] & _ & Hne). contradiction.
        * apply bool_decide_eq_false in Hsame. split; [|reflexivity].
          intros _. split; [reflexivity|]. exists doc. auto.
      + cbn [fst]. split; [discriminate|].
        intros (_ & doc' & [= <-] & Hid' & _). congruence.
    - cbn [fst]. split; [discriminate|]. intros (_ & doc & [=] & _). }
  split; [exact Hmain|].
  intros doc Hst Hsub Henc. rewrite Hmain. split.
  - intros (_ & doc' & Hst' & _ & Hne) Hua. rewrite Hst in Hst'. injection Hst' as <-.
    apply Hne. now apply stamped_same_iff.
  - intros Hua. split; [now apply doc_encodable_insert|].
    exists doc. split; [exact Hst|]. split.
    + apply subseteq_id_unchanged; [exact Hsub|].
      rewrite (stored_has_id _ _ _ _ Hst). eauto.
    + intros Hsame. apply Hua. now apply (stamped_same_iff update_data).
Qed.

Lemma name_payload_subseteq :
  ({[ "name" := VStr "Drinks" ]} : document) ⊆ category_example.
Proof.
  apply map_subseteq_spec. intros k v Hk.
  apply lookup_singleton_Some in Hk as [<- <-]. by_vm.
Qed.

Lemma update_document_true_iff_witness :
  oid_parse (oid_str oid_example) = Some oid_example /\
  plain_doc {[ "name" := VStr "Drinks" ]} = true /\
  stored "category" oid_example (Some db_example) = Some category_example /\
  ({[ "name" := VStr "Drinks" ]} : document) ⊆ category_example /\
  doc_encodable {[ "name" := VStr "Drinks" ]} = true /\
  (fst (update_document no_paths 1700000000124000 "category" (oid_str oid_example)
          {[ "name" := VStr "Drinks" ]} (Some db_example)) = Ok true <->
   category_example !! "updated_at" <> Some (bson_datetime 1700000000124000)).
Proof.
  assert (H0 : oid_parse (oid_str oid_example) = Some oid_example) by by_vm.
  assert (Hp : plain_doc {[ "name" := VStr "Drinks" ]} = true) by by_vm.
  assert (H1 : stored "category" oid_example (Some db_example) = Some category_example)
    by by_vm.
  assert (He : doc_encodable {[ "name" := VStr "Drinks" ]} = true) by by_vm.
  refine (conj H0 (conj Hp (conj H1 (conj name_payload_subseteq (conj He _))))).
  exact (proj2 (update_document_true_iff no_paths 1700000000124000 "category"
                  (oid_str oid_example) oid_example
                  {[ "name" := VStr "Drinks" ]} db_example H0 Hp)
           category_example H1 name_payload_subseteq He).
Defined.

(** ** Creation and lookup *)

Lemma find_none_existsb_false (q : query) (docs : list document) :
  List.find q docs = None -> existsb q docs = false.
Proof.
  induction docs as [|x docs IH]; cbn [existsb List.find]; [reflexivity|].
  destruct (q x); [discriminate|]. auto.
Qed.

(** [create_document] on an available store, case by case. *)
Lemma create_document_run
    (str_other : value -> string) (now : datetime) (fresh : ObjectId)
    (c : string) (data : document) (d : database) :
  let stamped := <["updated_at" := bson_datetime now]>
                   (<["created_at" := bson_datetime now]> data) in
  let inserted_id := default (VOid fresh) (data !! "_id") in
  let record := <["_id" := inserted_id]> stamped in
  create_document str_other now fresh c data (Some d) =
  match encode_error record with
  | Some e => (Raise e, Some d)
  | None =>
      if existsb (same_id inserted_id) (documents_of c d)
      then (Raise DuplicateKeyError, Some d)
      else (Ok (py_str str_other inserted_id),
            Some (<[c := documents_of c d ++ [record]]> d))
  end.
Proof.
  intros stamped inserted_id record. run_store.
  unfold record, inserted_id, stamped.
  rewrite !lookup_insert_ne by (intros [=]).
  destruct (encode_error _); [reflexivity|].
  destruct (existsb _ (documents_of c d)); reflexivity.
Qed.

Lemma created_record_encodable (now : datetime) (o : ObjectId) (data : document) :
  doc_encodable data = true -> doc_encodable (created_record now o data) = true.
Proof.
  intros H. unfold created_record.
  repeat (apply doc_encodable_insert; [reflexivity|reflexivity|]). exact H.
Qed.

(** Creation with a key that is an ObjectId, minted by the store or given
    by the caller, and not in use: the record is appended, its identifier
    returned, and a lookup of that identifier finds it. *)
Lemma create_document_then_find
    (str_other : value -> string) (now : datetime) (fresh : ObjectId)
    (c : string) (data : document) (d : database) (o : ObjectId) :
  (data !! "_id" = None /\ o = fresh) \/ data !! "_id" = Some (VOid o) ->
  doc_encodable data = true ->
  stored c o (Some d) = None ->
  let record := created_record now o data in
  let w' := Some (<[c := documents_of c d ++ [record]]> d) in
  create_document str_other now fresh c data (Some d) = (Ok (oid_str o), w') /\
  oid_parse (oid_str o) = Some o /\
  stored c o w' = Some record /\
  get_document_by_id str_other c (oid_str o) w' =
    (Ok (Some (<["_id" := VStr (oid_str o)]> record)), w').
Proof.
  intros Hid Henc Hfree record w'. cbn [stored] in Hfree.
  assert (Hins : default (VOid fresh) (data !! "_id") = VOid o).
  { destruct Hid as [[-> ->]| ->]; reflexivity. }
  assert (Hrec : by_id o record = true).
  { apply by_id_true. apply lookup_insert_eq. }
  assert (Hfind : List.find (by_id o) (documents_of c d ++ [record]) = Some record).
  { apply find_app_first; assumption. }
  assert (Hstored : stored c o w' = Some record).
  { unfold w'. now rewrite stored_write. }
  split; [|split; [apply oid_parse_str|split; [exact Hstored|]]].
  - rewrite create_document_run. cbv zeta. rewrite Hins.
    fold (created_record now o data).
    rewrite (encode_error_encodable _ (created_record_encodable now o data Henc)).
    change (same_id (VOid o)) with (by_id o).
    rewrite (find_none_existsb_false _ _ Hfree). reflexivity.
  - unfold w'. rewrite get_document_by_id_run, oid_parse_str.
    unfold documents_of at 1. rewrite lookup_insert_eq. cbn [default id].
    now rewrite Hfind.
Qed.

(** C8, as stated, fails: a payload that brings its own [_id] is stored
    under it, [create_document] returns its [str], which does not decode,
    and the lookup of the returned identifier finds nothing. *)
Lemma create_keyed_payload_not_found :
  fst (create_document (fun _ => "") 1700000000123456 oid_example "category"
         keyed_payload (Some ∅)) = Ok "drinks" /\
  oid_parse "drinks" = None /\
  fst (get_document_by_id (fun _ => "") "category" "drinks"
         (snd (create_document (fun _ => "") 1700000000123456 oid_example "category"
                 keyed_payload (Some ∅)))) = Ok None.
Proof. repeat split; by_vm. Qed.

(** C8, amended — For every payload of plain field names that the driver
    can encode, without an [_id] of its own or with an ObjectId for [_id],
    and whose key is not in use, [create_document] on an available store
    returns an identifier that decodes to the key the record is stored
    under, and [get_document_by_id] of that identifier, right after,
    returns the record just created (with its [_id] printed). *)
Theorem create_then_get_by_id
    (str_other : value -> string) (now : datetime) (fresh : ObjectId)
    (c : string) (data : document) (d : database) (o : ObjectId) :
  (data !! "_id" = None /\ o = fresh) \/ data !! "_id" = Some (VOid o) ->
  plain_doc data = true ->
  doc_encodable data = true ->
  stored c o (Some d) = None ->
  exists ident w',
    create_document str_other now fresh c data (Some d) = (Ok ident, w') /\
    oid_parse ident = Some o /\
    stored c o w' = Some (created_record now o data) /\
    get_document_by_id str_other c ident w' =
      (Ok (Some (<["_id" := VStr ident]> (created_record now o data))), w').
Proof.
  intros Hid _ Henc Hfree.
  destruct (create_document_then_find str_other now fresh c data d o Hid Henc Hfree)
    as (Hc & Hp & Hs & Hg).
  eexists _, _. repeat split; eassumption.
Qed.

Lemma create_then_get_by_id_witness :
  ((teas_payload !! "_id" = None /\ oid_other = oid_other) \/
   teas_payload !! "_id" = Some (VOid oid_other)) /\
  plain_doc teas_payload = true /\
  doc_encodable teas_payload = true /\
  stored "category" oid_other (Some db_example) = None /\
  exists ident w',
    create_document (fun _ => "") 42 oid_other "category" teas_payload (Some db_example)
      = (Ok ident, w') /\
    oid_parse ident = Some oid_other /\
    stored "category" oid_other w' = Some (created_record 42 oid_other teas_payload) /\
    get_document_by_id (fun _ => "") "category" ident w' =
      (Ok (Some (<["_id" := VStr ident]> (created_record 42 oid_other teas_payload))), w').
Proof.
  assert (H1 : (teas_payload !! "_id" = None /\ oid_other = oid_other) \/
               teas_payload !! "_id" = Some (VOid oid_other))
    by (left; split; [by_vm|reflexivity]).
  assert (Hp : plain_doc teas_payload = true) by by_vm.
  assert (H3 : doc_encodable teas_payload = true) by by_vm.
  assert (H2 : stored "category" oid_other (Some db_example) = None) by by_vm.
  refine (conj H1 (conj Hp (conj H3 (conj H2 _)))).
  exact (create_then_get_by_id (fun _ => "") 42 oid_other "category"
           teas_payload db_example oid_other H1 Hp H3 H2).
Defined.

(** ** Order status *)

(** C2 — The status update does not reject a value outside the
    enumeration: every string passes the validation of the body, the five
    enumerated ones included, and ["banana"], which is none of the five,
    reaches the store and becomes the status of the order. *)
Theorem put_order_status_unvalidated
    (set_paths : document -> option document -> outcome document) :
  (forall s, UpdateOrderStatusRequest_validate {[ "status" := VStr s ]}
             = Ok {| status := s |}) /\
  forallb status_valid schemas.status_values = true /\
  status_valid "banana" = false /\
  stored_field "order" oid_example "status" (Some orders_example)
    = Some (VStr "pending") /\
  fst (put_order_status set_paths 1700000000999000 (oid_str oid_example)
         {[ "status" := VStr "banana" ]} (Some orders_example))
    = Ok {[ "updated" := VBool true ]} /\
  stored_field "order" oid_example "status"
    (snd (put_order_status set_paths 1700000000999000 (oid_str oid_example)
            {[ "status" := VStr "banana" ]} (Some orders_example)))
    = Some (VStr "banana").
Proof.
  split.
  { intros s. unfold UpdateOrderStatusRequest_validate.
    now rewrite lookup_singleton_eq. }
  repeat split; by_vm.
Qed.

(** ** Pricing *)

Lemma div_half_even_nearest (n d : Z) :
  0 < d -> nearest_even n d (div_half_even n d).
Proof.
  intros Hd. unfold nearest_even, div_half_even.
  pose proof (Z.div_mod n d ltac:(lia)) as Hdm.
  pose proof (Z.mod_pos_bound n d Hd) as Hr.
  set (q := n / d) in *. set (r := n mod d) in *.
  destruct (Z.compare_spec (2 * r) d) as [Heq|Hlt|Hgt].
  - destruct (Z.even q) eqn:Hev.
    + split; [|auto]. replace (2 * n - 2 * q * d) with (2 * r) by lia. lia.
    + split.
      * replace (2 * n - 2 * (q + 1) * d) with (2 * r - 2 * d) by lia. lia.
      * intros _. rewrite Z.even_add, Hev. reflexivity.
  - replace (2 * n - 2 * q * d) with (2 * r) by lia. split; lia.
  - replace (2 * n - 2 * (q + 1) * d) with (2 * r - 2 * d) by lia. split; lia.
Qed.

Lemma scaled_digits_nearest (m : positive) (e : Z) (ndigits : nat) :
  nearest_even (exact_num m e * 10 ^ Z.of_nat ndigits) (exact_den e)
    (scaled_digits div_half_even m e ndigits).
Proof.
  unfold scaled_digits, exact_num, exact_den.
  destruct (0 <=? e) eqn:He.
  - apply Z.leb_le in He.
    rewrite (Z.max_l e 0), (Z.max_r (- e) 0) by lia.
    change (2 ^ 0) with 1. unfold nearest_even.
    replace (2 * (Z.pos m * 2 ^ e * 10 ^ Z.of_nat ndigits) -
             2 * (Z.pos m * 2 ^ e * 10 ^ Z.of_nat ndigits) * 1) with 0 by lia.
    cbn. split; [lia|discriminate].
  - apply Z.leb_gt in He.
    rewrite (Z.max_r e 0), (Z.max_l (- e) 0) by lia.
    change (2 ^ 0) with 1. rewrite Z.mul_1_r.
    apply div_half_even_nearest. apply Z.pow_pos_nonneg; lia.
Qed.

Lemma cart_lines_encodable (lines : list CartItem) :
  Forall (fun i => fits_int64 (quantity i) = true) lines ->
  bson_encodable (VList (List.map VDict (List.map CartItem_model_dump lines))) = true.
Proof.
  intros H. unfold bson_encodable. cbn [ints_encodable keys_encodable].
  induction H as [|i lines Hi _ IH]; [reflexivity|].
  cbn [List.map forallb]. apply andb_true_iff in IH as [IH1 IH2].
  rewrite IH1, IH2, !andb_true_r.
  unfold CartItem_model_dump. cbn [ints_encodable keys_encodable forallb fst snd].
  rewrite Hi. destruct (image_url i); reflexivity.
Qed.

Lemma Order_model_dump_encodable (o : schemas.Order) :
  bson_encodable (VList (List.map VDict (schemas.items o))) = true ->
  doc_encodable (Order_model_dump o) = true.
Proof.
  intros H. unfold Order_model_dump. cbn [list_to_map foldr uncurry fst snd].
  repeat (apply doc_encodable_insert;
          [reflexivity
          |first [exact H | reflexivity | (unfold opt_str; case_match; reflexivity)]|]).
  reflexivity.
Qed.

Lemma Order_model_dump_fields (o : schemas.Order) :
  Order_model_dump o !! "_id" = None /\
  Order_model_dump o !! "subtotal" = Some (VFloat (schemas.subtotal o)) /\
  Order_model_dump o !! "tax" = Some (VFloat (schemas.tax o)) /\
  Order_model_dump o !! "total" = Some (VFloat (schemas.total o)) /\
  Order_model_dump o !! "status" = Some (VStr (schemas.status o)).
Proof. destruct o. repeat split; by_vm. Qed.

(** What [create_order] stores and answers for a non-empty cart. *)
Lemma create_order_priced
    (str_other : value -> string) (now : datetime) (number_oid fresh : ObjectId)
    (payload : CreateOrderRequest) (d : database) (subtotal : float) :
  items payload <> [] ->
  cart_subtotal (items payload) = Ok subtotal ->
  Forall (fun i => fits_int64 (quantity i) = true) (items payload) ->
  stored "order" fresh (Some d) = None ->
  let tax := py_round (fmul subtotal TAX_RATE) 2 in
  let total := py_round (fadd subtotal tax) 2 in
  exists resp w' order,
    create_order str_other now number_oid fresh payload (Some d) = (Ok resp, w') /\
    stored "order" fresh w' = Some order /\
    order !! "subtotal" = Some (VFloat subtotal) /\
    order !! "tax" = Some (VFloat tax) /\
    order !! "total" = Some (VFloat total) /\
    resp !! "total" = Some (VFloat total).
Proof.
  intros Hne Hsub Hq Hfree tax total.
  unfold create_order. destruct (items payload) as [|i rest] eqn:Hitems; [contradiction|].
  unfold bind at 1. rewrite Hsub. cbn [lift_outcome ret].
  fold tax. fold total.
  set (order := {| schemas.user_id := user_id payload;
                   schemas.order_number := make_order_number number_oid;
                   schemas.items := List.map CartItem_model_dump (i :: rest);
                   schemas.subtotal := subtotal; schemas.tax := tax;
                   schemas.total := total; schemas.status := "pending";
                   schemas.notes := notes payload;
                   schemas.contact_email := contact_email payload;
                   schemas.contact_phone := contact_phone payload;
                   schemas.pickup_name := pickup_name payload |}).
  destruct (Order_model_dump_fields order) as (Hid & Hs & Ht & Hto & _).
  assert (Henc : doc_encodable (Order_model_dump order) = true).
  { apply Order_model_dump_encodable. now apply cart_lines_encodable. }
  destruct (create_document_then_find str_other now fresh "order"
              (Order_model_dump order) d fresh (or_introl (conj Hid eq_refl)) Henc Hfree)
    as (Hc & _ & Hst & _).
  clear Henc Hq Hsub. unfold bind. rewrite Hc. cbn [ret]. clear Hc.
  eexists _, _, _. split; [reflexivity|]. split; [exact Hst|].
  unfold created_record. rewrite !lookup_insert_ne by discriminate.
  split; [exact Hs|]. split; [exact Ht|]. split; [exact Hto|].
  cbn [list_to_map foldr uncurry].
  rewrite !lookup_insert_ne by discriminate. apply lookup_insert_eq.
Qed.

Lemma cart_subtotal_fold (lines : list CartItem) (amounts : list float) :
  Forall2 (fun i a => line_amount i = Ok a) lines amounts ->
  cart_subtotal lines = Ok (fold_left fadd amounts (S754_zero false)).
Proof.
  unfold cart_subtotal. generalize (S754_zero false).
  intros z H. revert z.
  induction H as [|i a lines amounts Hi _ IH]; intros z; cbn [fold_left]; [reflexivity|].
  rewrite Hi. cbn [sum_step]. apply IH.
Qed.

(** The subtotal depends on the prices and quantities of the lines only. *)
Lemma cart_subtotal_prices (lines lines' : list CartItem) :
  List.map (fun i => (price i, quantity i)) lines =
  List.map (fun i => (price i, quantity i)) lines' ->
  cart_subtotal lines = cart_subtotal lines'.
Proof.
  unfold cart_subtotal. generalize (Ok (S754_zero false)).
  revert lines'. induction lines as [|i lines IH]; intros [|i' lines'] acc H;
    try discriminate; [reflexivity|].
  cbn [List.map] in H. injection H as Hp Hq Hrest.
  cbn [fold_left].
  replace (line_amount i) with (line_amount i')
    by (unfold line_amount; now rewrite Hp, Hq).
  now apply IH.
Qed.

Lemma py_round_nearest_even (s : bool) (m : positive) (e : Z) :
  exists n,
    nearest_even (exact_num m e * 100) (exact_den e) n /\
    py_round (S754_finite s m e) 2 =
      match n with
      | Zpos p => float_of_ratio s p 100
      | _ => S754_zero s
      end.
Proof.
  exists (scaled_digits div_half_even m e 2). split.
  - exact (scaled_digits_nearest m e 2).
  - reflexivity.
Qed.

(** C1, as stated, fails: for the one-line cart of price 1.5625 the
    product [subtotal * 0.08] is exactly one eighth, half-up rounding of
    it is 0.13, and the order is stored with tax 0.12. *)
Lemma create_order_tax_not_half_up :
  fmul (float_literal 15625 4) TAX_RATE = float_literal 125 3 /\
  round_half_up (fmul (float_literal 15625 4) TAX_RATE) 2 = float_literal 13 2 /\
  float_literal 12 2 <> float_literal 13 2 /\
  stored_field "order" oid_example "subtotal"
    (snd (create_order (fun _ => "") 1700000000123456 oid_example oid_example
            eighth_request (Some ∅))) = Some (VFloat (float_literal 15625 4)) /\
  stored_field "order" oid_example "tax"
    (snd (create_order (fun _ => "") 1700000000123456 oid_example oid_example
            eighth_request (Some ∅))) = Some (VFloat (float_literal 12 2)).
Proof.
  split; [by_vm|]. split; [by_vm|]. split; [vm_compute; discriminate|].
  split; by_vm.
Qed.

(** C1, amended — For every non-empty cart whose line amounts are
    representable, on an available store with an unused minted key, order
    creation stores and answers: subtotal = the float sum, left to right
    from 0, of price * quantity over the lines; tax = round(subtotal * 0.08,
    2); total = round(subtotal + tax, 2); where round is the builtin one,
    which takes the exact binary value to the nearest multiple of 0.01, a
    tie going to the even multiple, and returns the double nearest to it.
    The cart [{price 2.50, qty 3}, {price 1.33, qty 2}] yields subtotal
    10.16, tax 0.81 and total 10.97. *)
Theorem create_order_pricing
    (str_other : value -> string) (now : datetime) (number_oid fresh : ObjectId)
    (payload : CreateOrderRequest) (d : database) (subtotal : float) :
  items payload <> [] ->
  cart_subtotal (items payload) = Ok subtotal ->
  Forall (fun i => fits_int64 (quantity i) = true) (items payload) ->
  stored "order" fresh (Some d) = None ->
  let tax := py_round (fmul subtotal TAX_RATE) 2 in
  let total := py_round (fadd subtotal tax) 2 in
  (exists resp w' order,
     create_order str_other now number_oid fresh payload (Some d) = (Ok resp, w') /\
     stored "order" fresh w' = Some order /\
     order !! "subtotal" = Some (VFloat subtotal) /\
     order !! "tax" = Some (VFloat tax) /\
     order !! "total" = Some (VFloat total) /\
     resp !! "total" = Some (VFloat total)) /\
  (forall amounts,
     Forall2 (fun i a => line_amount i = Ok a) (items payload) amounts ->
     subtotal = fold_left fadd amounts (S754_zero false)) /\
  (forall s m e, exists n,
     nearest_even (exact_num m e * 100) (exact_den e) n /\
     py_round (S754_finite s m e) 2 =
       match n with
       | Zpos p => float_of_ratio s p 100
       | _ => S754_zero s
       end) /\
  (List.map (fun i => (price i, quantity i)) (items payload) =
     [(float_literal 250 2, 3); (float_literal 133 2, 2)] ->
     subtotal = float_literal 1016 2 /\
     tax = float_literal 81 2 /\
     total = float_literal 1097 2).
Proof.
  intros Hne Hsub Hq Hfree tax total.
  split; [exact (create_order_priced str_other now number_oid fresh payload d
                   subtotal Hne Hsub Hq Hfree)|].
  split.
  { intros amounts Ham. rewrite (cart_subtotal_fold _ _ Ham) in Hsub. congruence. }
  split; [exact py_round_nearest_even|].
  intros Hex.
  assert (Hs : subtotal = float_literal 1016 2).
  { rewrite (cart_subtotal_prices (items payload) example_lines Hex) in Hsub.
    assert (He : cart_subtotal example_lines = Ok (float_literal 1016 2)) by by_vm.
    congruence. }
  subst subtotal. unfold total, tax. split; [reflexivity|]. split; by_vm.
Qed.

Lemma create_order_pricing_witness :
  items example_request <> [] /\
  cart_subtotal (items example_request) = Ok (float_literal 1016 2) /\
  Forall (fun i => fits_int64 (quantity i) = true) (items example_request) /\
  stored "order" oid_example (Some ∅) = None /\
  exists resp w' order,
    create_order (fun _ => "") 1700000000123456 oid_example oid_example
      example_request (Some ∅) = (Ok resp, w') /\
    stored "order" oid_example w' = Some order /\
    order !! "subtotal" = Some (VFloat (float_literal 1016 2)) /\
    order !! "tax" =
      Some (VFloat (py_round (fmul (float_literal 1016 2) TAX_RATE) 2)) /\
    order !! "total" =
      Some (VFloat (py_round (fadd (float_literal 1016 2)
                                (py_round (fmul (float_literal 1016 2) TAX_RATE) 2)) 2)) /\
    resp !! "total" =
      Some (VFloat (py_round (fadd (float_literal 1016 2)
                                (py_round (fmul (float_literal 1016 2) TAX_RATE) 2)) 2)).
Proof.
  assert (H1 : items example_request <> []) by discriminate.
  assert (H2 : cart_subtotal (items example_request) = Ok (float_literal 1016 2))
    by by_vm.
  assert (H3 : stored "order" oid_example (Some ∅) = None) by reflexivity.
  assert (H4 : Forall (fun i => fits_int64 (quantity i) = true) (items example_request))
    by (repeat constructor).
  refine (conj H1 (conj H2 (conj H4 (conj H3 _)))).
  exact (proj1 (create_order_pricing (fun _ => "") 1700000000123456 oid_example
                  oid_example example_request ∅ (float_literal 1016 2) H1 H2 H4 H3)).
Defined.

(** * Further properties of [database.py] *)

(** ** The helpers, case by case *)

Lemma get_document_by_id_parsed
    (str_other : value -> string) (c s : string) (o : ObjectId) (d : database) :
  oid_parse s = Some o ->
  get_document_by_id str_other c s (Some d) =
  (Ok match stored c o (Some d) with
      | Some doc => Some (<["_id" := VStr (oid_str o)]> doc)
      | None => None
      end, Some d).
Proof. intros Hs. now rewrite get_document_by_id_run, Hs. Qed.

Lemma documents_of_write (c c' : string) (docs : list document) (d : database) :
  documents_of c' (<[c := docs]> d) =
  if bool_decide (c = c') then docs else documents_of c' d.
Proof.
  unfold documents_of. case_bool_decide as Hc.
  - subst. now rewrite lookup_insert_eq.
  - now rewrite lookup_insert_ne.
Qed.

(** ** An unavailable store *)

(** With no database configured every helper raises the store-unavailable
    exception; so does [get_document_by_id], whose [try] does not cover the
    check. *)
Lemma helpers_store_unavailable
    (set_paths : document -> option document -> outcome document)
    (str_other : value -> string)
    (cursor_sort : list (string * Z) -> list document -> list document)
    (now : datetime) (fresh : ObjectId) (c s : string) (data : document)
    (filter_dict : option query) (limit : option Z) (sort : option (list (string * Z))) :
  create_document str_other now fresh c data None = (Raise StoreUnavailable, None) /\
  get_documents str_other cursor_sort c filter_dict limit sort None
    = (Raise StoreUnavailable, None) /\
  get_document_by_id str_other c s None = (Raise StoreUnavailable, None) /\
  update_document set_paths now c s data None = (Raise StoreUnavailable, None) /\
  delete_document c s None = (Raise StoreUnavailable, None).
Proof. repeat split; reflexivity. Qed.

(** ** Failures and refusals write nothing *)

(** X1 — The two readers never change the store. A creation that raises,
    and an update or a delete that does not return [True], leave the store
    exactly as it was. *)
Theorem helpers_write_only_on_success
    (set_paths : document -> option document -> outcome document)
    (str_other : value -> string)
    (cursor_sort : list (string * Z) -> list document -> list document)
    (now : datetime) (fresh : ObjectId) (c s : string) (data : document)
    (filter_dict : option query) (limit : option Z) (sort : option (list (string * Z)))
    (w : handle) :
  snd (get_documents str_other cursor_sort c filter_dict limit sort w) = w /\
  snd (get_document_by_id str_other c s w) = w /\
  (forall e, fst (create_document str_other now fresh c data w) = Raise e ->
             snd (create_document str_other now fresh c data w) = w) /\
  (fst (update_document set_paths now c s data w) <> Ok true ->
   snd (update_document set_paths now c s data w) = w) /\
  (fst (delete_document c s w) <> Ok true ->
   snd (delete_document c s w) = w).
Proof.
  destruct w as [d|]; [|repeat split; reflexivity].
  split; [reflexivity|]. split; [now rewrite get_document_by_id_run|].
  split.
  { intros e. rewrite create_document_run. cbv zeta.
    destruct (encode_error _); [reflexivity|].
    destruct (existsb _ _); [reflexivity|]. cbn [fst]. discriminate. }
  split.
  - destruct (update_document_cases set_paths now c s data d)
      as [(r & Hrun & _)|(o' & pre & doc0 & suf & doc' & _ & _ & _ & Hrun)];
      rewrite Hrun; cbn [fst snd]; [reflexivity|congruence].
  - rewrite delete_document_run.
    destruct (ObjectId_of_str s); [|reflexivity].
    destruct (oid_parse s); [|reflexivity].
    destruct (split_first _ _) as [[[pre doc] suf]|]; [|reflexivity].
    cbn [fst]. congruence.
Qed.

Lemma helpers_write_only_on_success_witness :
  fst (update_document no_paths 7 "category" (oid_str oid_example)
         {[ "_id" := VStr "other" ]} (Some db_example)) <> Ok true /\
  snd (update_document no_paths 7 "category" (oid_str oid_example)
         {[ "_id" := VStr "other" ]} (Some db_example)) = Some db_example.
Proof.
  assert (H : fst (update_document no_paths 7 "category" (oid_str oid_example)
                     {[ "_id" := VStr "other" ]} (Some db_example)) <> Ok true).
  { replace (fst (update_document no_paths 7 "category" (oid_str oid_example)
                    {[ "_id" := VStr "other" ]} (Some db_example)))
      with (@Raise bool WriteError) by by_vm.
    discriminate. }
  split; [exact H|].
  destruct (helpers_write_only_on_success no_paths (fun _ => "") (fun _ l => l) 7 oid_example
              "category" (oid_str oid_example) {[ "_id" := VStr "other" ]}
              None None None (Some db_example)) as (_ & _ & _ & Hu & _).
  exact (Hu H).
Defined.

(** ** Creation *)

Lemma find_app (q : query) (l l' : list document) :
  List.find q (l ++ l') =
  match List.find q l with Some x => Some x | None => List.find q l' end.
Proof.
  induction l as [|x l IH]; cbn [app List.find]; [reflexivity|].
  destruct (q x); [reflexivity|exact IH].
Qed.

Lemma by_id_false (o o' : ObjectId) (doc : document) :
  o' <> o -> by_id o doc = true -> by_id o' doc = false.
Proof.
  intros Hne Hid. apply by_id_true in Hid.
  apply bool_decide_eq_false. rewrite Hid. congruence.
Qed.

(** X2 — [create_document] of a payload of plain field names that the
    driver can encode, under a store-minted key (or a caller-given ObjectId)
    not in use, returns that key printed, and the record it stores carries
    [created_at] and [updated_at] equal to the clock reading, to the
    millisecond, whatever stamps the payload brought, and every other field
    of the payload as given. *)
Theorem create_document_record
    (str_other : value -> string) (now : datetime) (fresh : ObjectId)
    (c : string) (data : document) (d : database) (o : ObjectId) :
  (data !! "_id" = None /\ o = fresh) \/ data !! "_id" = Some (VOid o) ->
  plain_doc data = true ->
  doc_encodable data = true ->
  stored c o (Some d) = None ->
  exists w',
    create_document str_other now fresh c data (Some d) = (Ok (oid_str o), w') /\
    stored_field c o "created_at" w' = Some (bson_datetime now) /\
    stored_field c o "updated_at" w' = Some (bson_datetime now) /\
    stored_field c o "_id" w' = Some (VOid o) /\
    (forall k, k <> "_id" -> k <> "created_at" -> k <> "updated_at" ->
               stored_field c o k w' = data !! k).
Proof.
  intros Hid _ Henc Hfree.
  destruct (create_document_then_find str_other now fresh c data d o Hid Henc Hfree)
    as (Hc & _ & Hst & _).
  eexists. split; [exact Hc|]. unfold stored_field. rewrite Hst.
  unfold created_record. split; [|split; [|split]].
  - now rewrite !lookup_insert_ne, lookup_insert_eq by (intros [=]).
  - now rewrite lookup_insert_ne, lookup_insert_eq by (intros [=]).
  - apply lookup_insert_eq.
  - intros k H1 H2 H3. now rewrite !lookup_insert_ne by congruence.
Qed.

Lemma create_document_record_witness :
  ((stamped_payload !! "_id" = None /\ oid_other = oid_other) \/
   stamped_payload !! "_id" = Some (VOid oid_other)) /\
  plain_doc stamped_payload = true /\
  doc_encodable stamped_payload = true /\
  stored "category" oid_other (Some db_example) = None /\
  exists w',
    create_document (fun _ => "") 1700000000500000 oid_other "category"
      stamped_payload (Some db_example) = (Ok (oid_str oid_other), w') /\
    stored_field "category" oid_other "created_at" w' = Some (VDate 1700000000500) /\
    stored_field "category" oid_other "updated_at" w' = Some (VDate 1700000000500).
Proof.
  assert (H1 : (stamped_payload !! "_id" = None /\ oid_other = oid_other) \/
               stamped_payload !! "_id" = Some (VOid oid_other))
    by (left; split; [by_vm|reflexivity]).
  assert (Hp : plain_doc stamped_payload = true) by by_vm.
  assert (H2 : doc_encodable stamped_payload = true) by by_vm.
  assert (H3 : stored "category" oid_other (Some db_example) = None) by by_vm.
  refine (conj H1 (conj Hp (conj H2 (conj H3 _)))).
  destruct (create_document_record (fun _ => "") 1700000000500000 oid_other "category"
              stamped_payload db_example oid_other H1 Hp H2 H3)
    as (w' & Hc & Ha & Hb & _).
  exists w'. exact (conj Hc (conj Ha Hb)).
Defined.

Lemma stored_other_collection
    (c c' : string) (o : ObjectId) (docs : list document) (d : database) :
  c' <> c -> stored c' o (Some (<[c := docs]> d)) = stored c' o (Some d).
Proof.
  intros Hne. cbn [stored]. rewrite documents_of_write.
  now rewrite bool_decide_eq_false_2 by congruence.
Qed.

(** X3 — Creation appends: [create_document] of a payload of plain field
    names that the driver can encode, under a key not in use, puts the new
    record last in the natural order of its collection; the records that
    were there stay as they were, and no other collection changes. *)
Theorem create_document_frame
    (str_other : value -> string) (now : datetime) (fresh : ObjectId)
    (c : string) (data : document) (d : database) (o : ObjectId) :
  (data !! "_id" = None /\ o = fresh) \/ data !! "_id" = Some (VOid o) ->
  plain_doc data = true ->
  doc_encodable data = true ->
  stored c o (Some d) = None ->
  exists d',
    create_document str_other now fresh c data (Some d) = (Ok (oid_str o), Some d') /\
    documents_of c d' = documents_of c d ++ [created_record now o data] /\
    (forall c', c' <> c -> documents_of c' d' = documents_of c' d) /\
    (forall o', o' <> o -> stored c o' (Some d') = stored c o' (Some d)).
Proof.
  intros Hid _ Henc Hfree.
  destruct (create_document_then_find str_other now fresh c data d o Hid Henc Hfree)
    as (Hc & _ & Hst & _).
  eexists. split; [exact Hc|]. split; [|split].
  - rewrite documents_of_write. now rewrite bool_decide_eq_true_2.
  - intros c' Hne. rewrite documents_of_write.
    now rewrite bool_decide_eq_false_2 by congruence.
  - intros o' Hne. rewrite stored_write. cbn [stored]. rewrite find_app.
    destruct (List.find (by_id o') (documents_of c d)); [reflexivity|].
    cbn [List.find]. rewrite (by_id_false o o'); [reflexivity|exact Hne|].
    apply by_id_true. apply lookup_insert_eq.
Qed.

Lemma create_document_frame_witness :
  ((stamped_payload !! "_id" = None /\ oid_other = oid_other) \/
   stamped_payload !! "_id" = Some (VOid oid_other)) /\
  plain_doc stamped_payload = true /\
  doc_encodable stamped_payload = true /\
  stored "category" oid_other (Some db_example) = None /\
  exists d',
    create_document (fun _ => "") 1700000000500000 oid_other "category"
      stamped_payload (Some db_example) = (Ok (oid_str oid_other), Some d') /\
    documents_of "category" d' =
      documents_of "category" db_example
        ++ [created_record 1700000000500000 oid_other stamped_payload] /\
    (forall c', c' <> "category" -> documents_of c' d' = documents_of c' db_example) /\
    (forall o', o' <> oid_other ->
       stored "category" o' (Some d') = stored "category" o' (Some db_example)).
Proof.
  assert (H1 : (stamped_payload !! "_id" = None /\ oid_other = oid_other) \/
               stamped_payload !! "_id" = Some (VOid oid_other))
    by (left; split; [by_vm|reflexivity]).
  assert (Hp : plain_doc stamped_payload = true) by by_vm.
  assert (H2 : doc_encodable stamped_payload = true) by by_vm.
  assert (H3 : stored "category" oid_other (Some db_example) = None) by by_vm.
  refine (conj H1 (conj Hp (conj H2 (conj H3 _)))).
  exact (create_document_frame (fun _ => "") 1700000000500000 oid_other "category"
           stamped_payload db_example oid_other H1 Hp H2 H3).
Defined.

Lemma existsb_same_id (v : value) (docs : list document) :
  existsb (same_id v) docs = true <-> In (Some v) (keys docs).
Proof.
  unfold keys. rewrite existsb_exists, in_map_iff. split.
  - intros (doc & Hin & Hid). apply bool_decide_eq_true in Hid. eauto.
  - intros (doc & Hid & Hin). exists doc. split; [exact Hin|].
    now apply bool_decide_eq_true.
Qed.

(** X4 — A payload that brings a key already in use in the collection
    is never stored: [create_document] raises and nothing is written,
    whatever else the payload holds. When the payload has plain field names
    and the driver can encode it, the exception is the duplicate-key
    error. *)
Theorem create_document_duplicate_key
    (str_other : value -> string) (now : datetime) (fresh : ObjectId)
    (c : string) (data : document) (d : database) (v : value) :
  data !! "_id" = Some v ->
  In (Some v) (keys (documents_of c d)) ->
  (exists e, create_document str_other now fresh c data (Some d) = (Raise e, Some d)) /\
  (plain_doc data = true -> doc_encodable data = true ->
   create_document str_other now fresh c data (Some d) =
   (Raise DuplicateKeyError, Some d)).
Proof.
  intros Hid Hin. rewrite create_document_run. cbv zeta.
  rewrite Hid. cbn [default id].
  rewrite (proj2 (existsb_same_id v (documents_of c d)) Hin). split.
  - destruct (encode_error _); eauto.
  - intros _ Henc. rewrite encode_error_encodable; [reflexivity|].
    apply doc_encodable_insert; [reflexivity| |].
    + apply doc_encodable_spec in Henc. exact (proj2 (Henc "_id" v Hid)).
    + repeat (apply doc_encodable_insert; [reflexivity|reflexivity|]). exact Henc.
Qed.

Lemma create_document_duplicate_key_witness :
  category_example !! "_id" = Some (VOid oid_example) /\
  In (Some (VOid oid_example)) (keys (documents_of "category" db_example)) /\
  plain_doc category_example = true /\
  doc_encodable category_example = true /\
  create_document (fun _ => "") 9 oid_other "category" category_example (Some db_example)
    = (Raise DuplicateKeyError, Some db_example).
Proof.
  assert (H1 : category_example !! "_id" = Some (VOid oid_example)) by by_vm.
  assert (Hp : plain_doc category_example = true) by by_vm.
  assert (H2 : doc_encodable category_example = true) by by_vm.
  assert (H3 : In (Some (VOid oid_example)) (keys (documents_of "category" db_example)))
    by (left; by_vm).
  refine (conj H1 (conj H3 (conj Hp (conj H2 _)))).
  exact (proj2 (create_document_duplicate_key (fun _ => "") 9 oid_other "category"
                  category_example db_example (VOid oid_example) H1 H3) Hp H2).
Defined.

(** ** Primary keys *)

Lemma keys_app (l l' : list document) : keys (l ++ l') = keys l ++ keys l'.
Proof. unfold keys. apply map_app. Qed.

Lemma keys_unique_write (c : string) (docs : list document) (d : database) :
  keys_unique (Some d) ->
  NoDup (keys docs) -> Forall (fun doc => is_Some (doc !! "_id")) docs ->
  keys_unique (Some (<[c := docs]> d)).
Proof.
  intros Hd Hn Hf c'. rewrite documents_of_write.
  case_bool_decide; [auto|apply Hd].
Qed.

Lemma find_none_not_key (o : ObjectId) (docs : list document) :
  Some (VOid o) ∉ keys docs -> List.find (by_id o) docs = None.
Proof.
  intros Hn. destruct (List.find (by_id o) docs) as [x|] eqn:Hf; [|reflexivity].
  apply find_some in Hf as [Hin Hid]. apply by_id_true in Hid.
  exfalso. apply Hn. apply list_elem_of_In. unfold keys. apply in_map_iff. eauto.
Qed.

(** X5 — Unique primary keys are an invariant of the helpers: if every
    record has a key and no two records of a collection share one, the same
    holds after any creation, update or deletion, whatever its arguments and
    its outcome. *)
Theorem keys_unique_preserved
    (set_paths : document -> option document -> outcome document)
    (str_other : value -> string) (now : datetime) (fresh : ObjectId)
    (c s : string) (data : document) (w : handle) :
  keys_unique w ->
  keys_unique (snd (create_document str_other now fresh c data w)) /\
  keys_unique (snd (update_document set_paths now c s data w)) /\
  keys_unique (snd (delete_document c s w)).
Proof.
  intros Hw. destruct w as [d|]; [|repeat split; exact I].
  destruct (Hw c) as [Hn Hf]. split; [|split].
  - rewrite create_document_run. cbv zeta.
    destruct (encode_error _); [exact Hw|].
    destruct (existsb _ _) eqn:Hex; [exact Hw|]. cbn [snd].
    apply keys_unique_write; [exact Hw| |].
    + rewrite keys_app. apply NoDup_app. split; [exact Hn|]. split.
      * intros x Hx Hx'. cbn in Hx'. apply list_elem_of_singleton in Hx'. subst x.
        rewrite lookup_insert_eq in Hx. apply list_elem_of_In in Hx.
        apply existsb_same_id in Hx. congruence.
      * cbn. apply NoDup_singleton.
    + apply Forall_app. split; [exact Hf|]. constructor; [|constructor].
      rewrite lookup_insert_eq. eauto.
  - destruct (update_document_cases set_paths now c s data d)
      as [(r & Hrun & _)|(o & pre & doc & suf & doc' & _ & Hsp & Hid & Hrun)];
      rewrite Hrun; cbn [snd]; [exact Hw|].
    apply split_first_Some in Hsp as (Hdocs & _ & _). rewrite Hdocs in Hn, Hf.
    apply keys_unique_write; [exact Hw| |].
    + rewrite keys_app in Hn |- *. cbn [keys List.map] in Hn |- *.
      now rewrite Hid.
    + apply Forall_app in Hf as [Hf1 Hf2]. apply Forall_cons in Hf2 as [Hf2 Hf3].
      apply Forall_app. split; [exact Hf1|]. constructor; [|exact Hf3].
      now rewrite Hid.
  - rewrite delete_document_run.
    destruct (ObjectId_of_str s); [|exact Hw].
    destruct (oid_parse s) as [o|]; [|exact Hw].
    destruct (split_first _ _) as [[[pre doc] suf]|] eqn:Hsp; [|exact Hw].
    cbn [snd]. apply split_first_Some in Hsp as (Hdocs & _ & _).
    rewrite Hdocs in Hn, Hf.
    apply keys_unique_write; [exact Hw| |].
    + rewrite keys_app in Hn |- *. cbn [keys List.map] in Hn.
      apply NoDup_app in Hn as (Hn1 & Hn2 & Hn3). apply NoDup_cons in Hn3 as [_ Hn3].
      apply NoDup_app. split; [exact Hn1|]. split; [|exact Hn3].
      intros x Hx Hx'. apply (Hn2 x Hx). now apply list_elem_of_further.
    + apply Forall_app in Hf as [Hf1 Hf2]. apply Forall_cons in Hf2 as [_ Hf3].
      apply Forall_app. auto.
Qed.

Lemma db_example_keys_unique : keys_unique (Some db_example).
Proof.
  intros c. unfold documents_of, db_example.
  destruct (decide (c = "category")) as [->|Hne].
  - rewrite lookup_singleton_eq. cbn [default keys List.map]. split.
    + apply NoDup_singleton.
    + constructor; [|constructor]. exists (VOid oid_example). by_vm.
  - rewrite lookup_singleton_ne by congruence. cbn. split; constructor.
Qed.

Lemma keys_unique_preserved_witness :
  keys_unique (Some db_example) /\
  keys_unique (snd (create_document (fun _ => "") 1700000000500000 oid_other "category"
                      stamped_payload (Some db_example))) /\
  keys_unique (snd (update_document no_paths 1700000000500000 "category" (oid_str oid_example)
                      stamped_payload (Some db_example))) /\
  keys_unique (snd (delete_document "category" (oid_str oid_example) (Some db_example))).
Proof.
  refine (conj db_example_keys_unique _).
  destruct (keys_unique_preserved no_paths (fun _ => "") 1700000000500000 oid_other
              "category"
              (oid_str oid_example) stamped_payload (Some db_example)
              db_example_keys_unique) as (Ha & Hb & Hc).
  exact (conj Ha (conj Hb Hc)).
Defined.

(** ** Deletion *)

Lemma delete_document_removed
    (c : string) (o : ObjectId) (d : database) (doc : document) :
  keys_unique (Some d) ->
  stored c o (Some d) = Some doc ->
  exists d',
    delete_document c (oid_str o) (Some d) = (Ok true, Some d') /\
    stored c o (Some d') = None /\
    (forall c' o', c' <> c \/ o' <> o ->
       stored c' o' (Some d') = stored c' o' (Some d)) /\
    delete_document c (oid_str o) (Some d') = (Ok false, Some d').
Proof.
  intros Hu Hst.
  destruct (stored_split _ _ _ _ Hst) as (pre & suf & Hsp).
  rewrite (delete_document_parsed c (oid_str o) o d (oid_parse_str o)), Hsp.
  destruct (split_first_Some _ _ _ _ _ Hsp) as (Hdocs & Hm & Hpre).
  destruct (Hu c) as [Hn _]. rewrite Hdocs, keys_app in Hn.
  cbn [keys List.map] in Hn. apply by_id_true in Hm. rewrite Hm in Hn.
  apply NoDup_app in Hn as (_ & _ & Hn). apply NoDup_cons in Hn as [Hsuf _].
  assert (Hgone : List.find (by_id o) (pre ++ suf) = None).
  { rewrite find_app, Hpre. now apply find_none_not_key. }
  eexists. split; [reflexivity|]. split; [|split].
  - now rewrite stored_write.
  - intros c' o' [Hc|Ho].
    + now apply stored_other_collection.
    + destruct (decide (c' = c)) as [->|Hc]; [|now apply stored_other_collection].
      rewrite stored_write. cbn [stored]. rewrite Hdocs, !find_app.
      destruct (List.find (by_id o') pre); [reflexivity|].
      cbn [List.find]. rewrite (by_id_false o o'); [reflexivity|exact Ho|].
      now apply by_id_true.
  - rewrite (delete_document_parsed c (oid_str o) o _ (oid_parse_str o)), documents_of_write.
    rewrite bool_decide_eq_true_2 by reflexivity.
    rewrite split_first_find in Hgone.
    destruct (split_first (by_id o) (pre ++ suf)) as [[[p x] q]|]; [discriminate|].
    reflexivity.
Qed.

(** X6 — Deleting a stored record of a store with unique keys returns
    [True] and removes that record and no other: a lookup of its key then
    finds nothing, every other record of the store is where it was, and a
    second deletion of the same identifier returns [False] and changes
    nothing. *)
Theorem delete_document_removes
    (c : string) (o : ObjectId) (d : database) (doc : document) :
  keys_unique (Some d) ->
  stored c o (Some d) = Some doc ->
  exists w',
    delete_document c (oid_str o) (Some d) = (Ok true, w') /\
    stored c o w' = None /\
    (forall c' o', c' <> c \/ o' <> o -> stored c' o' w' = stored c' o' (Some d)) /\
    delete_document c (oid_str o) w' = (Ok false, w').
Proof.
  intros Hu Hst.
  destruct (delete_document_removed c o d doc Hu Hst) as (d' & H).
  exists (Some d'). exact H.
Qed.

Lemma delete_document_removes_witness :
  keys_unique (Some db_example) /\
  stored "category" oid_example (Some db_example) = Some category_example /\
  exists w',
    delete_document "category" (oid_str oid_example) (Some db_example) = (Ok true, w') /\
    stored "category" oid_example w' = None /\
    (forall c' o', c' <> "category" \/ o' <> oid_example ->
       stored c' o' w' = stored c' o' (Some db_example)) /\
    delete_document "category" (oid_str oid_example) w' = (Ok false, w').
Proof.
  assert (H : stored "category" oid_example (Some db_example) = Some category_example)
    by by_vm.
  refine (conj db_example_keys_unique (conj H _)).
  exact (delete_document_removes "category" oid_example db_example category_example
           db_example_keys_unique H).
Defined.

(** ** Updates *)

Lemma update_document_merged
    (set_paths : document -> option document -> outcome document)
    (now : datetime) (c : string) (o : ObjectId) (update_data : document)
    (d : database) (doc : document) :
  stored c o (Some d) = Some doc ->
  plain_doc update_data = true ->
  doc_encodable update_data = true ->
  update_data !! "_id" = None ->
  exists b d',
    update_document set_paths now c (oid_str o) update_data (Some d) = (Ok b, Some d') /\
    (forall k, stored_field c o k (Some d') =
               if bool_decide (k = "updated_at") then Some (bson_datetime now)
               else match update_data !! k with
                    | Some v => Some v
                    | None => doc !! k
                    end) /\
    (forall c' o', c' <> c \/ o' <> o ->
       stored c' o' (Some d') = stored c' o' (Some d)) /\
    List.length (documents_of c d') = List.length (documents_of c d).
Proof.
  intros Hst Hp Henc Hnoid.
  destruct (stored_split _ _ _ _ Hst) as (pre & suf & Hsp).
  rewrite (update_document_parsed set_paths now c (oid_str o) o update_data d
             (oid_parse_str o) Hp).
  rewrite (update_fields_encodable _ _ Henc), Hsp.
  destruct (split_first_Some _ _ _ _ _ Hsp) as (Hdocs & Hm & Hpre).
  set (fields := update_fields now update_data).
  assert (Hid : id_unchanged fields doc = true).
  { unfold id_unchanged, fields, update_fields.
    rewrite lookup_insert_ne by (intros [=]). now rewrite Hnoid. }
  assert (Hfield : forall k, (fields ∪ doc) !! k =
            if bool_decide (k = "updated_at") then Some (bson_datetime now)
            else match update_data !! k with Some v => Some v | None => doc !! k end).
  { intros k. unfold fields, update_fields. case_bool_decide as Hk.
    - subst k. apply lookup_union_Some_l, lookup_insert_eq.
    - rewrite lookup_union, lookup_insert_ne by congruence.
      destruct (update_data !! k), (doc !! k); reflexivity. }
  rewrite Hid. cbn [negb].
  destruct (bool_decide (fields ∪ doc = doc)) eqn:Hsame.
  - apply bool_decide_eq_true in Hsame.
    exists false, d. split; [reflexivity|]. split; [|split; [auto|reflexivity]].
    intros k. unfold stored_field. rewrite Hst, <- Hsame at 1. apply Hfield.
  - exists true, (<[c := pre ++ (fields ∪ doc) :: suf]> d).
    split; [reflexivity|]. split; [|split].
    + intros k. unfold stored_field. rewrite stored_write.
      rewrite (find_app_first _ _ _ _ Hpre (merged_keeps_id _ _ _ Hid Hm)).
      apply Hfield.
    + intros c' o' [Hc|Ho]; [now apply stored_other_collection|].
      destruct (decide (c' = c)) as [->|Hc]; [|now apply stored_other_collection].
      rewrite stored_write. cbn [stored]. rewrite Hdocs, !find_app.
      destruct (List.find (by_id o') pre); [reflexivity|].
      cbn [List.find].
      rewrite (by_id_false o o' _ Ho Hm).
      now rewrite (by_id_false o o' _ Ho (merged_keeps_id _ _ _ Hid Hm)).
    + rewrite documents_of_write, bool_decide_eq_true_2 by reflexivity.
      rewrite Hdocs, !length_app. reflexivity.
Qed.

(** X7 — A partial update of a stored record, with a payload of plain
    field names that the driver can encode and that does not name [_id],
    does not raise; afterwards the record holds the payload's value in
    every field the payload names, the clock reading in [updated_at], and
    its old value in every other field; the other records are untouched and
    the collection has as many records as before. *)
Theorem update_document_merges
    (set_paths : document -> option document -> outcome document)
    (now : datetime) (c : string) (o : ObjectId) (update_data : document)
    (d : database) (doc : document) :
  stored c o (Some d) = Some doc ->
  plain_doc update_data = true ->
  doc_encodable update_data = true ->
  update_data !! "_id" = None ->
  exists b d',
    update_document set_paths now c (oid_str o) update_data (Some d) = (Ok b, Some d') /\
    (forall k, stored_field c o k (Some d') =
               if bool_decide (k = "updated_at") then Some (bson_datetime now)
               else match update_data !! k with
                    | Some v => Some v
                    | None => doc !! k
                    end) /\
    (forall c' o', c' <> c \/ o' <> o ->
       stored c' o' (Some d') = stored c' o' (Some d)) /\
    List.length (documents_of c d') = List.length (documents_of c d).
Proof. apply update_document_merged. Qed.

Lemma update_document_merges_witness :
  stored "category" oid_example (Some db_example) = Some category_example /\
  plain_doc {[ "name" := VStr "Teas" ]} = true /\
  doc_encodable {[ "name" := VStr "Teas" ]} = true /\
  ({[ "name" := VStr "Teas" ]} : document) !! "_id" = None /\
  exists b d',
    update_document no_paths 1700000000900000 "category" (oid_str oid_example)
      {[ "name" := VStr "Teas" ]} (Some db_example) = (Ok b, Some d') /\
    stored_field "category" oid_example "name" (Some d') = Some (VStr "Teas") /\
    stored_field "category" oid_example "is_active" (Some d') = Some (VBool true).
Proof.
  assert (H1 : stored "category" oid_example (Some db_example) = Some category_example)
    by by_vm.
  assert (Hp : plain_doc {[ "name" := VStr "Teas" ]} = true) by by_vm.
  assert (H2 : doc_encodable {[ "name" := VStr "Teas" ]} = true) by by_vm.
  assert (H3 : ({[ "name" := VStr "Teas" ]} : document) !! "_id" = None) by by_vm.
  refine (conj H1 (conj Hp (conj H2 (conj H3 _)))).
  destruct (update_document_merges no_paths 1700000000900000 "category" oid_example
              {[ "name" := VStr "Teas" ]} db_example category_example H1 Hp H2 H3)
    as (b & d' & Hu & Hk & _).
  exists b, d'. split; [exact Hu|]. split.
  - rewrite (Hk "name"). by_vm.
  - rewrite (Hk "is_active"). by_vm.
Defined.

(** ** Lookup *)

Lemma hex_byte_upper (b : byte) :
  let n := Byte.to_N b in
  hex_val (ascii_upper (hex_digit (n / 16))) = Some (n / 16)%N /\
  hex_val (ascii_upper (hex_digit (n mod 16))) = Some (n mod 16)%N.
Proof. destruct b; vm_compute; auto. Qed.

Lemma fromhex_upper_hexlify (bs : list byte) : fromhex (upper (hexlify bs)) = Some bs.
Proof.
  induction bs as [|b bs IH]; [reflexivity|].
  cbn [hexlify upper fromhex]. rewrite (proj2 (hex_byte_not_space b)).
  destruct (hex_byte_upper b) as (-> & ->).
  destruct (hex_byte_roundtrip b) as (_ & _ & ->).
  now rewrite IH.
Qed.

Lemma upper_length (s : string) : String.length (upper s) = String.length s.
Proof. induction s as [|a s IH]; cbn [upper String.length]; congruence. Qed.

Lemma oid_parse_upper (o : ObjectId) : oid_parse (upper (oid_str o)) = Some o.
Proof.
  unfold oid_parse, ObjectId_of_str, oid_str.
  rewrite upper_length, hexlify_length, fromhex_upper_hexlify.
  destruct o; reflexivity.
Qed.

(** X8 — A lookup by an identifier that decodes to a stored record's key,
    in lower or in upper case, returns that record with every field as
    stored, except [_id], which is the key printed as 24 lowercase
    hexadecimal digits; when no record has the key it returns [None]. *)
Theorem get_document_by_id_found
    (str_other : value -> string) (c s : string) (o : ObjectId) (d : database) :
  oid_parse s = Some o ->
  get_document_by_id str_other c s (Some d) =
    (Ok match stored c o (Some d) with
        | Some doc => Some (<["_id" := VStr (oid_str o)]> doc)
        | None => None
        end, Some d) /\
  get_document_by_id str_other c (upper (oid_str o)) (Some d) =
  get_document_by_id str_other c (oid_str o) (Some d).
Proof.
  intros Hs. split; [now apply get_document_by_id_parsed|].
  rewrite (get_document_by_id_parsed str_other c _ o d (oid_parse_upper o)).
  now rewrite (get_document_by_id_parsed str_other c _ o d (oid_parse_str o)).
Qed.

Lemma get_document_by_id_found_witness :
  oid_parse "654F1A2B3C4D5E6F708192A3" = Some oid_example /\
  fst (get_document_by_id (fun _ => "") "category" "654F1A2B3C4D5E6F708192A3"
         (Some db_example)) =
  Ok (Some (<["_id" := VStr "654f1a2b3c4d5e6f708192a3"]> category_example)).
Proof.
  assert (H : oid_parse "654F1A2B3C4D5E6F708192A3" = Some oid_example) by by_vm.
  split; [exact H|].
  rewrite (proj1 (get_document_by_id_found (fun _ => "") "category"
                    "654F1A2B3C4D5E6F708192A3" oid_example db_example H)).
  by_vm.
Defined.

(** X9 — [serialize_doc] gives [None] for no document and for an empty
    one; for any other document it changes nothing but [_id], which an
    ObjectId leaves as its 24-digit string, and serializing the result
    again gives the result back. *)
Theorem serialize_doc_external_id (str_other : value -> string) (doc : document) :
  serialize_doc str_other None = None /\
  serialize_doc str_other (Some ∅) = None /\
  (doc <> ∅ ->
   exists r,
     serialize_doc str_other (Some doc) = Some r /\
     (forall k, k <> "_id" -> r !! k = doc !! k) /\
     (forall o, doc !! "_id" = Some (VOid o) -> r !! "_id" = Some (VStr (oid_str o))) /\
     (doc !! "_id" = None -> r = doc) /\
     serialize_doc str_other (Some r) = Some r).
Proof.
  split; [reflexivity|]. split; [reflexivity|].
  intros Hne. unfold serialize_doc at 1.
  rewrite (bool_decide_eq_false_2 _ Hne).
  destruct (doc !! "_id") as [i|] eqn:Hi.
  - eexists. split; [reflexivity|]. split; [|split; [|split]].
    + intros k Hk. now rewrite lookup_insert_ne by congruence.
    + intros o [= ->]. now rewrite lookup_insert_eq.
    + discriminate.
    + unfold serialize_doc.
      rewrite bool_decide_eq_false_2 by apply insert_non_empty.
      rewrite lookup_insert_eq. cbn [py_str].
      now rewrite insert_insert_eq.
  - exists doc. split; [reflexivity|]. split; [auto|]. split; [discriminate|].
    split; [auto|]. unfold serialize_doc.
    now rewrite (bool_decide_eq_false_2 _ Hne), Hi.
Qed.

Lemma serialize_doc_external_id_witness :
  category_example <> ∅ /\
  serialize_doc (fun _ => "") (Some category_example) =
  Some (<["_id" := VStr "654f1a2b3c4d5e6f708192a3"]> category_example).
Proof.
  assert (H : category_example <> ∅).
  { intros He. assert (Hl : category_example !! "name" = Some (VStr "Drinks")) by by_vm.
    rewrite He, lookup_empty in Hl. discriminate. }
  split; [exact H|].
  destruct (serialize_doc_external_id (fun _ => "") category_example) as (_ & _ & Hs).
  destruct (Hs H) as (r & Hr & _). rewrite Hr. symmetry. rewrite <- Hr. by_vm.
Defined.

(** ** Listing *)

Lemma serialize_doc_id_string
    (str_other : value -> string) (doc r : document) (i : value) :
  serialize_doc str_other (Some doc) = Some r ->
  r !! "_id" = Some i -> exists s, i = VStr s.
Proof.
  unfold serialize_doc. destruct (bool_decide (doc = ∅)); [discriminate|].
  destruct (doc !! "_id") as [j|] eqn:Hj.
  - intros [= <-]. rewrite lookup_insert_eq. intros [= <-]. eauto.
  - intros [= <-]. congruence.
Qed.

Lemma In_firstn (n : nat) (l : list document) (x : document) :
  In x (firstn n l) -> In x l.
Proof.
  revert l; induction n as [|n IH]; intros [|y l]; cbn [firstn In]; try tauto.
  intros [->|H]; auto.
Qed.

(** X10 — On an available store [get_documents] returns without raising
    and without writing; a non-zero limit bounds the number of records
    returned by its absolute value, whatever the sort; no record returned
    carries an [_id] that is not a string; and without a sort every record
    returned is the serialization of a stored record of the collection that
    satisfies the filter. *)
Theorem get_documents_results
    (str_other : value -> string)
    (cursor_sort : list (string * Z) -> list document -> list document)
    (c : string) (filter_dict : option query) (limit : option Z)
    (sort : option (list (string * Z))) (d : database) :
  exists rs,
    get_documents str_other cursor_sort c filter_dict limit sort (Some d)
      = (Ok rs, Some d) /\
    (forall n, limit = Some n -> n <> 0 ->
               (List.length rs <= Z.to_nat (Z.abs n))%nat) /\
    (forall r i, In (Some r) rs -> r !! "_id" = Some i -> exists s, i = VStr s) /\
    (sort = None ->
     forall r, In r rs ->
       exists doc, In doc (documents_of c d) /\
                   default match_all filter_dict doc = true /\
                   r = serialize_doc str_other (Some doc)).
Proof.
  eexists. split; [reflexivity|]. split; [|split].
  - intros n -> Hn. rewrite length_map.
    rewrite (proj2 (Z.eqb_neq n 0) Hn). unfold cursor_limit.
    rewrite (proj2 (Z.eqb_neq n 0) Hn). apply firstn_le_length.
  - intros r i Hin Hi. apply in_map_iff in Hin as (doc & Hser & _).
    exact (serialize_doc_id_string str_other doc r i Hser Hi).
  - intros -> r Hin. apply in_map_iff in Hin as (doc & <- & Hin).
    exists doc.
    assert (Hf : In doc (List.filter (default match_all filter_dict) (documents_of c d))).
    { destruct limit as [n|]; [|exact Hin].
      destruct (n =? 0); [exact Hin|].
      unfold cursor_limit in Hin. destruct (n =? 0); [exact Hin|].
      eapply In_firstn; eauto. }
    apply filter_In in Hf as [Hd Hq]. auto.
Qed.

(** ** Stamps *)

(** X11 — The record that [create_document] stores has
    [created_at = updated_at], both the clock reading; an update with a
    payload of plain field names that does not name [created_at], made when
    the clock is not behind the record's [updated_at], keeps
    [created_at <= updated_at] on the record, whatever the outcome of the
    update; when the driver can encode the payload and it does not name
    [_id], the update returns, [updated_at] is the clock reading and
    [created_at] is what it was. *)
Theorem stamps_ordered_kept
    (set_paths : document -> option document -> outcome document)
    (str_other : value -> string)
    (now : datetime) (fresh : ObjectId) (c : string) (o : ObjectId) (data : document)
    (d : database) :
  ((data !! "_id" = None /\ o = fresh) \/ data !! "_id" = Some (VOid o) ->
   plain_doc data = true -> doc_encodable data = true ->
   stored c o (Some d) = None ->
   exists ident d' record,
     create_document str_other now fresh c data (Some d) = (Ok ident, Some d') /\
     stored c o (Some d') = Some record /\
     record !! "created_at" = Some (bson_datetime now) /\
     record !! "updated_at" = record !! "created_at" /\
     stamps_ordered record) /\
  (forall doc u,
     stored c o (Some d) = Some doc ->
     stamps_ordered doc ->
     doc !! "updated_at" = Some (VDate u) -> u <= now / 1000 ->
     plain_doc data = true ->
     data !! "created_at" = None ->
     exists doc',
       stored c o (snd (update_document set_paths now c (oid_str o) data (Some d)))
         = Some doc' /\
       stamps_ordered doc' /\
       (doc_encodable data = true -> data !! "_id" = None ->
        exists b,
          fst (update_document set_paths now c (oid_str o) data (Some d)) = Ok b /\
          doc' !! "updated_at" = Some (bson_datetime now) /\
          doc' !! "created_at" = doc !! "created_at")).
Proof.
  split.
  { intros Hid _ Henc Hfree.
    destruct (create_document_then_find str_other now fresh c data d o Hid Henc Hfree)
      as (Hc & _ & Hst & _).
    assert (Hca : created_record now o data !! "created_at" = Some (bson_datetime now)).
    { unfold created_record.
      now rewrite !lookup_insert_ne, lookup_insert_eq by (intros [=]). }
    assert (Hua : created_record now o data !! "updated_at" = Some (bson_datetime now)).
    { unfold created_record.
      now rewrite lookup_insert_ne, lookup_insert_eq by (intros [=]). }
    eexists _, _, _. split; [exact Hc|]. split; [exact Hst|].
    split; [exact Hca|]. split; [now rewrite Hua, Hca|].
    exists (now / 1000), (now / 1000). split; [exact Hca|]. split; [exact Hua|lia]. }
  intros doc u Hst (a & u' & Ha & Hu' & Hle) Hu Hclock Hp Hnc.
  rewrite Hu in Hu'. injection Hu' as <-.
  assert (Hgen : exists doc',
            stored c o (snd (update_document set_paths now c (oid_str o) data (Some d)))
              = Some doc' /\ stamps_ordered doc').
  { destruct (stored_split _ _ _ _ Hst) as (pre & suf & Hsp).
    rewrite (update_document_parsed set_paths now c (oid_str o) o data d
               (oid_parse_str o) Hp).
    assert (Hold : stamps_ordered doc) by (exists a, u; auto).
    destruct (encode_error _); cbn [snd]; [eauto|]. rewrite Hsp.
    destruct (split_first_Some _ _ _ _ _ Hsp) as (_ & Hm & Hpre).
    destruct (id_unchanged _ _) eqn:Hid; cbn [negb snd]; [|eauto].
    destruct (bool_decide _); cbn [snd]; [eauto|].
    exists (update_fields now data ∪ doc). split.
    - rewrite stored_write. apply find_app_first; [exact Hpre|].
      now apply merged_keeps_id.
    - exists a, (now / 1000). split; [|split; [|lia]].
      + rewrite lookup_union_r; [exact Ha|].
        unfold update_fields. now rewrite lookup_insert_ne by (intros [=]).
      + apply lookup_union_Some_l. apply lookup_insert_eq. }
  destruct Hgen as (doc' & Hst' & Hord'). exists doc'.
  split; [exact Hst'|]. split; [exact Hord'|].
  intros Henc Hnoid.
  assert (Hid : id_unchanged data doc = true)
    by (unfold id_unchanged; now rewrite Hnoid).
  destruct (update_document_stored set_paths now c (oid_str o) o data d doc
              (oid_parse_str o) Hst Hp Henc Hid) as (b & d' & Hrun & Hst2 & _).
  rewrite Hrun in Hst' |- *. cbn [fst snd] in Hst' |- *.
  rewrite Hst2 in Hst'. injection Hst' as <-.
  exists b. split; [reflexivity|]. split.
  - apply lookup_union_Some_l, lookup_insert_eq.
  - rewrite lookup_union_r; [reflexivity|].
    unfold update_fields. now rewrite lookup_insert_ne by (intros [=]).
Qed.

Lemma category_example_stamps : stamps_ordered category_example.
Proof.
  exists 1700000000123, 1700000000123.
  split; [by_vm|]. split; [by_vm|]. lia.
Qed.

Lemma stamps_ordered_kept_witness :
  ((teas_payload !! "_id" = None /\ oid_other = oid_other) \/
   teas_payload !! "_id" = Some (VOid oid_other)) /\
  plain_doc teas_payload = true /\
  doc_encodable teas_payload = true /\
  stored "category" oid_other (Some db_example) = None /\
  (exists ident d' record,
     create_document (fun _ => "") 1700000000900000 oid_other "category" teas_payload
       (Some db_example) = (Ok ident, Some d') /\
     stored "category" oid_other (Some d') = Some record /\
     record !! "updated_at" = record !! "created_at") /\
  stored "category" oid_example (Some db_example) = Some category_example /\
  stamps_ordered category_example /\
  category_example !! "updated_at" = Some (VDate 1700000000123) /\
  1700000000123 <= 1700000000900000 / 1000 /\
  teas_payload !! "created_at" = None /\
  teas_payload !! "_id" = None /\
  exists doc' b,
    stored "category" oid_example
      (snd (update_document no_paths 1700000000900000 "category" (oid_str oid_example)
              teas_payload (Some db_example))) = Some doc' /\
    stamps_ordered doc' /\
    fst (update_document no_paths 1700000000900000 "category" (oid_str oid_example)
           teas_payload (Some db_example)) = Ok b /\
    doc' !! "updated_at" = Some (bson_datetime 1700000000900000).
Proof.
  assert (H0 : (teas_payload !! "_id" = None /\ oid_other = oid_other) \/
               teas_payload !! "_id" = Some (VOid oid_other))
    by (left; split; [by_vm|reflexivity]).
  assert (Hp : plain_doc teas_payload = true) by by_vm.
  assert (He : doc_encodable teas_payload = true) by by_vm.
  assert (Hf : stored "category" oid_other (Some db_example) = None) by by_vm.
  assert (H1 : stored "category" oid_example (Some db_example) = Some category_example)
    by by_vm.
  assert (H2 : category_example !! "updated_at" = Some (VDate 1700000000123)) by by_vm.
  assert (H3 : 1700000000123 <= 1700000000900000 / 1000) by (vm_compute; discriminate).
  assert (H4 : teas_payload !! "created_at" = None) by by_vm.
  assert (H5 : teas_payload !! "_id" = None) by by_vm.
  refine (conj H0 (conj Hp (conj He (conj Hf (conj _
            (conj H1 (conj category_example_stamps
               (conj H2 (conj H3 (conj H4 (conj H5 _))))))))))).
  - destruct (proj1 (stamps_ordered_kept no_paths (fun _ => "") 1700000000900000
                       oid_other "category" oid_other teas_payload db_example)
                H0 Hp He Hf) as (ident & d' & record & Hc & Hst & _ & Heq & _).
    exists ident, d', record. auto.
  - destruct (proj2 (stamps_ordered_kept no_paths (fun _ => "") 1700000000900000
                       oid_other "category" oid_example teas_payload db_example)
                category_example 1700000000123 H1 category_example_stamps H2 H3 Hp H4)
      as (doc' & Hst' & Hord & Hret).
    destruct (Hret He H5) as (b & Hb & Hua & _).
    exists doc', b. auto.
Defined.

Lemma get_documents_results_witness :
  Some 1 = Some 1 /\ 1 <> 0 /\
  exists rs,
    get_documents (fun _ => "") (fun _ l => l) "category" None (Some 1) None
      (Some db_example) = (Ok rs, Some db_example) /\
    (List.length rs <= Z.to_nat (Z.abs 1))%nat.
Proof.
  split; [reflexivity|]. split; [discriminate|].
  destruct (get_documents_results (fun _ => "") (fun _ l => l) "category" None
              (Some 1) None db_example) as (rs & Hr & Hlen & _).
  exists rs. split; [exact Hr|]. apply (Hlen 1 eq_refl). discriminate.
Defined.

(** * Further properties of [main.py] *)

(** ** Order numbers *)

Lemma hex_byte_upper_hex (b : byte) :
  let n := Byte.to_N b in
  upper_hex (ascii_upper (hex_digit (n / 16))) = true /\
  upper_hex (ascii_upper (hex_digit (n mod 16))) = true.
Proof. destruct b; vm_compute; auto. Qed.

(** X12 — An order number is ["ORD-"] followed by the last three bytes of
    the minted identifier as six uppercase hexadecimal digits: it has ten
    characters, and two identifiers with the same last three bytes give the
    same order number. *)
Theorem make_order_number_format (o o' : ObjectId) :
  make_order_number o =
    String.append "ORD-" (upper (hexlify [oid_b9 o; oid_b10 o; oid_b11 o])) /\
  String.length (make_order_number o) = 10%nat /\
  forallb upper_hex
    (list_ascii_of_string (upper (hexlify [oid_b9 o; oid_b10 o; oid_b11 o]))) = true /\
  (oid_b9 o = oid_b9 o' -> oid_b10 o = oid_b10 o' -> oid_b11 o = oid_b11 o' ->
   make_order_number o = make_order_number o').
Proof.
  assert (Hfmt : forall x, make_order_number x =
            String.append "ORD-" (upper (hexlify [oid_b9 x; oid_b10 x; oid_b11 x])))
    by (intros x; destruct x; reflexivity).
  split; [apply Hfmt|]. split; [destruct o; reflexivity|]. split.
  - cbn [hexlify upper list_ascii_of_string forallb].
    destruct (hex_byte_upper_hex (oid_b9 o)) as (-> & ->).
    destruct (hex_byte_upper_hex (oid_b10 o)) as (-> & ->).
    destruct (hex_byte_upper_hex (oid_b11 o)) as (-> & ->).
    reflexivity.
  - intros H9 H10 H11. rewrite !Hfmt. now rewrite H9, H10, H11.
Qed.

Lemma make_order_number_format_witness :
  oid_b9 oid_example = oid_b9 oid_twin /\
  oid_b10 oid_example = oid_b10 oid_twin /\
  oid_b11 oid_example = oid_b11 oid_twin /\
  make_order_number oid_example = make_order_number oid_twin.
Proof.
  refine (conj eq_refl (conj eq_refl (conj eq_refl _))).
  destruct (make_order_number_format oid_example oid_twin) as (_ & _ & _ & H).
  exact (H eq_refl eq_refl eq_refl).
Defined.

(** ** Order creation *)

Lemma Order_model_dump_more (o : schemas.Order) :
  Order_model_dump o !! "order_number" = Some (VStr (schemas.order_number o)) /\
  Order_model_dump o !! "user_id" = Some (opt_str (schemas.user_id o)) /\
  Order_model_dump o !! "items" = Some (VList (List.map VDict (schemas.items o))).
Proof. destruct o. repeat split; by_vm. Qed.

Lemma create_order_run
    (str_other : value -> string) (now : datetime) (number_oid fresh : ObjectId)
    (payload : CreateOrderRequest) (d : database) (subtotal : float) :
  items payload <> [] ->
  cart_subtotal (items payload) = Ok subtotal ->
  Forall (fun i => fits_int64 (quantity i) = true) (items payload) ->
  stored "order" fresh (Some d) = None ->
  let order := Order_model_dump (order_of_request number_oid payload subtotal) in
  create_order str_other now number_oid fresh payload (Some d) =
  (Ok (list_to_map
         [("_id", VStr (oid_str fresh));
          ("order_number", VStr (make_order_number number_oid));
          ("total", VFloat (schemas.total (order_of_request number_oid payload subtotal)))]),
   Some (<["order" := documents_of "order" d ++ [created_record now fresh order]]> d)).
Proof.
  intros Hne Hsub Hq Hfree order.
  assert (Hid : order !! "_id" = None)
    by (exact (proj1 (Order_model_dump_fields _))).
  assert (Henc : doc_encodable order = true).
  { apply Order_model_dump_encodable. now apply cart_lines_encodable. }
  destruct (create_document_then_find str_other now fresh "order" order d fresh
              (or_introl (conj Hid eq_refl)) Henc Hfree) as (Hc & _).
  clear Henc Hid Hq.
  unfold create_order. destruct (items payload) as [|i rest] eqn:Hitems; [contradiction|].
  rewrite <- Hitems in *. clear Hitems.
  unfold bind at 1. rewrite Hsub. cbn [lift_outcome ret].
  unfold order, order_of_request in Hc |- *.
  unfold bind. rewrite Hc. reflexivity.
Qed.

(** X13 — The order that [create_order] stores for a priced cart has
    status ["pending"], the order number made from the identifier minted for
    it, the request's [user_id] and the cart lines in their order with their
    captured fields; the answer names the stored record ([_id] is its key,
    printed) and repeats the stored order number. *)
Theorem create_order_record
    (str_other : value -> string) (now : datetime) (number_oid fresh : ObjectId)
    (payload : CreateOrderRequest) (d : database) (subtotal : float) :
  items payload <> [] ->
  cart_subtotal (items payload) = Ok subtotal ->
  Forall (fun i => fits_int64 (quantity i) = true) (items payload) ->
  stored "order" fresh (Some d) = None ->
  exists resp w',
    create_order str_other now number_oid fresh payload (Some d) = (Ok resp, w') /\
    resp !! "_id" = Some (VStr (oid_str fresh)) /\
    resp !! "order_number" = Some (VStr (make_order_number number_oid)) /\
    stored_field "order" fresh "order_number" w'
      = Some (VStr (make_order_number number_oid)) /\
    stored_field "order" fresh "status" w' = Some (VStr "pending") /\
    stored_field "order" fresh "user_id" w' = Some (opt_str (user_id payload)) /\
    stored_field "order" fresh "items" w'
      = Some (VList (List.map VDict (List.map CartItem_model_dump (items payload)))).
Proof.
  intros Hne Hsub Hq Hfree.
  rewrite (create_order_run str_other now number_oid fresh payload d subtotal
             Hne Hsub Hq Hfree).
  clear Hsub Hq.
  eexists _, _. split; [reflexivity|].
  cbn [list_to_map foldr uncurry fst snd].
  split; [apply lookup_insert_eq|].
  split; [now rewrite lookup_insert_ne, lookup_insert_eq by (intros [=])|].
  unfold stored_field. rewrite stored_write.
  assert (Hfree' : List.find (by_id fresh) (documents_of "order" d) = None) by exact Hfree.
  rewrite (find_app_first _ _ [] _ Hfree')
    by (apply by_id_true, lookup_insert_eq).
  unfold created_record. rewrite !lookup_insert_ne by (intros [=]).
  destruct (Order_model_dump_more (order_of_request number_oid payload subtotal))
    as (Hn & Hu & Hi).
  destruct (Order_model_dump_fields (order_of_request number_oid payload subtotal))
    as (_ & _ & _ & _ & Hs).
  rewrite Hn, Hu, Hi, Hs. repeat split; reflexivity.
Qed.

Lemma create_order_record_witness :
  items example_request <> [] /\
  cart_subtotal (items example_request) = Ok (float_literal 1016 2) /\
  Forall (fun i => fits_int64 (quantity i) = true) (items example_request) /\
  stored "order" oid_other (Some orders_example) = None /\
  exists resp w',
    create_order (fun _ => "") 1700000000123456 oid_example oid_other
      example_request (Some orders_example) = (Ok resp, w') /\
    resp !! "_id" = Some (VStr (oid_str oid_other)) /\
    stored_field "order" oid_other "status" w' = Some (VStr "pending").
Proof.
  assert (H1 : items example_request <> []) by discriminate.
  assert (H2 : cart_subtotal (items example_request) = Ok (float_literal 1016 2))
    by by_vm.
  assert (H3 : Forall (fun i => fits_int64 (quantity i) = true) (items example_request))
    by (repeat constructor).
  assert (H4 : stored "order" oid_other (Some orders_example) = None) by by_vm.
  refine (conj H1 (conj H2 (conj H3 (conj H4 _)))).
  destruct (create_order_record (fun _ => "") 1700000000123456 oid_example oid_other
              example_request orders_example (float_literal 1016 2) H1 H2 H3 H4)
    as (resp & w' & Hc & Hid & _ & _ & Hst & _).
  exists resp, w'. auto.
Defined.

(** ** Orders that cannot be encoded *)

Lemma cart_lines_unencodable (lines : list CartItem) :
  Exists (fun i => fits_int64 (quantity i) = false) lines ->
  ints_encodable (VList (List.map VDict (List.map CartItem_model_dump lines))) = false.
Proof.
  intros H. cbn [ints_encodable].
  induction H as [i lines Hi|i lines _ IH]; cbn [List.map forallb].
  - unfold CartItem_model_dump at 1. cbn [ints_encodable forallb snd].
    rewrite Hi. reflexivity.
  - rewrite IH. apply andb_false_r.
Qed.

Lemma cart_lines_keys_encodable (lines : list CartItem) :
  keys_encodable (VList (List.map VDict (List.map CartItem_model_dump lines))) = true.
Proof.
  cbn [keys_encodable]. induction lines as [|i lines IH]; [reflexivity|].
  cbn [List.map forallb]. rewrite IH, andb_true_r.
  unfold CartItem_model_dump. cbn [keys_encodable forallb fst snd].
  destruct (image_url i); reflexivity.
Qed.

Lemma Order_model_dump_keys_encodable (o : schemas.Order) :
  keys_encodable (VList (List.map VDict (schemas.items o))) = true ->
  doc_keys_encodable (Order_model_dump o) = true.
Proof.
  intros H. unfold Order_model_dump. cbn [list_to_map foldr uncurry fst snd].
  repeat (apply doc_keys_encodable_insert;
          [reflexivity
          |first [exact H | reflexivity | (unfold opt_str; case_match; reflexivity)]|]).
  reflexivity.
Qed.

Lemma cart_subtotal_raises (lines : list CartItem) (e : exn) :
  cart_subtotal lines = Raise e -> e = OverflowError.
Proof.
  unfold cart_subtotal.
  assert (H : forall acc : outcome float,
            (forall e, acc = Raise e -> e = OverflowError) ->
            forall e, fold_left (fun acc i => sum_step acc (line_amount i)) lines acc
                      = Raise e -> e = OverflowError).
  { induction lines as [|i lines IH]; intros acc Hacc e'; cbn [fold_left]; [apply Hacc|].
    apply IH. intros e''. unfold sum_step, line_amount, float_of_int.
    destruct acc as [a|ea]; [|intros [= <-]; now apply Hacc].
    destruct (binary_normalize _ _ _ _ _); intros [=]; auto. }
  apply H. discriminate.
Qed.

(** X14 — An order with a line whose quantity does not fit the store's
    64-bit integers is refused with [OverflowError], an exception that is
    not an [HTTPException], whatever the other lines are; no order is
    stored. *)
Theorem create_order_overflow
    (str_other : value -> string) (now : datetime) (number_oid fresh : ObjectId)
    (payload : CreateOrderRequest) (d : database) :
  Exists (fun i => fits_int64 (quantity i) = false) (items payload) ->
  create_order str_other now number_oid fresh payload (Some d)
    = (Raise OverflowError, Some d).
Proof.
  intros Hbig. unfold create_order.
  destruct (items payload) as [|i rest] eqn:Hitems; [inversion Hbig|].
  rewrite <- Hitems in *. clear Hitems.
  unfold bind at 1.
  destruct (cart_subtotal (items payload)) as [subtotal|e] eqn:Hsub;
    cbn [lift_outcome ret raise].
  - unfold bind. rewrite create_document_run. cbv zeta.
    rewrite (proj1 (Order_model_dump_fields _)). cbn [default].
    match goal with
    | |- context [encode_error ?r] =>
        assert (Hitems : r !! "items" = Some (VList (List.map VDict
                           (List.map CartItem_model_dump (items payload)))));
        [|assert (Hkeys : doc_keys_encodable r = true)]
    end.
    { rewrite !lookup_insert_ne by (intros [=]).
      exact (proj2 (proj2 (Order_model_dump_more _))). }
    { repeat (apply doc_keys_encodable_insert; [reflexivity|reflexivity|]).
      apply Order_model_dump_keys_encodable, cart_lines_keys_encodable. }
    unfold encode_error.
    rewrite (doc_ints_field_false _ _ _ Hitems (cart_lines_unencodable _ Hbig)), Hkeys.
    reflexivity.
  - rewrite (cart_subtotal_raises _ _ Hsub). reflexivity.
Qed.

Lemma create_order_overflow_witness :
  Exists (fun i => fits_int64 (quantity i) = false) (items big_quantity_request) /\
  create_order (fun _ => "") 1700000000123456 oid_example oid_other
    big_quantity_request (Some orders_example) = (Raise OverflowError, Some orders_example).
Proof.
  assert (H : Exists (fun i => fits_int64 (quantity i) = false)
                (items big_quantity_request))
    by (apply Exists_cons_hd; reflexivity).
  split; [exact H|].
  exact (create_order_overflow (fun _ => "") 1700000000123456 oid_example oid_other
           big_quantity_request orders_example H).
Defined.

(** ** Updates through the handlers *)

(** An update of a stored record made at a clock reading other than its
    stamp modifies it. *)
Lemma update_document_touched
    (set_paths : document -> option document -> outcome document)
    (now : datetime) (c : string) (o : ObjectId) (update_data : document)
    (d : database) (doc : document) :
  stored c o (Some d) = Some doc ->
  plain_doc update_data = true ->
  doc_encodable update_data = true ->
  update_data !! "_id" = None ->
  doc !! "updated_at" <> Some (bson_datetime now) ->
  exists d',
    update_document set_paths now c (oid_str o) update_data (Some d) = (Ok true, Some d') /\
    (forall k, stored_field c o k (Some d') =
               if bool_decide (k = "updated_at") then Some (bson_datetime now)
               else match update_data !! k with
                    | Some v => Some v
                    | None => doc !! k
                    end) /\
    (forall c' o', c' <> c \/ o' <> o ->
       stored c' o' (Some d') = stored c' o' (Some d)).
Proof.
  intros Hst Hp Henc Hnoid Hstamp.
  assert (Hid : id_unchanged update_data doc = true)
    by (unfold id_unchanged; now rewrite Hnoid).
  destruct (update_document_stored set_paths now c (oid_str o) o update_data d doc
              (oid_parse_str o) Hst Hp Henc Hid) as (b0 & d0 & Hrun0 & _ & Hb0 & _).
  destruct (update_document_merged set_paths now c o update_data d doc Hst Hp Henc Hnoid)
    as (b & d' & Hrun & Hk & Hframe & _).
  rewrite Hrun in Hrun0. injection Hrun0 as <- <-.
  destruct b.
  - exists d'. auto.
  - exfalso. apply Hstamp. rewrite <- (proj1 Hb0 eq_refl).
    apply lookup_union_Some_l, lookup_insert_eq.
Qed.

Lemma status_payload (s : string) :
  (list_to_map [("status", VStr s)] : document) = {[ "status" := VStr s ]} /\
  plain_doc {[ "status" := VStr s ]} = true /\
  doc_encodable {[ "status" := VStr s ]} = true /\
  ({[ "status" := VStr s ]} : document) !! "_id" = None.
Proof.
  split; [reflexivity|]. split; [|split].
  - apply plain_doc_insert; [reflexivity|reflexivity|apply plain_doc_empty].
  - apply doc_encodable_insert; reflexivity.
  - apply lookup_singleton_ne. intros [=].
Qed.

(** X15 — A status update of a stored order, made at a clock reading other
    than the order's stamp, answers [{"updated": True}] and writes the new
    status and the stamp; every other field of the order, and every other
    record, is as before. Repeating the order's current status within the
    millisecond of its stamp modifies nothing and is answered 404
    ["Order not found"], although the order exists. *)
Theorem update_order_status_stored
    (set_paths : document -> option document -> outcome document)
    (now : datetime) (o : ObjectId) (s : string) (d : database) (doc : document) :
  stored "order" o (Some d) = Some doc ->
  (doc !! "updated_at" <> Some (bson_datetime now) ->
   exists d',
     update_order_status set_paths now (oid_str o) {| status := s |} (Some d)
       = (Ok (list_to_map [("updated", VBool true)]), Some d') /\
     stored_field "order" o "status" (Some d') = Some (VStr s) /\
     stored_field "order" o "updated_at" (Some d') = Some (bson_datetime now) /\
     (forall k, k <> "status" -> k <> "updated_at" ->
                stored_field "order" o k (Some d') = doc !! k) /\
     (forall c' o', c' <> "order" \/ o' <> o ->
        stored c' o' (Some d') = stored c' o' (Some d))) /\
  (doc !! "status" = Some (VStr s) ->
   doc !! "updated_at" = Some (bson_datetime now) ->
   update_order_status set_paths now (oid_str o) {| status := s |} (Some d)
     = (Raise (HTTPException 404 "Order not found"), Some d)).
Proof.
  intros Hst. destruct (status_payload s) as (Hl & Hp & Henc & Hnoid). split.
  - intros Hstamp.
    destruct (update_document_touched set_paths now "order" o {[ "status" := VStr s ]}
                d doc Hst Hp Henc Hnoid Hstamp) as (d' & Hrun & Hk & Hframe).
    exists d'. unfold update_order_status, bind. cbn [status]. rewrite Hl, Hrun.
    split; [reflexivity|]. split; [exact (Hk "status")|].
    split; [exact (Hk "updated_at")|]. split; [|exact Hframe].
    intros k Hks Hku. rewrite Hk, bool_decide_eq_false_2 by exact Hku.
    now rewrite lookup_singleton_ne by congruence.
  - intros Hs Hu.
    assert (Hsub : ({[ "status" := VStr s ]} : document) ⊆ doc)
      by (now apply map_singleton_subseteq_l).
    assert (Hid : id_unchanged {[ "status" := VStr s ]} doc = true)
      by (unfold id_unchanged; now rewrite Hnoid).
    destruct (update_document_stored set_paths now "order" (oid_str o) o
                {[ "status" := VStr s ]} d doc (oid_parse_str o) Hst Hp Henc Hid)
      as (b & d' & Hrun & _ & Hb & Hd).
    assert (Hfalse : b = false).
    { apply Hb. unfold update_fields. now apply stamped_same_iff. }
    subst b. rewrite (Hd eq_refl) in Hrun.
    unfold update_order_status, bind. cbn [status]. now rewrite Hl, Hrun.
Qed.

Lemma update_order_status_stored_witness :
  stored "order" oid_example (Some orders_example) = Some order_example /\
  order_example !! "updated_at" <> Some (bson_datetime 1700000000900000) /\
  exists d',
    update_order_status no_paths 1700000000900000 (oid_str oid_example)
      {| status := "ready" |} (Some orders_example)
      = (Ok (list_to_map [("updated", VBool true)]), Some d') /\
    stored_field "order" oid_example "status" (Some d') = Some (VStr "ready") /\
    stored_field "order" oid_example "order_number" (Some d') = Some (VStr "ORD-8192A3").
Proof.
  assert (H1 : stored "order" oid_example (Some orders_example) = Some order_example)
    by by_vm.
  assert (H2 : order_example !! "updated_at" <> Some (bson_datetime 1700000000900000)).
  { replace (order_example !! "updated_at") with (Some (VDate 1700000000123)) by by_vm.
    intros [=]. }
  refine (conj H1 (conj H2 _)).
  destruct (proj1 (update_order_status_stored no_paths 1700000000900000 oid_example
                     "ready" orders_example order_example H1) H2)
    as (d' & Hrun & Hs & _ & Hk & _).
  exists d'. split; [exact Hrun|]. split; [exact Hs|].
  rewrite (Hk "order_number") by (intros [=]). by_vm.
Defined.

(** ** Identifiers that name no record *)

Lemma split_first_none (c : string) (o : ObjectId) (d : database) :
  stored c o (Some d) = None -> split_first (by_id o) (documents_of c d) = None.
Proof.
  cbn [stored]. rewrite split_first_find.
  destruct (split_first (by_id o) (documents_of c d)) as [[[pre m] suf]|];
    [discriminate|reflexivity].
Qed.

Lemma opt_str_encodable (o : option string) :
  bson_encodable (opt_str o) = true /\ plain_value (opt_str o) = true.
Proof. destruct o; split; reflexivity. Qed.

Lemma opt_tags_encodable (o : option (list string)) :
  bson_encodable (opt_tags o) = true /\ plain_value (opt_tags o) = true.
Proof.
  destruct o as [l|]; [|split; reflexivity].
  unfold bson_encodable. cbn [opt_tags ints_encodable keys_encodable plain_value].
  induction l as [|x l IH]; [split; reflexivity|exact IH].
Qed.

(** The dumps of the request models have fixed, plain field names, none
    of them [_id], and values that BSON encodes. *)
Lemma CategoryCreate_model_dump_payload (p : CategoryCreate.t) :
  plain_doc (CategoryCreate_model_dump p) = true /\
  doc_encodable (CategoryCreate_model_dump p) = true /\
  CategoryCreate_model_dump p !! "_id" = None.
Proof.
  unfold CategoryCreate_model_dump. cbn [list_to_map foldr uncurry fst snd].
  split; [|split].
  - repeat (apply plain_doc_insert;
            [reflexivity|first [apply opt_str_encodable | reflexivity]|]).
    apply plain_doc_empty.
  - repeat (apply doc_encodable_insert;
            [reflexivity|first [apply opt_str_encodable | reflexivity]|]).
    reflexivity.
  - rewrite !lookup_insert_ne by (intros [=]). apply lookup_empty.
Qed.

Lemma FoodItemCreate_model_dump_payload (p : FoodItemCreate.t) :
  plain_doc (FoodItemCreate_model_dump p) = true /\
  doc_encodable (FoodItemCreate_model_dump p) = true /\
  FoodItemCreate_model_dump p !! "_id" = None.
Proof.
  unfold FoodItemCreate_model_dump. cbn [list_to_map foldr uncurry fst snd].
  split; [|split].
  - repeat (apply plain_doc_insert;
            [reflexivity
            |first [apply opt_str_encodable | apply opt_tags_encodable | reflexivity]|]).
    apply plain_doc_empty.
  - repeat (apply doc_encodable_insert;
            [reflexivity
            |first [apply opt_str_encodable | apply opt_tags_encodable | reflexivity]|]).
    reflexivity.
  - rewrite !lookup_insert_ne by (intros [=]). apply lookup_empty.
Qed.

(** An identifier that names no record: the update and the deletion
    return [False]. *)
Lemma update_document_unnamed
    (set_paths : document -> option document -> outcome document)
    (now : datetime) (c s : string) (update_data : document) (d : database) :
  ObjectId_of_str s <> None ->
  (forall o, oid_parse s = Some o -> stored c o (Some d) = None) ->
  plain_doc update_data = true ->
  doc_encodable update_data = true ->
  update_document set_paths now c s update_data (Some d) = (Ok false, Some d).
Proof.
  intros Hacc Hnone Hp He. rewrite (update_document_run _ _ _ _ _ _ Hp).
  destruct (ObjectId_of_str s); [|contradiction].
  rewrite (update_fields_encodable _ _ He).
  destruct (oid_parse s) as [o|]; [|reflexivity].
  now rewrite (split_first_none _ _ _ (Hnone o eq_refl)).
Qed.

Lemma delete_document_unnamed (c s : string) (d : database) :
  ObjectId_of_str s <> None ->
  (forall o, oid_parse s = Some o -> stored c o (Some d) = None) ->
  delete_document c s (Some d) = (Ok false, Some d).
Proof.
  intros Hacc Hnone. rewrite delete_document_run.
  destruct (ObjectId_of_str s); [|contradiction].
  destruct (oid_parse s) as [o|]; [|reflexivity].
  now rewrite (split_first_none _ _ _ (Hnone o eq_refl)).
Qed.

Lemma update_document_unknown
    (set_paths : document -> option document -> outcome document)
    (now : datetime) (c : string) (o : ObjectId) (update_data : document) (d : database) :
  plain_doc update_data = true ->
  doc_encodable update_data = true ->
  stored c o (Some d) = None ->
  update_document set_paths now c (oid_str o) update_data (Some d) = (Ok false, Some d).
Proof.
  intros Hp Henc Hst. apply update_document_unnamed; [| |exact Hp|exact Henc].
  - now rewrite ObjectId_of_str_str.
  - intros o'. rewrite oid_parse_str. now intros [= <-].
Qed.

Lemma delete_document_unknown (c : string) (o : ObjectId) (d : database) :
  stored c o (Some d) = None ->
  delete_document c (oid_str o) (Some d) = (Ok false, Some d).
Proof.
  intros Hst. apply delete_document_unnamed.
  - now rewrite ObjectId_of_str_str.
  - intros o'. rewrite oid_parse_str. now intros [= <-].
Qed.

(** X16 — Every handler that takes an identifier answers 404, with its
    own detail, for a well-formed identifier of no stored record of its
    collection, whatever the body, and leaves the store as it was. *)
Theorem handlers_unknown_id
    (set_paths : document -> option document -> outcome document)
    (str_other : value -> string) (now : datetime) (o : ObjectId) (d : database)
    (s : string) (cat : CategoryCreate.t) (item : FoodItemCreate.t) :
  (stored "fooditem" o (Some d) = None ->
   get_item str_other (oid_str o) (Some d)
     = (Raise (HTTPException 404 "Item not found"), Some d) /\
   update_item set_paths now (oid_str o) item (Some d)
     = (Raise (HTTPException 404 "Item not found"), Some d) /\
   delete_item (oid_str o) (Some d)
     = (Raise (HTTPException 404 "Item not found"), Some d)) /\
  (stored "category" o (Some d) = None ->
   update_category set_paths now (oid_str o) cat (Some d)
     = (Raise (HTTPException 404 "Category not found"), Some d) /\
   remove_category (oid_str o) (Some d)
     = (Raise (HTTPException 404 "Category not found"), Some d)) /\
  (stored "order" o (Some d) = None ->
   get_order str_other (oid_str o) (Some d)
     = (Raise (HTTPException 404 "Order not found"), Some d) /\
   update_order_status set_paths now (oid_str o) {| status := s |} (Some d)
     = (Raise (HTTPException 404 "Order not found"), Some d)).
Proof.
  destruct (FoodItemCreate_model_dump_payload item) as (Hip & Hie & _).
  destruct (CategoryCreate_model_dump_payload cat) as (Hcp & Hce & _).
  destruct (status_payload s) as (Hl & Hsp & Hse & _).
  split; [|split]; intros Hst.
  - split; [|split].
    + unfold get_item, bind.
      now rewrite (get_document_by_id_parsed str_other _ _ o d (oid_parse_str o)), Hst.
    + unfold update_item, bind.
      now rewrite (update_document_unknown set_paths now _ o _ d Hip Hie Hst).
    + unfold delete_item, bind. now rewrite (delete_document_unknown _ o d Hst).
  - split.
    + unfold update_category, bind.
      now rewrite (update_document_unknown set_paths now _ o _ d Hcp Hce Hst).
    + unfold remove_category, bind. now rewrite (delete_document_unknown _ o d Hst).
  - split.
    + unfold get_order, bind.
      now rewrite (get_document_by_id_parsed str_other _ _ o d (oid_parse_str o)), Hst.
    + unfold update_order_status, bind. cbn [status]. rewrite Hl.
      now rewrite (update_document_unknown set_paths now _ o _ d Hsp Hse Hst).
Qed.

Lemma handlers_unknown_id_witness :
  stored "fooditem" oid_other (Some items_example) = None /\
  get_item (fun _ => "") (oid_str oid_other) (Some items_example)
    = (Raise (HTTPException 404 "Item not found"), Some items_example) /\
  delete_item (oid_str oid_other) (Some items_example)
    = (Raise (HTTPException 404 "Item not found"), Some items_example).
Proof.
  assert (H : stored "fooditem" oid_other (Some items_example) = None) by by_vm.
  split; [exact H|].
  destruct (proj1 (handlers_unknown_id no_paths (fun _ => "") 0 oid_other items_example
                     "ready" teas_category soup_item) H) as (Hg & _ & Hd).
  exact (conj Hg Hd).
Defined.

(** ** Malformed identifiers in the handlers *)

(** X17 — For an identifier that names no key, because [ObjectId] refuses
    it or reads fewer than twelve bytes from it, the two lookups answer 404
    like for an unknown record. The update and delete handlers let the
    codec's [InvalidId], which is not an [HTTPException], escape when
    [ObjectId] refuses the identifier, and answer 404 when it reads fewer
    than twelve bytes. None of them changes the store. *)
Theorem handlers_malformed_id
    (set_paths : document -> option document -> outcome document)
    (str_other : value -> string) (now : datetime) (s st : string) (d : database)
    (cat : CategoryCreate.t) (item : FoodItemCreate.t) :
  (oid_parse s = None ->
   get_item str_other s (Some d) = (Raise (HTTPException 404 "Item not found"), Some d) /\
   get_order str_other s (Some d) = (Raise (HTTPException 404 "Order not found"), Some d)) /\
  (ObjectId_of_str s = None ->
   update_item set_paths now s item (Some d) = (Raise InvalidId, Some d) /\
   delete_item s (Some d) = (Raise InvalidId, Some d) /\
   update_category set_paths now s cat (Some d) = (Raise InvalidId, Some d) /\
   remove_category s (Some d) = (Raise InvalidId, Some d) /\
   update_order_status set_paths now s {| status := st |} (Some d)
     = (Raise InvalidId, Some d)) /\
  (forall bs, ObjectId_of_str s = Some (Fewer bs) ->
   update_item set_paths now s item (Some d)
     = (Raise (HTTPException 404 "Item not found"), Some d) /\
   delete_item s (Some d) = (Raise (HTTPException 404 "Item not found"), Some d) /\
   update_category set_paths now s cat (Some d)
     = (Raise (HTTPException 404 "Category not found"), Some d) /\
   remove_category s (Some d)
     = (Raise (HTTPException 404 "Category not found"), Some d) /\
   update_order_status set_paths now s {| status := st |} (Some d)
     = (Raise (HTTPException 404 "Order not found"), Some d)).
Proof.
  split; [|split].
  - intros H. split.
    + unfold get_item, bind. now rewrite get_document_by_id_run, H.
    + unfold get_order, bind. now rewrite get_document_by_id_run, H.
  - intros H.
    repeat split;
      cbv [update_item delete_item update_category remove_category update_order_status];
      run_store; rewrite H; reflexivity.
  - intros bs H.
    assert (Hacc : ObjectId_of_str s <> None) by (rewrite H; discriminate).
    assert (Hnone : forall c o, oid_parse s = Some o -> stored c o (Some d) = None).
    { intros c o Ho. apply oid_parse_Some in Ho. congruence. }
    destruct (FoodItemCreate_model_dump_payload item) as (Hip & Hie & _).
    destruct (CategoryCreate_model_dump_payload cat) as (Hcp & Hce & _).
    destruct (status_payload st) as (Hl & Hsp & Hse & _).
    split; [|split; [|split; [|split]]].
    + unfold update_item, bind.
      now rewrite (update_document_unnamed set_paths now _ s _ d Hacc (Hnone _) Hip Hie).
    + unfold delete_item, bind.
      now rewrite (delete_document_unnamed _ s d Hacc (Hnone _)).
    + unfold update_category, bind.
      now rewrite (update_document_unnamed set_paths now _ s _ d Hacc (Hnone _) Hcp Hce).
    + unfold remove_category, bind.
      now rewrite (delete_document_unnamed _ s d Hacc (Hnone _)).
    + unfold update_order_status, bind. cbn [status]. rewrite Hl.
      now rewrite (update_document_unnamed set_paths now _ s _ d Hacc (Hnone _) Hsp Hse).
Qed.

Lemma handlers_malformed_id_witness :
  oid_parse "12" = None /\
  ObjectId_of_str "12" = None /\
  ObjectId_of_str "654f1a2b3c4d5e6f7081  92"
    = Some (Fewer [x65; x4f; x1a; x2b; x3c; x4d; x5e; x6f; x70; x81; x92]) /\
  get_item (fun _ => "") "12" (Some items_example)
    = (Raise (HTTPException 404 "Item not found"), Some items_example) /\
  delete_item "12" (Some items_example) = (Raise InvalidId, Some items_example) /\
  delete_item "654f1a2b3c4d5e6f7081  92" (Some items_example)
    = (Raise (HTTPException 404 "Item not found"), Some items_example).
Proof.
  assert (H1 : oid_parse "12" = None) by reflexivity.
  assert (H2 : ObjectId_of_str "12" = None) by reflexivity.
  assert (H3 : ObjectId_of_str "654f1a2b3c4d5e6f7081  92"
               = Some (Fewer [x65; x4f; x1a; x2b; x3c; x4d; x5e; x6f; x70; x81; x92]))
    by by_vm.
  refine (conj H1 (conj H2 (conj H3 _))).
  destruct (handlers_malformed_id no_paths (fun _ => "") 0 "12" "ready" items_example
              teas_category soup_item) as (Hg & Hr & _).
  destruct (handlers_malformed_id no_paths (fun _ => "") 0 "654f1a2b3c4d5e6f7081  92"
              "ready" items_example teas_category soup_item) as (_ & _ & Hf).
  split; [exact (proj1 (Hg H1))|].
  split; [exact (proj1 (proj2 (Hr H2)))|].
  exact (proj1 (proj2 (Hf _ H3))).
Defined.

(** ** Food items *)

Lemma stored_field_created
    (c : string) (now : datetime) (o : ObjectId) (data : document) (d : database)
    (k : string) :
  stored c o (Some d) = None ->
  k <> "_id" -> k <> "created_at" -> k <> "updated_at" ->
  stored_field c o k
    (Some (<[c := documents_of c d ++ [created_record now o data]]> d)) = data !! k.
Proof.
  intros Hfree H1 H2 H3. unfold stored_field. rewrite stored_write.
  assert (Hfree' : List.find (by_id o) (documents_of c d) = None) by exact Hfree.
  rewrite (find_app_first _ _ [] _ Hfree')
    by (apply by_id_true, lookup_insert_eq).
  unfold created_record. now rewrite !lookup_insert_ne by congruence.
Qed.

Lemma float_lt_zero_not_ge (x : float) :
  float_lt_zero x = true -> float_ge_zero x = false.
Proof.
  unfold float_lt_zero, float_ge_zero.
  destruct (SFcompare x (S754_zero false)) as [[]|]; congruence.
Qed.

(** X18 — [create_item] validates the body against [Fooditem] before it
    touches the store: a negative price, or [tags] given as [null], raises
    the model's validation error on every handle, also an unavailable one,
    and nothing is written. A body with a price [>= 0] and a list of tags
    is stored as given, with [rating] 0.0, under the minted key, which the
    answer names. *)
Theorem create_item_validated
    (str_other : value -> string) (ValidationError : exn)
    (now : datetime) (fresh : ObjectId) (payload : FoodItemCreate.t) :
  (forall w, float_lt_zero (FoodItemCreate.price payload) = true \/
             FoodItemCreate.tags payload = None ->
     create_item str_other ValidationError now fresh payload w
       = (Raise ValidationError, w)) /\
  (forall d l,
     float_ge_zero (FoodItemCreate.price payload) = true ->
     FoodItemCreate.tags payload = Some l ->
     stored "fooditem" fresh (Some d) = None ->
     exists d',
       create_item str_other ValidationError now fresh payload (Some d)
         = (Ok (list_to_map [("_id", VStr (oid_str fresh))]), Some d') /\
       stored_field "fooditem" fresh "rating" (Some d') = Some (VFloat (S754_zero false)) /\
       stored_field "fooditem" fresh "price" (Some d')
         = Some (VFloat (FoodItemCreate.price payload)) /\
       stored_field "fooditem" fresh "tags" (Some d') = Some (VList (List.map VStr l)) /\
       stored_field "fooditem" fresh "title" (Some d')
         = Some (VStr (FoodItemCreate.title payload)) /\
       stored_field "fooditem" fresh "is_available" (Some d')
         = Some (VBool (FoodItemCreate.is_available payload))).
Proof.
  split.
  - intros w Hbad. unfold create_item, bind, Fooditem_model_dump.
    destruct Hbad as [Hneg | ->].
    + now rewrite (float_lt_zero_not_ge _ Hneg).
    + destruct (float_ge_zero _); reflexivity.
  - intros d l Hprice Htags Hfree.
    set (item := <["rating" := VFloat (S754_zero false)]> (FoodItemCreate_model_dump payload)).
    assert (Hid : item !! "_id" = None).
    { unfold item. rewrite lookup_insert_ne by (intros [=]).
      exact (proj2 (proj2 (FoodItemCreate_model_dump_payload payload))). }
    assert (Henc : doc_encodable item = true).
    { apply doc_encodable_insert; [reflexivity|reflexivity|].
      exact (proj1 (proj2 (FoodItemCreate_model_dump_payload payload))). }
    destruct (create_document_then_find str_other now fresh "fooditem" item d fresh
                (or_introl (conj Hid eq_refl)) Henc Hfree) as (Hc & _).
    eexists. unfold create_item, bind, Fooditem_model_dump.
    rewrite Hprice, Htags. cbn [lift_outcome ret]. fold item. rewrite Hc.
    split; [reflexivity|].
    rewrite !(stored_field_created _ _ _ _ _ _ Hfree) by (intros [=]).
    unfold item, FoodItemCreate_model_dump.
    cbn [list_to_map foldr uncurry fst snd].
    split; [apply lookup_insert_eq|].
    repeat split;
      repeat first [ rewrite lookup_insert_eq; first [reflexivity | now rewrite Htags]
                   | rewrite lookup_insert_ne by (intros [=]) ].
Qed.

Lemma create_item_validated_witness :
  (float_lt_zero (FoodItemCreate.price negative_price_item) = true \/
   FoodItemCreate.tags negative_price_item = None) /\
  create_item (fun _ => "") TypeError 7 oid_other negative_price_item (Some items_example)
    = (Raise TypeError, Some items_example) /\
  float_ge_zero (FoodItemCreate.price soup_item) = true /\
  FoodItemCreate.tags soup_item = Some ["hot"; "beef"] /\
  stored "fooditem" oid_other (Some items_example) = None /\
  exists d',
    create_item (fun _ => "") TypeError 7 oid_other soup_item (Some items_example)
      = (Ok (list_to_map [("_id", VStr (oid_str oid_other))]), Some d') /\
    stored_field "fooditem" oid_other "rating" (Some d') = Some (VFloat (S754_zero false)).
Proof.
  assert (H0 : float_lt_zero (FoodItemCreate.price negative_price_item) = true \/
               FoodItemCreate.tags negative_price_item = None) by (left; by_vm).
  assert (H1 : float_ge_zero (FoodItemCreate.price soup_item) = true) by by_vm.
  assert (H2 : FoodItemCreate.tags soup_item = Some ["hot"; "beef"]) by reflexivity.
  assert (H3 : stored "fooditem" oid_other (Some items_example) = None) by by_vm.
  split; [exact H0|].
  split; [exact (proj1 (create_item_validated (fun _ => "") TypeError 7 oid_other
                          negative_price_item) (Some items_example) H0)|].
  refine (conj H1 (conj H2 (conj H3 _))).
  destruct (proj2 (create_item_validated (fun _ => "") TypeError 7 oid_other soup_item)
              items_example ["hot"; "beef"] H1 H2 H3) as (d' & Hc & Hr & _).
  exists d'. auto.
Defined.

(** X19 — [update_item] does not validate against [Fooditem]: on a stored
    item it writes the body's fields as given, also a negative price and
    [tags] given as [null], which [create_item] refuses; the item's
    [rating] and [created_at] are kept. *)
Theorem update_item_unvalidated
    (set_paths : document -> option document -> outcome document)
    (now : datetime) (o : ObjectId) (payload : FoodItemCreate.t)
    (d : database) (doc : document) :
  stored "fooditem" o (Some d) = Some doc ->
  doc !! "updated_at" <> Some (bson_datetime now) ->
  exists d',
    update_item set_paths now (oid_str o) payload (Some d)
      = (Ok (list_to_map [("updated", VBool true)]), Some d') /\
    stored_field "fooditem" o "price" (Some d')
      = Some (VFloat (FoodItemCreate.price payload)) /\
    stored_field "fooditem" o "tags" (Some d')
      = Some (opt_tags (FoodItemCreate.tags payload)) /\
    stored_field "fooditem" o "description" (Some d')
      = Some (opt_str (FoodItemCreate.description payload)) /\
    stored_field "fooditem" o "rating" (Some d') = doc !! "rating" /\
    stored_field "fooditem" o "created_at" (Some d') = doc !! "created_at".
Proof.
  intros Hst Hstamp.
  destruct (FoodItemCreate_model_dump_payload payload) as (Hp & Henc & Hnoid).
  destruct (update_document_touched set_paths now "fooditem" o _ d doc
              Hst Hp Henc Hnoid Hstamp) as (d' & Hrun & Hk & _).
  exists d'. unfold update_item, bind. rewrite Hrun. split; [reflexivity|].
  rewrite !Hk. unfold FoodItemCreate_model_dump.
  cbn [list_to_map foldr uncurry fst snd].
  repeat split;
    (rewrite bool_decide_eq_false_2 by (intros [=]));
    repeat first [ rewrite lookup_insert_eq; reflexivity
                 | rewrite lookup_insert_ne by (intros [=]) ];
    now rewrite lookup_empty.
Qed.

Lemma update_item_unvalidated_witness :
  stored "fooditem" oid_example (Some items_example) = Some fooditem_example /\
  fooditem_example !! "updated_at" <> Some (bson_datetime 1700000000900000) /\
  float_lt_zero (FoodItemCreate.price negative_price_item) = true /\
  exists d',
    update_item no_paths 1700000000900000 (oid_str oid_example) negative_price_item
      (Some items_example) = (Ok (list_to_map [("updated", VBool true)]), Some d') /\
    stored_field "fooditem" oid_example "price" (Some d')
      = Some (VFloat (float_literal (-100) 2)) /\
    stored_field "fooditem" oid_example "tags" (Some d') = Some VNone.
Proof.
  assert (H1 : stored "fooditem" oid_example (Some items_example) = Some fooditem_example)
    by by_vm.
  assert (H2 : fooditem_example !! "updated_at" <> Some (bson_datetime 1700000000900000)).
  { replace (fooditem_example !! "updated_at") with (Some (VDate 1700000000123)) by by_vm.
    intros [=]. }
  refine (conj H1 (conj H2 (conj _ _))); [by_vm|].
  destruct (update_item_unvalidated no_paths 1700000000900000 oid_example negative_price_item
              items_example fooditem_example H1 H2) as (d' & Hrun & Hp & Ht & _).
  exists d'. auto.
Defined.

(** ** Categories *)

(** X20 — [create_category] stores the body's three fields under the
    minted key with [is_active] true, and answers with that key; a category
    is never created inactive. *)
Theorem create_category_record
    (str_other : value -> string) (now : datetime) (fresh : ObjectId)
    (payload : CategoryCreate.t) (d : database) :
  stored "category" fresh (Some d) = None ->
  exists d',
    create_category str_other now fresh payload (Some d)
      = (Ok (list_to_map [("_id", VStr (oid_str fresh))]), Some d') /\
    stored_field "category" fresh "is_active" (Some d') = Some (VBool true) /\
    stored_field "category" fresh "name" (Some d')
      = Some (VStr (CategoryCreate.name payload)) /\
    stored_field "category" fresh "description" (Some d')
      = Some (opt_str (CategoryCreate.description payload)) /\
    stored_field "category" fresh "image_url" (Some d')
      = Some (opt_str (CategoryCreate.image_url payload)).
Proof.
  intros Hfree.
  destruct (CategoryCreate_model_dump_payload payload) as (_ & Henc0 & Hid0).
  assert (Hid : Category_model_dump payload !! "_id" = None).
  { unfold Category_model_dump. now rewrite lookup_insert_ne by (intros [=]). }
  assert (Henc : doc_encodable (Category_model_dump payload) = true).
  { now apply doc_encodable_insert. }
  destruct (create_document_then_find str_other now fresh "category"
              (Category_model_dump payload) d fresh
              (or_introl (conj Hid eq_refl)) Henc Hfree) as (Hc & _).
  eexists. unfold create_category, bind. rewrite Hc. split; [reflexivity|].
  rewrite !(stored_field_created _ _ _ _ _ _ Hfree) by (intros [=]).
  unfold Category_model_dump, CategoryCreate_model_dump.
  cbn [list_to_map foldr uncurry fst snd].
  repeat split;
    repeat first [ rewrite lookup_insert_eq; reflexivity
                 | rewrite lookup_insert_ne by (intros [=]) ].
Qed.

Lemma create_category_record_witness :
  stored "category" oid_other (Some db_example) = None /\
  exists d',
    create_category (fun _ => "") 1700000000900000 oid_other teas_category
      (Some db_example) = (Ok (list_to_map [("_id", VStr (oid_str oid_other))]), Some d') /\
    stored_field "category" oid_other "is_active" (Some d') = Some (VBool true).
Proof.
  assert (H : stored "category" oid_other (Some db_example) = None) by by_vm.
  split; [exact H|].
  destruct (create_category_record (fun _ => "") 1700000000900000 oid_other
              teas_category db_example H) as (d' & Hc & Ha & _).
  exists d'. auto.
Defined.

(** X21 — [update_category] replaces all three fields of the body on a
    stored category: a description or image the body leaves out is
    overwritten with [null], not kept. [is_active] and [created_at] are not
    touched, so no request through this handler deactivates or reactivates
    a category. *)
Theorem update_category_replaces
    (set_paths : document -> option document -> outcome document)
    (now : datetime) (o : ObjectId) (payload : CategoryCreate.t)
    (d : database) (doc : document) :
  stored "category" o (Some d) = Some doc ->
  doc !! "updated_at" <> Some (bson_datetime now) ->
  exists d',
    update_category set_paths now (oid_str o) payload (Some d)
      = (Ok (list_to_map [("updated", VBool true)]), Some d') /\
    stored_field "category" o "name" (Some d')
      = Some (VStr (CategoryCreate.name payload)) /\
    stored_field "category" o "description" (Some d')
      = Some (opt_str (CategoryCreate.description payload)) /\
    stored_field "category" o "image_url" (Some d')
      = Some (opt_str (CategoryCreate.image_url payload)) /\
    stored_field "category" o "is_active" (Some d') = doc !! "is_active" /\
    stored_field "category" o "created_at" (Some d') = doc !! "created_at".
Proof.
  intros Hst Hstamp.
  destruct (CategoryCreate_model_dump_payload payload) as (Hp & Henc & Hnoid).
  destruct (update_document_touched set_paths now "category" o _ d doc
              Hst Hp Henc Hnoid Hstamp) as (d' & Hrun & Hk & _).
  exists d'. unfold update_category, bind. rewrite Hrun. split; [reflexivity|].
  rewrite !Hk. unfold CategoryCreate_model_dump.
  cbn [list_to_map foldr uncurry fst snd].
  repeat split;
    (rewrite bool_decide_eq_false_2 by (intros [=]));
    repeat first [ rewrite lookup_insert_eq; reflexivity
                 | rewrite lookup_insert_ne by (intros [=]) ];
    now rewrite lookup_empty.
Qed.

Lemma update_category_replaces_witness :
  stored "category" oid_example (Some db_example) = Some category_example /\
  category_example !! "updated_at" <> Some (bson_datetime 1700000000900000) /\
  exists d',
    update_category no_paths 1700000000900000 (oid_str oid_example) teas_category
      (Some db_example) = (Ok (list_to_map [("updated", VBool true)]), Some d') /\
    stored_field "category" oid_example "name" (Some d') = Some (VStr "Teas") /\
    stored_field "category" oid_example "description" (Some d') = Some VNone /\
    stored_field "category" oid_example "is_active" (Some d') = Some (VBool true).
Proof.
  assert (H1 : stored "category" oid_example (Some db_example) = Some category_example)
    by by_vm.
  assert (H2 : category_example !! "updated_at" <> Some (bson_datetime 1700000000900000)).
  { replace (category_example !! "updated_at") with (Some (VDate 1700000000123)) by by_vm.
    intros [=]. }
  refine (conj H1 (conj H2 _)).
  destruct (update_category_replaces no_paths 1700000000900000 oid_example teas_category
              db_example category_example H1 H2) as (d' & Hrun & Hn & Hd & _ & Ha & _).
  exists d'. split; [exact Hrun|]. split; [exact Hn|]. split; [exact Hd|].
  rewrite Ha. by_vm.
Defined.

(** ** Sign-up and login *)

Lemma get_documents_first
    (str_other : value -> string)
    (cursor_sort : list (string * Z) -> list document -> list document)
    (c : string) (q : query) (d : database) :
  get_documents str_other cursor_sort c (Some q) (Some 1) None (Some d) =
  (Ok (List.map (fun doc => serialize_doc str_other (Some doc))
         (firstn 1 (List.filter q (documents_of c d)))), Some d).
Proof. reflexivity. Qed.

Lemma filter_existsb_false (q : query) (l : list document) :
  existsb q l = false -> List.filter q l = [].
Proof.
  induction l as [|x l IH]; cbn [existsb List.filter]; [reflexivity|].
  destruct (q x); [discriminate|exact IH].
Qed.

Lemma filter_existsb_true (q : query) (l : list document) :
  existsb q l = true ->
  exists x rest, List.filter q l = x :: rest /\ List.find q l = Some x /\ q x = true.
Proof.
  induction l as [|x l IH]; cbn [existsb List.filter List.find]; [discriminate|].
  destruct (q x) eqn:Hx; [eauto|exact IH].
Qed.

Lemma by_email_field (e : string) (doc : document) :
  doc !! "email" = Some (VStr e) -> by_email e doc = true.
Proof.
  intros H. unfold by_email, field_eq. rewrite H. cbn [operand_value].
  now apply bool_decide_eq_true_2.
Qed.

(** X22 — [signup] refuses an email that a stored user record already
    carries with 400 ["Email already registered"] and writes nothing.
    Otherwise it stores one new user under the minted key, with
    [password_hash] the hash of the request's password, [is_admin] false
    and [is_active] true, and answers with the key and [is_admin] false;
    after that every sign-up with the same email is refused. *)
Theorem signup_unique_email
    (str_other : value -> string)
    (cursor_sort : list (string * Z) -> list document -> list document)
    (pwd_context_hash : string -> string -> string)
    (now : datetime) (fresh : ObjectId) (salt : string)
    (payload : SignupRequest.t) (d : database) :
  (existsb (by_email (SignupRequest.email payload)) (documents_of "user" d) = true ->
   signup str_other cursor_sort pwd_context_hash now fresh salt payload (Some d)
     = (Raise (HTTPException 400 "Email already registered"), Some d)) /\
  (existsb (by_email (SignupRequest.email payload)) (documents_of "user" d) = false ->
   stored "user" fresh (Some d) = None ->
   exists d',
     signup str_other cursor_sort pwd_context_hash now fresh salt payload (Some d)
       = (Ok {| LoginResponse.user_id := oid_str fresh;
                LoginResponse.name := SignupRequest.name payload;
                LoginResponse.email := SignupRequest.email payload;
                LoginResponse.is_admin := false |}, Some d') /\
     stored_field "user" fresh "email" (Some d')
       = Some (VStr (SignupRequest.email payload)) /\
     stored_field "user" fresh "password_hash" (Some d')
       = Some (VStr (pwd_context_hash salt (SignupRequest.password payload))) /\
     stored_field "user" fresh "is_admin" (Some d') = Some (VBool false) /\
     stored_field "user" fresh "is_active" (Some d') = Some (VBool true) /\
     List.length (documents_of "user" d') = S (List.length (documents_of "user" d)) /\
     forall now' fresh' salt' payload',
       SignupRequest.email payload' = SignupRequest.email payload ->
       signup str_other cursor_sort pwd_context_hash now' fresh' salt' payload' (Some d')
         = (Raise (HTTPException 400 "Email already registered"), Some d')).
Proof.
  assert (Htaken : forall now fresh salt payload d,
    existsb (by_email (SignupRequest.email payload)) (documents_of "user" d) = true ->
    signup str_other cursor_sort pwd_context_hash now fresh salt payload (Some d)
      = (Raise (HTTPException 400 "Email already registered"), Some d)).
  { clear. intros now fresh salt payload d Hex.
    unfold signup, bind. fold (by_email (SignupRequest.email payload)).
    rewrite get_documents_first.
    destruct (filter_existsb_true _ _ Hex) as (x & rest & -> & _). reflexivity. }
  split; [apply Htaken|].
  intros Hnone Hfree.
  set (user := User_model_dump (SignupRequest.name payload) (SignupRequest.email payload)
                 (pwd_context_hash salt (SignupRequest.password payload))).
  assert (Hid : user !! "_id" = None).
  { unfold user, User_model_dump. cbn [list_to_map foldr uncurry fst snd].
    rewrite !lookup_insert_ne by (intros [=]). apply lookup_empty. }
  assert (Henc : doc_encodable user = true).
  { unfold user, User_model_dump. cbn [list_to_map foldr uncurry fst snd].
    repeat (apply doc_encodable_insert; [reflexivity|]). reflexivity. }
  destruct (create_document_then_find str_other now fresh "user" user d fresh
              (or_introl (conj Hid eq_refl)) Henc Hfree) as (Hc & _).
  eexists. split.
  { unfold signup, bind. fold (by_email (SignupRequest.email payload)).
    rewrite get_documents_first, (filter_existsb_false _ _ Hnone).
    cbn [firstn List.map]. fold user. rewrite Hc. reflexivity. }
  assert (Hfields :
    user !! "email" = Some (VStr (SignupRequest.email payload)) /\
    user !! "password_hash"
      = Some (VStr (pwd_context_hash salt (SignupRequest.password payload))) /\
    user !! "is_admin" = Some (VBool false) /\
    user !! "is_active" = Some (VBool true)).
  { unfold user, User_model_dump. cbn [list_to_map foldr uncurry fst snd].
    repeat split;
      repeat first [ rewrite lookup_insert_eq; reflexivity
                   | rewrite lookup_insert_ne by (intros [=]) ]. }
  destruct Hfields as (He & Hp & Ha & Hact).
  rewrite !(stored_field_created _ _ _ _ _ _ Hfree) by (intros [=]).
  split; [exact He|]. split; [exact Hp|]. split; [exact Ha|]. split; [exact Hact|].
  split.
  { rewrite documents_of_write, bool_decide_eq_true_2 by reflexivity.
    rewrite length_app. cbn [List.length]. apply Nat.add_1_r. }
  intros now' fresh' salt' payload' Hsame. apply Htaken.
  rewrite Hsame, documents_of_write, bool_decide_eq_true_2 by reflexivity.
  rewrite existsb_app. cbn [existsb].
  rewrite (by_email_field _ (created_record now fresh user)); [now rewrite orb_true_r|].
  unfold created_record. now rewrite !lookup_insert_ne by (intros [=]).
Qed.

Lemma signup_unique_email_witness :
  existsb (by_email (SignupRequest.email ann_signup)) (documents_of "user" users_example)
    = true /\
  signup (fun _ => "") (fun _ l => l) (fun salt p => String.append salt p)
    1700000000900000 oid_other "s1" ann_signup (Some users_example)
    = (Raise (HTTPException 400 "Email already registered"), Some users_example) /\
  existsb (by_email (SignupRequest.email bob_signup)) (documents_of "user" users_example)
    = false /\
  stored "user" oid_other (Some users_example) = None /\
  exists d',
    signup (fun _ => "") (fun _ l => l) (fun salt p => String.append salt p)
      1700000000900000 oid_other "s1" bob_signup (Some users_example)
      = (Ok {| LoginResponse.user_id := oid_str oid_other;
               LoginResponse.name := "Bob";
               LoginResponse.email := "bob@example.com";
               LoginResponse.is_admin := false |}, Some d') /\
    stored_field "user" oid_other "password_hash" (Some d') = Some (VStr "s1hunter2").
Proof.
  assert (H1 : existsb (by_email (SignupRequest.email ann_signup))
                 (documents_of "user" users_example) = true) by by_vm.
  assert (H2 : existsb (by_email (SignupRequest.email bob_signup))
                 (documents_of "user" users_example) = false) by by_vm.
  assert (H3 : stored "user" oid_other (Some users_example) = None) by by_vm.
  split; [exact H1|].
  split; [exact (proj1 (signup_unique_email (fun _ => "") (fun _ l => l)
                          (fun salt p => String.append salt p)
                          1700000000900000 oid_other "s1" ann_signup users_example) H1)|].
  refine (conj H2 (conj H3 _)).
  destruct (proj2 (signup_unique_email (fun _ => "") (fun _ l => l)
                     (fun salt p => String.append salt p)
                     1700000000900000 oid_other "s1" bob_signup users_example) H2 H3)
    as (d' & Hrun & _ & Hp & _).
  exists d'. split; [exact Hrun|exact Hp].
Defined.

Lemma serialize_doc_field
    (str_other : value -> string) (doc : document) (k : string) :
  doc <> ∅ -> k <> "_id" ->
  exists r, serialize_doc str_other (Some doc) = Some r /\ r !! k = doc !! k /\
            r !! "_id" = (fun i => VStr (py_str str_other i)) <$> doc !! "_id".
Proof.
  intros Hne Hk. unfold serialize_doc. rewrite (bool_decide_eq_false_2 _ Hne).
  destruct (doc !! "_id") as [i|] eqn:Hi.
  - eexists. split; [reflexivity|]. split.
    + now rewrite lookup_insert_ne by congruence.
    + now rewrite lookup_insert_eq.
  - eexists. split; [reflexivity|]. split; [reflexivity|]. now rewrite Hi.
Qed.

Lemma by_email_non_empty (e : string) (doc : document) :
  by_email e doc = true -> doc <> ∅.
Proof.
  intros H ->. unfold by_email, field_eq in H. rewrite lookup_empty in H. discriminate.
Qed.

(** X23 — [login] never writes. An email that no stored user carries and
    a password that the first matching user's hash does not verify get the
    same answer, 401 ["Invalid credentials"]. When the password verifies
    the answer is built from that record: its key printed, its name and
    email, and [is_admin] taken as false if the record has no such field. *)
Theorem login_answers
    (str_other : value -> string)
    (cursor_sort : list (string * Z) -> list document -> list document)
    (pwd_context_verify : string -> value -> outcome bool)
    (KeyError : exn)
    (LoginResponse_validate : value -> value -> value -> value -> outcome LoginResponse.t)
    (payload : LoginRequest.t) (d : database) :
  let login := login str_other cursor_sort pwd_context_verify KeyError
                 LoginResponse_validate in
  let users := documents_of "user" d in
  (forall w, snd (login payload w) = w) /\
  (existsb (by_email (LoginRequest.email payload)) users = false ->
   login payload (Some d) = (Raise (HTTPException 401 "Invalid credentials"), Some d)) /\
  (forall user h,
     List.find (by_email (LoginRequest.email payload)) users = Some user ->
     user !! "password_hash" = Some h ->
     (pwd_context_verify (LoginRequest.password payload) h = Ok false ->
      login payload (Some d)
        = (Raise (HTTPException 401 "Invalid credentials"), Some d)) /\
     (forall i n e,
        pwd_context_verify (LoginRequest.password payload) h = Ok true ->
        user !! "_id" = Some i -> user !! "name" = Some n -> user !! "email" = Some e ->
        login payload (Some d) =
        (LoginResponse_validate (VStr (py_str str_other i)) n e
           (default (VBool false) (user !! "is_admin")), Some d))).
Proof.
  intros login0 users. unfold login0, login, users.
  fold (by_email (LoginRequest.email payload)).
  split; [|split].
  - intros [d0|]; [|reflexivity]. unfold bind. rewrite get_documents_first.
    destruct (firstn 1 _) as [|x rest]; [reflexivity|]. cbn [List.map].
    destruct (serialize_doc str_other (Some x)) as [user|]; [|reflexivity].
    destruct (user !! "password_hash") as [h|]; [|reflexivity].
    destruct (pwd_context_verify _ h) as [[|]|e]; cbn [lift_outcome ret raise negb];
      [|reflexivity|reflexivity].
    destruct (user !! "_id"), (user !! "name"), (user !! "email"); try reflexivity.
    destruct (LoginResponse_validate _ _ _ _); reflexivity.
  - intros Hnone. unfold bind.
    now rewrite get_documents_first, (filter_existsb_false _ _ Hnone).
  - intros user h Hfind Hh.
    assert (Hq : by_email (LoginRequest.email payload) user = true)
      by (apply find_some in Hfind; tauto).
    assert (Hfilter : exists rest,
              List.filter (by_email (LoginRequest.email payload)) (documents_of "user" d)
              = user :: rest).
    { clear -Hfind. induction (documents_of "user" d) as [|x l IH];
        cbn [List.find List.filter] in *; [discriminate|].
      destruct (by_email _ x); [injection Hfind as ->; eauto|auto]. }
    destruct Hfilter as (rest & Hfilter).
    pose proof (by_email_non_empty _ _ Hq) as Hne.
    destruct (serialize_doc_field str_other user "password_hash" Hne ltac:(intros [=]))
      as (r & Hser & Hrh & Hrid).
    assert (Hr : forall k, k <> "_id" -> r !! k = user !! k).
    { intros k Hk.
      destruct (serialize_doc_field str_other user k Hne Hk) as (r' & Hser' & Hk' & _).
      rewrite Hser in Hser'. now injection Hser' as <-. }
    split.
    + intros Hv. unfold bind.
      rewrite get_documents_first, Hfilter. cbn [firstn List.map].
      rewrite Hser, Hrh, Hh, Hv. reflexivity.
    + intros i n e Hv Hi Hn He. unfold bind.
      rewrite get_documents_first, Hfilter. cbn [firstn List.map].
      rewrite Hser, Hrh, Hh, Hv. cbn [lift_outcome ret negb].
      rewrite Hrid, Hi, !Hr, Hn, He by (intros [=]). cbn [fmap option_fmap option_map].
      destruct (LoginResponse_validate _ _ _ _); reflexivity.
Qed.

Lemma login_answers_witness :
  existsb (by_email (LoginRequest.email bob_login)) (documents_of "user" users_example)
    = false /\
  login (fun _ => "") (fun _ l => l) (fun p h => Ok (bool_decide (h = VStr p)))
    TypeError (fun _ _ _ _ => Raise TypeError) bob_login (Some users_example)
    = (Raise (HTTPException 401 "Invalid credentials"), Some users_example) /\
  List.find (by_email (LoginRequest.email ann_login)) (documents_of "user" users_example)
    = Some user_example /\
  user_example !! "password_hash" = Some (VStr "$2b$ann") /\
  bool_decide (VStr "$2b$ann" = VStr (LoginRequest.password ann_login)) = false /\
  login (fun _ => "") (fun _ l => l) (fun p h => Ok (bool_decide (h = VStr p)))
    TypeError (fun _ _ _ _ => Raise TypeError) ann_login (Some users_example)
    = (Raise (HTTPException 401 "Invalid credentials"), Some users_example).
Proof.
  assert (H1 : existsb (by_email (LoginRequest.email bob_login))
                 (documents_of "user" users_example) = false) by by_vm.
  assert (H2 : List.find (by_email (LoginRequest.email ann_login))
                 (documents_of "user" users_example) = Some user_example) by by_vm.
  assert (H3 : user_example !! "password_hash" = Some (VStr "$2b$ann")) by by_vm.
  assert (H4 : bool_decide (VStr "$2b$ann" = VStr (LoginRequest.password ann_login))
               = false) by by_vm.
  split; [exact H1|].
  split; [exact (proj1 (proj2 (login_answers (fun _ => "") (fun _ l => l)
                   (fun p h => Ok (bool_decide (h = VStr p))) TypeError
                   (fun _ _ _ _ => Raise TypeError) bob_login users_example)) H1)|].
  refine (conj H2 (conj H3 (conj H4 _))).
  exact (proj1 (proj2 (proj2 (login_answers (fun _ => "") (fun _ l => l)
                   (fun p h => Ok (bool_decide (h = VStr p))) TypeError
                   (fun _ _ _ _ => Raise TypeError) ann_login users_example))
                 user_example (VStr "$2b$ann") H2 H3)
           (f_equal Ok H4)).
Defined.

(** ** Listings *)

Lemma filter_match_all (l : list document) : List.filter match_all l = l.
Proof. induction l as [|x l IH]; cbn [List.filter match_all]; congruence. Qed.

(** X24 — With a sort that only reorders the cursor, [list_categories]
    returns the serializations of exactly the stored categories whose
    [is_active] is true, each once; [list_orders] returns every stored
    order when [user_id] is absent or empty, and exactly the orders whose
    [user_id] is the given one otherwise. Neither writes. *)
Theorem listings_select
    (str_other : value -> string)
    (cursor_sort : list (string * Z) -> list document -> list document)
    (d : database) :
  (forall spec l, Permutation (cursor_sort spec l) l) ->
  let ser := fun doc => serialize_doc str_other (Some doc) in
  (exists rs,
     list_categories str_other cursor_sort (Some d) = (Ok rs, Some d) /\
     Permutation rs
       (List.map ser (List.filter (field_eq "is_active" (OBool true))
                        (documents_of "category" d)))) /\
  list_orders str_other cursor_sort (Some "") (Some d)
    = list_orders str_other cursor_sort None (Some d) /\
  (exists rs,
     list_orders str_other cursor_sort None (Some d) = (Ok rs, Some d) /\
     Permutation rs (List.map ser (documents_of "order" d))) /\
  (forall u, u <> "" ->
     exists rs,
       list_orders str_other cursor_sort (Some u) (Some d) = (Ok rs, Some d) /\
       Permutation rs
         (List.map ser (List.filter (field_eq "user_id" (OStr u))
                          (documents_of "order" d)))).
Proof.
  intros Hsort ser. split; [|split; [reflexivity|split]].
  - exists (List.map ser (cursor_sort [("name", 1)]
                (List.filter (field_eq "is_active" (OBool true))
                   (documents_of "category" d)))).
    split; [reflexivity|]. apply Permutation_map, Hsort.
  - exists (List.map ser (cursor_sort [("created_at", -1)]
                (List.filter match_all (documents_of "order" d)))).
    split; [reflexivity|].
    rewrite <- (filter_match_all (documents_of "order" d)) at 2.
    apply Permutation_map, Hsort.
  - intros [|a u] Hu; [contradiction|].
    exists (List.map ser (cursor_sort [("created_at", -1)]
                (List.filter (field_eq "user_id" (OStr (String a u)))
                   (documents_of "order" d)))).
    split; [reflexivity|]. apply Permutation_map, Hsort.
Qed.

Lemma listings_select_witness :
  (forall (spec : list (string * Z)) (l : list document),
     Permutation ((fun _ l => l) spec l) l) /\
  exists rs,
    list_categories (fun _ => "") (fun _ l => l) (Some db_example)
      = (Ok rs, Some db_example) /\
    Permutation rs
      (List.map (fun doc => serialize_doc (fun _ => "") (Some doc))
         (List.filter (field_eq "is_active" (OBool true))
            (documents_of "category" db_example))).
Proof.
  assert (H : forall (spec : list (string * Z)) (l : list document),
            Permutation ((fun _ l => l) spec l) l)
    by (intros spec l; apply Permutation_refl).
  split; [exact H|].
  exact (proj1 (listings_select (fun _ => "") (fun _ l => l) db_example H)).
Defined.

(** ** An order, created and read back *)

(** X25 — The order created for a priced cart is found by [get_order]
    under the identifier that [create_order] answered: the lookup returns
    the stored order with the same order number and total as the answer,
    status ["pending"], and its key printed as that identifier. *)
Theorem create_order_then_get_order
    (str_other : value -> string) (now : datetime) (number_oid fresh : ObjectId)
    (payload : CreateOrderRequest) (d : database) (subtotal : float) :
  items payload <> [] ->
  cart_subtotal (items payload) = Ok subtotal ->
  Forall (fun i => fits_int64 (quantity i) = true) (items payload) ->
  stored "order" fresh (Some d) = None ->
  exists resp w' order_id found,
    create_order str_other now number_oid fresh payload (Some d) = (Ok resp, w') /\
    resp !! "_id" = Some (VStr order_id) /\
    get_order str_other order_id w' = (Ok found, w') /\
    found !! "_id" = Some (VStr order_id) /\
    found !! "order_number" = resp !! "order_number" /\
    found !! "total" = resp !! "total" /\
    found !! "status" = Some (VStr "pending") /\
    found !! "created_at" = Some (bson_datetime now).
Proof.
  intros Hne Hsub Hq Hfree.
  rewrite (create_order_run str_other now number_oid fresh payload d subtotal
             Hne Hsub Hq Hfree).
  clear Hsub Hq.
  set (order := order_of_request number_oid payload subtotal).
  assert (Hst : stored "order" fresh
            (Some (<["order" := documents_of "order" d
                       ++ [created_record now fresh (Order_model_dump order)]]> d))
          = Some (created_record now fresh (Order_model_dump order))).
  { rewrite stored_write.
    assert (Hfree' : List.find (by_id fresh) (documents_of "order" d) = None)
      by exact Hfree.
    apply (find_app_first _ _ [] _ Hfree'). apply by_id_true, lookup_insert_eq. }
  eexists _, _, (oid_str fresh), _. split; [reflexivity|].
  cbn [list_to_map foldr uncurry fst snd].
  split; [apply lookup_insert_eq|].
  split.
  { unfold get_order, bind.
    rewrite (get_document_by_id_parsed str_other _ _ fresh _ (oid_parse_str fresh)), Hst.
    rewrite (bool_decide_eq_false_2 _ (insert_non_empty _ _ _)). reflexivity. }
  destruct (Order_model_dump_more order) as (Hn & _ & _).
  destruct (Order_model_dump_fields order) as (_ & _ & _ & Ht & Hs).
  unfold created_record.
  split; [apply lookup_insert_eq|].
  split; [now rewrite !lookup_insert_ne, lookup_insert_eq, Hn by (intros [=])|].
  split; [now rewrite !lookup_insert_ne, lookup_insert_eq, Ht by (intros [=])|].
  split; [now rewrite !lookup_insert_ne, Hs by (intros [=])|].
  now rewrite !lookup_insert_ne, lookup_insert_eq by (intros [=]).
Qed.

Lemma create_order_then_get_order_witness :
  items example_request <> [] /\
  cart_subtotal (items example_request) = Ok (float_literal 1016 2) /\
  Forall (fun i => fits_int64 (quantity i) = true) (items example_request) /\
  stored "order" oid_other (Some orders_example) = None /\
  exists resp w' order_id found,
    create_order (fun _ => "") 1700000000123456 oid_example oid_other
      example_request (Some orders_example) = (Ok resp, w') /\
    resp !! "_id" = Some (VStr order_id) /\
    get_order (fun _ => "") order_id w' = (Ok found, w') /\
    found !! "order_number" = resp !! "order_number".
Proof.
  assert (H1 : items example_request <> []) by discriminate.
  assert (H2 : cart_subtotal (items example_request) = Ok (float_literal 1016 2))
    by by_vm.
  assert (H3 : Forall (fun i => fits_int64 (quantity i) = true) (items example_request))
    by (repeat constructor).
  assert (H4 : stored "order" oid_other (Some orders_example) = None) by by_vm.
  refine (conj H1 (conj H2 (conj H3 (conj H4 _)))).
  destruct (create_order_then_get_order (fun _ => "") 1700000000123456 oid_example
              oid_other example_request orders_example (float_literal 1016 2)
              H1 H2 H3 H4)
    as (resp & w' & order_id & found & Hc & Hid & Hg & _ & Hn & _).
  exists resp, w', order_id, found. auto.
Defined.

(** ** Removal through the handlers *)

(** X26 — On a store with unique keys, [delete_item] and
    [remove_category] of a stored record answer [{"deleted": True}];
    afterwards the item is no longer found by [get_item], and a second
    removal of the same identifier is answered 404 and changes nothing. *)
Theorem delete_handlers_remove
    (str_other : value -> string) (o : ObjectId) (d : database) (doc : document) :
  keys_unique (Some d) ->
  (stored "fooditem" o (Some d) = Some doc ->
   exists d',
     delete_item (oid_str o) (Some d)
       = (Ok (list_to_map [("deleted", VBool true)]), Some d') /\
     get_item str_other (oid_str o) (Some d')
       = (Raise (HTTPException 404 "Item not found"), Some d') /\
     delete_item (oid_str o) (Some d')
       = (Raise (HTTPException 404 "Item not found"), Some d')) /\
  (stored "category" o (Some d) = Some doc ->
   exists d',
     remove_category (oid_str o) (Some d)
       = (Ok (list_to_map [("deleted", VBool true)]), Some d') /\
     stored "category" o (Some d') = None /\
     remove_category (oid_str o) (Some d')
       = (Raise (HTTPException 404 "Category not found"), Some d')).
Proof.
  intros Hu. split; intros Hst;
    destruct (delete_document_removed _ o d doc Hu Hst) as (d' & Hdel & Hgone & _ & Hdel');
    exists d'.
  - split; [unfold delete_item, bind; now rewrite Hdel|]. split.
    + unfold get_item, bind.
      now rewrite (get_document_by_id_parsed str_other _ _ o d' (oid_parse_str o)), Hgone.
    + unfold delete_item, bind. now rewrite Hdel'.
  - split; [unfold remove_category, bind; now rewrite Hdel|]. split; [exact Hgone|].
    unfold remove_category, bind. now rewrite Hdel'.
Qed.

Lemma delete_handlers_remove_witness :
  keys_unique (Some db_example) /\
  stored "category" oid_example (Some db_example) = Some category_example /\
  exists d',
    remove_category (oid_str oid_example) (Some db_example)
      = (Ok (list_to_map [("deleted", VBool true)]), Some d') /\
    stored "category" oid_example (Some d') = None /\
    remove_category (oid_str oid_example) (Some d')
      = (Raise (HTTPException 404 "Category not found"), Some d').
Proof.
  assert (H : stored "category" oid_example (Some db_example) = Some category_example)
    by by_vm.
  refine (conj db_example_keys_unique (conj H _)).
  exact (proj2 (delete_handlers_remove (fun _ => "") oid_example db_example
                  category_example db_example_keys_unique) H).
Defined.
